(** * SaludGo: the appointment admission subsystem of [app.py]

    A shallow embedding of the appointment handlers of the Flask
    application ([mis_citas], [admin_citas], [admin_appointments_create],
    [send_email]) together with the pieces of the Python standard library
    and of SQLite they rely on, and the properties of the specification
    stated over that embedding.  Requests are served one at a time in
    [Site]; [Overlap] lets the statements of several bookings
    alternate. *)

From Stdlib Require Import ZArith List Bool Lia String Ascii DecimalString.
From Stdlib Require Import Sorting.Permutation Sorting.Sorted.
Import ListNotations.

Local Open Scope string_scope.
Local Open Scope Z_scope.

(** ** Text helpers

    Form values, column values and message fields are byte strings. *)

Module Text.

(** Python truthiness of a [str]: the empty string is falsy. *)
Definition truthy (s : string) : bool :=
  match s with EmptyString => false | String _ _ => true end.

(** [x or d] where [x] is a [str]. *)
Definition or_str (x d : string) : string := if truthy x then x else d.

(** [x or d] where [x] is [None] or a [str]. *)
Definition or_else (x : option string) (d : string) : string :=
  match x with
  | Some s => or_str s d
  | None => d
  end.

(** [x or None] where [x] is a [str]. *)
Definition or_none (x : string) : option string :=
  if truthy x then Some x else None.

(** The ASCII characters for which [str.isspace] holds. *)
Definition is_space (c : ascii) : bool :=
  let n := N_of_ascii c in
  ((9 <=? n) && (n <=? 13) || (28 <=? n) && (n <=? 32))%N.

Fixpoint lstrip (s : string) : string :=
  match s with
  | String c r => if is_space c then lstrip r else s
  | EmptyString => EmptyString
  end.

(** [rstrip] keeps a character when it is not a space or when something
    that is kept follows it. *)
Fixpoint rstrip (s : string) : string :=
  match s with
  | String c r =>
      let r' := rstrip r in
      if is_space c && negb (truthy r') then EmptyString else String c r'
  | EmptyString => EmptyString
  end.

(** [str.strip()] *)
Definition strip (s : string) : string := rstrip (lstrip s).

Definition is_digit (c : ascii) : bool :=
  let n := N_of_ascii c in ((48 <=? n) && (n <=? 57))%N.

Definition digit_val (c : ascii) : Z := Z.of_N (N_of_ascii c) - 48.

Definition digit_char (d : Z) : ascii := ascii_of_N (Z.to_N (48 + d)).

(** The [w] low decimal digits of [n], most significant first: what
    ["%0wd" % n] prints when [0 <= n < 10^w]. *)
Fixpoint zfill (w : nat) (n : Z) : string :=
  match w with
  | O => EmptyString
  | S w' => String (digit_char (n / 10 ^ Z.of_nat w' mod 10))
                   (zfill w' (n mod 10 ^ Z.of_nat w'))
  end.

End Text.

(** ** Calendar dates: [datetime.date] *)

Module Date.

Record date : Type := mkDate { year : Z; month : Z; day : Z }.

Definition MINYEAR : Z := 1.
Definition MAXYEAR : Z := 9999.
Definition _MAXORDINAL : Z := 3652059.

Definition _is_leap (y : Z) : bool :=
  (y mod 4 =? 0) && (negb (y mod 100 =? 0) || (y mod 400 =? 0)).

(** [_DAYS_IN_MONTH], indexed from 1. *)
Definition _DAYS_IN_MONTH (m : Z) : Z :=
  match m with
  | 1 => 31 | 2 => 28 | 3 => 31 | 4 => 30 | 5 => 31 | 6 => 30
  | 7 => 31 | 8 => 31 | 9 => 30 | 10 => 31 | 11 => 30 | 12 => 31
  | _ => -1
  end.

(** [_DAYS_BEFORE_MONTH], indexed from 1. *)
Definition _DAYS_BEFORE_MONTH (m : Z) : Z :=
  match m with
  | 1 => 0 | 2 => 31 | 3 => 59 | 4 => 90 | 5 => 120 | 6 => 151
  | 7 => 181 | 8 => 212 | 9 => 243 | 10 => 273 | 11 => 304 | 12 => 334
  | _ => -1
  end.

Definition _days_in_month (y m : Z) : Z :=
  if (m =? 2) && _is_leap y then 29 else _DAYS_IN_MONTH m.

Definition _days_before_year (y : Z) : Z :=
  let y' := y - 1 in y' * 365 + y' / 4 - y' / 100 + y' / 400.

Definition _days_before_month (y m : Z) : Z :=
  _DAYS_BEFORE_MONTH m + (if (2 <? m) && _is_leap y then 1 else 0).

Definition _ymd2ord (y m d : Z) : Z :=
  _days_before_year y + _days_before_month y m + d.

Definition _DI400Y : Z := 146097.
Definition _DI100Y : Z := 36524.
Definition _DI4Y : Z := 1461.

Definition _ord2ymd (n0 : Z) : date :=
  let n := n0 - 1 in
  let n400 := n / _DI400Y in
  let n := n mod _DI400Y in
  let y := n400 * 400 + 1 in
  let n100 := n / _DI100Y in
  let n := n mod _DI100Y in
  let n4 := n / _DI4Y in
  let n := n mod _DI4Y in
  let n1 := n / 365 in
  let n := n mod 365 in
  let y := y + n100 * 100 + n4 * 4 + n1 in
  if (n1 =? 4) || (n100 =? 4) then mkDate (y - 1) 12 31
  else
    let leapyear := (n1 =? 3) && (negb (n4 =? 24) || (n100 =? 3)) in
    let m := Z.shiftr (n + 50) 5 in
    let preceding :=
      _DAYS_BEFORE_MONTH m + (if (2 <? m) && leapyear then 1 else 0) in
    if n <? preceding then
      let m' := m - 1 in
      let preceding' :=
        preceding
        - (_DAYS_IN_MONTH m' + (if (m' =? 2) && leapyear then 1 else 0)) in
      mkDate y m' (n - preceding' + 1)
    else mkDate y m (n - preceding + 1).

(** [_check_date_fields]: the values a [date] object can hold. *)
Definition valid (d : date) : bool :=
  (MINYEAR <=? year d) && (year d <=? MAXYEAR)
  && (1 <=? month d) && (month d <=? 12)
  && (1 <=? day d) && (day d <=? _days_in_month (year d) (month d)).

Definition toordinal (d : date) : Z := _ymd2ord (year d) (month d) (day d).

Definition fromordinal (n : Z) : date := _ord2ymd n.

(** [d + timedelta(days=k)]; [None] is [OverflowError]. *)
Definition add_days (d : date) (k : Z) : option date :=
  let o := toordinal d + k in
  if (0 <? o) && (o <=? _MAXORDINAL) then Some (fromordinal o) else None.

(** Rich comparison of dates: by year, then month, then day. *)
Definition compare (a b : date) : comparison :=
  match year a ?= year b with
  | Eq => match month a ?= month b with
          | Eq => day a ?= day b
          | c => c
          end
  | c => c
  end.

Definition ltb (a b : date) : bool :=
  match compare a b with Lt => true | _ => false end.

Definition leb (a b : date) : bool :=
  match compare a b with Gt => false | _ => true end.

(** [date.isoformat()]: ["%04d-%02d-%02d" % (year, month, day)]. *)
Definition isoformat (d : date) : string :=
  Text.zfill 4 (year d) ++ "-" ++ Text.zfill 2 (month d) ++ "-"
  ++ Text.zfill 2 (day d).

(** *** [datetime.strptime(s, "%Y-%m-%d")]

    The format compiles to the regular expression
    [(\d\d\d\d)-(1[0-2]|0[1-9]|[1-9])-(3[0-1]|[1-2]\d|0[1-9]|[1-9]| [1-9])],
    matched at the start of the string with ordered alternatives and
    backtracking; digits are the ASCII ones.  The matchers below take the
    rest of the expression as a continuation. *)

Section Regex.
Context {A : Type}.

Definition orelse (x y : option A) : option A :=
  match x with Some _ => x | None => y end.

Definition lit (c : ascii) (k : string -> option A) (s : string)
  : option A :=
  match s with
  | String a r => if Ascii.eqb a c then k r else None
  | EmptyString => None
  end.

Definition one (p : ascii -> bool) (k : Z -> string -> option A)
           (s : string) : option A :=
  match s with
  | String a r => if p a then k (Text.digit_val a) r else None
  | EmptyString => None
  end.

Definition two (p1 p2 : ascii -> bool) (k : Z -> string -> option A)
           (s : string) : option A :=
  match s with
  | String a (String b r) =>
      if p1 a && p2 b
      then k (10 * Text.digit_val a + Text.digit_val b) r
      else None
  | _ => None
  end.

Definition sp_one (p : ascii -> bool) (k : Z -> string -> option A)
           (s : string) : option A :=
  match s with
  | String a (String b r) =>
      if Ascii.eqb a " " && p b then k (Text.digit_val b) r else None
  | _ => None
  end.

Definition four (k : Z -> string -> option A) (s : string) : option A :=
  match s with
  | String a (String b (String c (String d r))) =>
      if Text.is_digit a && Text.is_digit b && Text.is_digit c
         && Text.is_digit d
      then k (1000 * Text.digit_val a + 100 * Text.digit_val b
              + 10 * Text.digit_val c + Text.digit_val d) r
      else None
  | _ => None
  end.
End Regex.

Definition between (lo hi : ascii) (c : ascii) : bool :=
  (N_of_ascii lo <=? N_of_ascii c)%N && (N_of_ascii c <=? N_of_ascii hi)%N.

Definition re_Y {A} := @four A.

Definition re_m {A} (k : Z -> string -> option A) (s : string) : option A :=
  orelse (two (Ascii.eqb "1") (between "0" "2") k s)
 (orelse (two (Ascii.eqb "0") (between "1" "9") k s)
         (one (between "1" "9") k s)).

Definition re_d {A} (k : Z -> string -> option A) (s : string) : option A :=
  orelse (two (Ascii.eqb "3") (between "0" "1") k s)
 (orelse (two (between "1" "2") Text.is_digit k s)
 (orelse (two (Ascii.eqb "0") (between "1" "9") k s)
 (orelse (one (between "1" "9") k s)
         (sp_one (between "1" "9") k s)))).

(** The match object: the three groups and the unconverted rest. *)
Definition regex_match (s : string) : option (Z * Z * Z * string) :=
  re_Y (fun y => lit "-" (re_m (fun m => lit "-" (re_d (fun d r =>
    Some (y, m, d, r)))))) s.

(** [None] stands for [ValueError]: no match, unconverted data left, or
    field values that are no calendar date. *)
Definition strptime (s : string) : option date :=
  match regex_match s with
  | Some (y, m, d, EmptyString) =>
      let r := mkDate y m d in
      if valid r then Some r else None
  | _ => None
  end.

End Date.

Example strptime_plain :
  Date.strptime "2025-12-20" = Some (Date.mkDate 2025 12 20).
Proof. reflexivity. Qed.

Example strptime_short_fields :
  Date.strptime "2025-1-5" = Some (Date.mkDate 2025 1 5).
Proof. reflexivity. Qed.

Example strptime_space_padded_day :
  Date.strptime "2025-12- 5" = Some (Date.mkDate 2025 12 5).
Proof. reflexivity. Qed.

Example strptime_rejects :
  map Date.strptime ["2025-13-01"; "2025-02-30"; "20-12-2025"; "";
                     "2025-12-20 "; "0000-01-01"; "2025-12-311"]
  = [None; None; None; None; None; None; None].
Proof. reflexivity. Qed.

Example isoformat_pads :
  Date.isoformat (Date.mkDate 2025 1 5) = "2025-01-05".
Proof. reflexivity. Qed.

Example add_days_30 :
  Date.add_days (Date.mkDate 2025 12 20) 30 = Some (Date.mkDate 2026 1 19)
  /\ Date.add_days (Date.mkDate 2024 2 1) 30 = Some (Date.mkDate 2024 3 2)
  /\ Date.add_days (Date.mkDate 9999 12 20) 30 = None.
Proof. repeat split; reflexivity. Qed.

(** ** The SQLite store *)

Module Store.

(** Values bound to a statement: [None], an [int] or a [str]. *)
Inductive sql_value : Type :=
| SqlNull
| SqlInt (z : Z)
| SqlText (s : string).

(** What a column of INTEGER affinity holds: a bound value as it is, or
    the REAL that a numeral with a fraction or an exponent was converted
    to, written as the decimal [m * 10 ^ e] it was read from. *)
Inductive column_value : Type :=
| Bound (v : sql_value)
| SqlReal (m e : Z).

Coercion Bound : sql_value >-> column_value.

(** A row of [users]. *)
Record user : Type := mkUser {
  u_id : Z;
  u_username : string;
  u_email : option string;
  u_role : string
}.

(** A row of [appointments].  [user_id] has INTEGER affinity and may hold
    text that is no number; the other columns have TEXT affinity. *)
Record appointment : Type := mkAppointment {
  a_id : Z;
  a_user_id : column_value;
  a_fecha : option string;
  a_hora : option string;
  a_tipo : option string;
  a_lugar : option string;
  a_motivo : option string;
  a_estado : option string;
  a_created_at : option string
}.

Record tables : Type := mkTables {
  users : list user;
  appointments : list appointment;
  appointments_seq : Z
}.

(** The columns [SCHEMA_SQL] declares for [appointments]. *)
Definition appointments_columns : list string :=
  ["id"; "user_id"; "fecha"; "hora"; "tipo"; "lugar"; "motivo"; "estado";
   "created_at"].

Definition has_column (c : string) : bool :=
  existsb (String.eqb c) appointments_columns.

(** *** Numerals in text

    A text that is compared with an INTEGER column, or stored in one, is
    read as a number when it has the form
    [ws] [+|-] digits [. digits] [(e|E) [+|-] digits] [ws]
    with at least one digit before the exponent part; the white space is
    the space and the characters 9 to 13. *)

Definition sqlite_space (c : ascii) : bool :=
  let n := N_of_ascii c in ((n =? 32) || (9 <=? n) && (n <=? 13))%N.

Fixpoint skip_spaces (s : string) : string :=
  match s with
  | String c r => if sqlite_space c then skip_spaces r else s
  | EmptyString => EmptyString
  end.

Fixpoint all_spaces (s : string) : bool :=
  match s with
  | EmptyString => true
  | String c r => sqlite_space c && all_spaces r
  end.

(** The leading digits of a text and what follows them. *)
Fixpoint span_digits (s : string) : string * string :=
  match s with
  | String c r =>
      if Text.is_digit c
      then let (d, t) := span_digits r in (String c d, t)
      else (EmptyString, s)
  | EmptyString => (EmptyString, EmptyString)
  end.

Definition take_sign (s : string) : bool * string :=
  match s with
  | String "-" r => (true, r)
  | String "+" r => (false, r)
  | _ => (false, s)
  end.

Fixpoint digits_value (acc : Z) (s : string) : Z :=
  match s with
  | EmptyString => acc
  | String c r => digits_value (10 * acc + Text.digit_val c) r
  end.

Record numeral : Type := mkNumeral {
  n_negative : bool;
  n_whole : string;                (* the digits before the point *)
  n_fraction : string;             (* the digits after it *)
  n_point : bool;
  n_exponent : option Z            (* None: no exponent part *)
}.

Definition is_e (c : ascii) : bool := Ascii.eqb c "e" || Ascii.eqb c "E".

Definition scan_numeral (s : string) : option numeral :=
  let (neg, s1) := take_sign (skip_spaces s) in
  let (ip, s2) := span_digits s1 in
  let '(point, fp, s3) :=
    match s2 with
    | String "." r => let (fp, r') := span_digits r in (true, fp, r')
    | _ => (false, EmptyString, s2)
    end in
  if negb (Text.truthy ip) && negb (Text.truthy fp) then None
  else
    match s3 with
    | EmptyString => Some (mkNumeral neg ip fp point None)
    | String c r =>
        if is_e c then
          let (eneg, r1) := take_sign r in
          let (ed, r2) := span_digits r1 in
          if Text.truthy ed && all_spaces r2
          then Some (mkNumeral neg ip fp point
                       (Some (if eneg then - digits_value 0 ed
                              else digits_value 0 ed)))
          else None
        else if all_spaces s3 then Some (mkNumeral neg ip fp point None)
        else None
    end.

Fixpoint drop_leading_zeros (s : string) : string :=
  match s with
  | String c r => if Ascii.eqb c "0" then drop_leading_zeros r else s
  | EmptyString => EmptyString
  end.

Fixpoint drop_trailing_zeros (s : string) : string :=
  match s with
  | String c r =>
      let r' := drop_trailing_zeros r in
      if Ascii.eqb c "0" && negb (Text.truthy r') then EmptyString
      else String c r'
  | EmptyString => EmptyString
  end.

Definition digits_of (n : numeral) : string := (n_whole n ++ n_fraction n)%string.

(** The numeral is [significand * 10 ^ scale], with a significand that
    neither starts nor ends with a zero. *)
Definition significand (n : numeral) : string :=
  drop_leading_zeros (drop_trailing_zeros (digits_of n)).

Definition exponent_part (n : numeral) : Z :=
  match n_exponent n with Some x => x | None => 0 end.

Definition scale (n : numeral) : Z :=
  exponent_part n - Z.of_nat (String.length (n_fraction n))
  + Z.of_nat (String.length (digits_of n)
              - String.length (drop_trailing_zeros (digits_of n))).

(** Digits only, with an optional sign. *)
Definition integer_literal (n : numeral) : bool :=
  negb (n_point n)
  && match n_exponent n with None => true | Some _ => false end.

Definition in_int64 (z : Z) : bool := (- 2 ^ 63 <=? z) && (z <? 2 ^ 63).

Definition signed (neg : bool) (z : Z) : Z := if neg then - z else z.

(** At most 15 significant digits and an exponent part below 10000 in
    absolute value: the significand fits a binary64 number without loss
    and the exponent is read as written. *)
Definition steady (n : numeral) : bool :=
  (String.length (significand n) <=? 15)%nat
  && (Z.abs (exponent_part n) <=? 9999).

Inductive reading : Type :=
| NotNumeric
| IsInteger (z : Z)
| IsReal (m e : Z).

(** The number SQLite reads from a text.  An integer literal is read as
    written when it fits 64 bits.  A numeral with a fraction or an
    exponent goes through a binary floating-point number: it is read as
    an integer when it is zero, or when it is [steady] and its value is
    an integer below [2 ^ 53]; every other numeral is read as a REAL. *)
Definition read_numeral (s : string) : reading :=
  match scan_numeral s with
  | None => NotNumeric
  | Some n =>
      let m := digits_value 0 (significand n) in
      let k := scale n in
      if integer_literal n then
        let z := signed (n_negative n) (digits_value 0 (n_whole n)) in
        if in_int64 z then IsInteger z else IsReal (signed (n_negative n) m) k
      else if m =? 0 then IsInteger 0
      else if steady n then
        if 0 <=? k then
          if k <=? 15 then
            if m * 10 ^ k <? 2 ^ 53
            then IsInteger (signed (n_negative n) (m * 10 ^ k))
            else IsReal (signed (n_negative n) m) k
          else IsReal (signed (n_negative n) m) k
        else IsReal (signed (n_negative n) m) k
      else IsReal (signed (n_negative n) m) k
  end.

(** The texts whose reading does not depend on how the floating-point
    conversion rounds: text that is no numeral, integer literals, zero,
    and the [steady] numerals that are an integer below [2 ^ 53] or have
    a fraction of at most 300 places.  Outside of them (a long
    significand, a value that a binary64 number cannot hold, an
    underflow) SQLite may read an integer where [read_numeral] gives a
    REAL; where [read_numeral] gives an integer, SQLite reads that
    integer. *)
Definition exact_reading (s : string) : bool :=
  match scan_numeral s with
  | None => true
  | Some n =>
      let m := digits_value 0 (significand n) in
      let k := scale n in
      if integer_literal n then true
      else if m =? 0 then true
      else if steady n then
        if 0 <=? k then
          if k <=? 15 then m * 10 ^ k <? 2 ^ 53 else false
        else - 300 <=? k
      else false
  end.

(** Storing into a column of INTEGER affinity. *)
Definition integer_affinity (v : sql_value) : column_value :=
  match v with
  | SqlText s =>
      match read_numeral s with
      | NotNumeric => Bound v
      | IsInteger z => Bound (SqlInt z)
      | IsReal m e => SqlReal m e
      end
  | _ => Bound v
  end.

(** Storing into a column of TEXT affinity. *)
Definition text_affinity (v : sql_value) : option string :=
  match v with
  | SqlNull => None
  | SqlInt z => Some (DecimalString.NilZero.string_of_int (Z.to_int z))
  | SqlText s => Some s
  end.

(** [id = ?] on the INTEGER PRIMARY KEY with a bound parameter: text is
    converted as for INTEGER affinity, NULL equals nothing. *)
Definition id_matches (v : sql_value) (id : Z) : bool :=
  match integer_affinity v with
  | Bound (SqlInt z) => z =? id
  | _ => false
  end.

Definition option_string_eqb (a : option string) (b : string) : bool :=
  match a with
  | Some s => String.eqb s b
  | None => false
  end.

(** [SELECT COUNT( * ) FROM appointments WHERE fecha=?] *)
Definition count_by_fecha (fecha : string) (l : list appointment) : Z :=
  Z.of_nat (List.length (filter (fun a => option_string_eqb (a_fecha a) fecha) l)).

(** [SELECT ... FROM users WHERE id=?], [fetchone()] *)
Definition user_by_id (v : sql_value) (l : list user) : option user :=
  find (fun u => id_matches v (u_id u)) l.

(** *** ORDER BY: a stable insertion sort on a boolean order *)

Section Sort.
Context {A : Type} (le : A -> A -> bool).

Fixpoint insert_sorted (x : A) (l : list A) : list A :=
  match l with
  | [] => [x]
  | y :: r => if le x y then x :: l else y :: insert_sorted x r
  end.

Definition order_by (l : list A) : list A :=
  fold_right insert_sorted [] l.

End Sort.

(** Comparison of two values of a TEXT column: NULL first, then text in
    byte order. *)
Definition text_compare (a b : option string) : comparison :=
  match a, b with
  | None, None => Eq
  | None, Some _ => Lt
  | Some _, None => Gt
  | Some x, Some y => String.compare x y
  end.

(** The sort key of [ORDER BY fecha, hora]. *)
Definition fecha_hora_compare (a b : option string * option string)
  : comparison :=
  match text_compare (fst a) (fst b) with
  | Eq => text_compare (snd a) (snd b)
  | c => c
  end.

Definition fecha_hora_leb (a b : option string * option string) : bool :=
  match fecha_hora_compare a b with Gt => false | _ => true end.

(** The columns [fecha, hora, tipo, lugar, estado] of a row. *)
Record listed : Type := mkListed {
  l_fecha : option string;
  l_hora : option string;
  l_tipo : option string;
  l_lugar : option string;
  l_estado : option string
}.

Definition listed_of (a : appointment) : listed :=
  mkListed (a_fecha a) (a_hora a) (a_tipo a) (a_lugar a) (a_estado a).

Definition listed_key (r : listed) : option string * option string :=
  (l_fecha r, l_hora r).

Definition listed_leb (x y : listed) : bool :=
  fecha_hora_leb (listed_key x) (listed_key y).

Definition owned_by (uid : Z) (a : appointment) : bool :=
  match a_user_id a with
  | Bound (SqlInt z) => z =? uid
  | _ => false
  end.

(** [SELECT fecha, hora, tipo, lugar, estado FROM appointments
     WHERE user_id=? ORDER BY fecha, hora] *)
Definition appointments_of_user (uid : Z) (l : list appointment)
  : list listed :=
  order_by listed_leb (map listed_of (filter (owned_by uid) l)).

(** [fecha BETWEEN lo AND hi] on a TEXT column. *)
Definition fecha_between (lo hi : string) (a : appointment) : bool :=
  match a_fecha a with
  | Some s => String.leb lo s && String.leb s hi
  | None => false
  end.

Fixpoint fechas (l : list appointment) : list string :=
  match l with
  | [] => []
  | a :: r =>
      match a_fecha a with
      | Some s => s :: fechas r
      | None => fechas r
      end
  end.

(** [SELECT fecha, COUNT( * ) as n FROM appointments
     WHERE fecha BETWEEN ? AND ? GROUP BY fecha]: one row per distinct
    [fecha] in the range, in the order of the grouping key. *)
Definition counts_between (lo hi : string) (l : list appointment)
  : list (string * Z) :=
  let inside := filter (fecha_between lo hi) l in
  map (fun s => (s, count_by_fecha s inside))
      (order_by String.leb (nodup string_dec (fechas inside))).

End Store.

(** ** Requests, effects and the handlers *)

Module App.

Import Store.

(** Module-level configuration, read once at import. *)
Record config : Type := mkConfig {
  MAX_APPOINTMENTS_PER_DAY : Z;
  ADMIN_EMAIL : string
}.

(** A message handed to [send_email].  The bodies are kept as the values
    interpolated into the fixed templates. *)
Record message : Type := mkMessage {
  msg_from : string;
  msg_to : string;
  msg_subject : string;
  msg_fields : list string
}.

(** What a request finds outside the program: the clock, the SMTP
    settings of the process environment and the mail server. *)
Record env : Type := mkEnv {
  today : Date.date;                    (* date.today() *)
  CURRENT_TIMESTAMP : string;
  SMTP_HOST : option string;
  SMTP_PORT : option Z;                 (* int(...); None: ValueError *)
  SMTP_USER : option string;
  SMTP_PASS : option string;
  SMTP_FROM : option string;
  smtp_accepts : message -> bool        (* false: smtplib raises *)
}.

Inductive exn : Type :=
| OperationalError (msg : string)
| IntegrityError (msg : string)
| ProgrammingError
| ValueError
| OverflowError
| SMTPException.

Inductive query : Type :=
| QCountByFecha (fecha : string)
| QAppointmentsOfUser (uid : Z)
| QCountsBetween (lo hi : string)
| QUserById (v : sql_value)
| QUsersByName
| QRecentAppointments.

Inductive delivery : Type := Printed | Smtp.

(** The observable steps of a request, in order. *)
Inductive event : Type :=
| EvRead (q : query)
| EvInsert (a : appointment)
| EvCommit
| EvFlash (msg category : string)
| EvMail (how : delivery) (m : message).

(** The database file ([committed]), the connection's view of it
    ([conn], with the rows of the open transaction) and the log. *)
Record world : Type := mkWorld {
  committed : tables;
  conn : tables;
  trace : list event
}.

Inductive result (A : Type) : Type :=
| Ok (a : A)
| Raise (e : exn).
Arguments Ok {A} a.
Arguments Raise {A} e.

Definition M (A : Type) : Type := world -> result A * world.

Definition ret {A} (a : A) : M A := fun w => (Ok a, w).

Definition bind {A B} (c : M A) (k : A -> M B) : M B :=
  fun w =>
    match c w with
    | (Ok a, w') => k a w'
    | (Raise e, w') => (Raise e, w')
    end.

Definition raise {A} (e : exn) : M A := fun w => (Raise e, w).

Declare Scope handler_scope.
Delimit Scope handler_scope with handler.
Notation "x <- c ;; k" := (bind c (fun x => k))
  (at level 61, c at next level, right associativity) : handler_scope.
Notation "c ;; k" := (bind c (fun _ => k))
  (at level 61, right associativity) : handler_scope.
Local Open Scope handler_scope.

Definition emit (ev : event) : M unit :=
  fun w => (Ok tt, mkWorld (committed w) (conn w) (trace w ++ [ev])).

Definition read {A} (q : query) (f : tables -> A) : M A :=
  fun w => (Ok (f (conn w)),
            mkWorld (committed w) (conn w) (trace w ++ [EvRead q])).

(** [flash(msg, category)] *)
Definition flash (msg category : string) : M unit := emit (EvFlash msg category).

(** [db.commit()] *)
Definition commit : M unit :=
  fun w => (Ok tt, mkWorld (conn w) (conn w) (trace w ++ [EvCommit])).

Fixpoint bound (cols : list string) (vals : list sql_value) (c : string)
  : option sql_value :=
  match cols, vals with
  | k :: cols', v :: vals' => if String.eqb k c then Some v else bound cols' vals' c
  | _, _ => None
  end.

Definition or_null (v : option sql_value) : sql_value :=
  match v with Some x => x | None => SqlNull end.

(** The row an INSERT naming [cols] builds from its parameters; columns
    left out take their default.  No statement of the program supplies
    [id] or [created_at]. *)
Definition new_appointment (e : env) (t : tables) (cols : list string)
           (vals : list sql_value) : appointment :=
  let get c := or_null (bound cols vals c) in
  {| a_id := appointments_seq t + 1;
     a_user_id := integer_affinity (get "user_id");
     a_fecha := text_affinity (get "fecha");
     a_hora := text_affinity (get "hora");
     a_tipo := text_affinity (get "tipo");
     a_lugar := text_affinity (get "lugar");
     a_motivo := text_affinity (get "motivo");
     a_estado := match bound cols vals "estado" with
                 | Some v => text_affinity v
                 | None => Some "Agendada"
                 end;
     a_created_at := Some (CURRENT_TIMESTAMP e) |}.

(** [db.execute("INSERT INTO appointments(cols) VALUES(?,...)", vals)] *)
Definition insert_appointment (e : env) (cols : list string)
           (vals : list sql_value) : M unit :=
  fun w =>
    match find (fun c => negb (has_column c)) cols with
    | Some c =>
        (Raise (OperationalError
                  ("table appointments has no column named " ++ c)), w)
    | None =>
        if negb (Nat.eqb (List.length cols) (List.length vals))
        then (Raise ProgrammingError, w)
        else
          let a := new_appointment e (conn w) cols vals in
          match a_user_id a with
          | Bound SqlNull =>
              (Raise (IntegrityError
                        "NOT NULL constraint failed: appointments.user_id"), w)
          | _ =>
              let t := conn w in
              (Ok tt,
               mkWorld (committed w)
                       (mkTables (users t) (appointments t ++ [a])
                                 (appointments_seq t + 1))
                       (trace w ++ [EvInsert a]))
          end
    end.

Definition present (x : option string) : bool :=
  match x with Some s => Text.truthy s | None => false end.

(** [send_email(to_email, subject, html_body, text_body)] *)
Definition send_email (e : env) (to_email subject : string)
           (fields : list string) : M unit :=
  match SMTP_PORT e with
  | None => raise ValueError
  | Some _ =>
      let from_addr :=
        match SMTP_FROM e with
        | Some f => f
        | None => Text.or_else (SMTP_USER e) "no-reply@saludgo.local"
        end in
      let m := mkMessage from_addr to_email subject fields in
      if negb (present (SMTP_HOST e)) || negb (present (SMTP_USER e))
         || negb (present (SMTP_PASS e))
      then emit (EvMail Printed m)
      else if smtp_accepts e m then emit (EvMail Smtp m)
      else raise SMTPException
  end.

Inductive http_method : Type := GET | POST.

Record request : Type := mkRequest {
  method : http_method;
  session_user_id : option Z;
  form : list (string * string)
}.

(** [request.form.get(name)] *)
Fixpoint form_get (f : list (string * string)) (name : string)
  : option string :=
  match f with
  | [] => None
  | (k, v) :: r => if String.eqb k name then Some v else form_get r name
  end.

Definition opt_text (x : option string) : sql_value :=
  match x with Some s => SqlText s | None => SqlNull end.

(** The context passed to [mis_citas.html]. *)
Record mis_citas_page : Type := mkPage {
  page_user : user;
  my_appointments : list listed;
  disabled_dates : list string;
  page_today : string;
  max_date : string;
  max_per_day : Z
}.

(** The context passed to [admin_citas.html], but for its table of
    appointments: the 100 newest rows joined with their users, in an
    order that SQL leaves open among rows of one [created_at]. *)
Record admin_citas_page : Type := mkAdminPage {
  admin_page_user : option user;
  admin_page_users : list (Z * string * option string)
}.

Inductive response : Type :=
| Redirect (endpoint : string)
| RenderMisCitas (p : mis_citas_page)
| RenderAdminCitas (p : admin_citas_page).

(** [current_user()] *)
Definition current_user (req : request) : M (option user) :=
  match session_user_id req with
  | Some uid => read (QUserById (SqlInt uid)) (fun t => user_by_id (SqlInt uid) (users t))
  | None => ret None
  end.

Definition login_required (view : user -> request -> M response)
           (req : request) : M response :=
  u <- current_user req ;;
  match u with
  | None =>
      flash "Debes ingresar para ver esta página." "warning" ;;
      ret (Redirect "index")
  | Some u => view u req
  end.

Definition admin_required (view : request -> M response) (req : request)
  : M response :=
  u <- current_user req ;;
  match u with
  | Some u =>
      if String.eqb (u_role u) "admin" then view req
      else
        flash "Acceso solo para administradores" "danger" ;;
        ret (Redirect "index")
  | None =>
      flash "Acceso solo para administradores" "danger" ;;
      ret (Redirect "index")
  end.

Definition parse_date (s : string) : option Date.date := Date.strptime s.

Definition msg_invalid_date : string :=
  "Selecciona una fecha válida para la cita.".
Definition msg_past_date : string :=
  "No puedes agendar en una fecha pasada.".
Definition msg_no_capacity : string :=
  "Esa fecha ya no tiene cupos disponibles. Elige otro día.".
Definition msg_booked : string := "Tu cita se generó exitosamente.".

Definition insert_columns : list string :=
  ["user_id"; "fecha"; "hora"; "tipo"; "lugar"; "motivo"; "estado"].

Section Handlers.
Variable cfg : config.
Variable e : env.

(** The two notifications of a booking. *)
Definition notify_booking (u : user) (tipo fecha hora_str lugar estado motivo : string)
  : M unit :=
  (if present (u_email u)
   then send_email e (Text.or_else (u_email u) "") "Cita agendada — SaludGo"
          [u_username u; tipo; fecha; Text.or_str hora_str "por definir";
           lugar; estado; Text.or_str motivo "-"]
   else ret tt) ;;
  (if Text.truthy (ADMIN_EMAIL cfg)
   then send_email e (ADMIN_EMAIL cfg) "Nueva cita programada — SaludGo"
          [u_username u; fecha; Text.or_str hora_str "por definir"; tipo;
           lugar; Text.or_str motivo "-"; estado]
   else ret tt).

(** [mis_citas], behind [login_required]: [u] is [current_user()]. *)
Definition mis_citas (u : user) (req : request) : M response :=
  let MAX_PER_DAY := MAX_APPOINTMENTS_PER_DAY cfg in
  match method req with
  | POST =>
      let tipo :=
        Text.or_str (Text.strip (Text.or_else (form_get (form req) "tipo") ""))
                    "Consulta" in
      let motivo := Text.strip (Text.or_else (form_get (form req) "motivo") "") in
      let fecha_str := Text.or_else (form_get (form req) "preferencia_fecha") "" in
      let hora_str := Text.or_else (form_get (form req) "preferencia_hora") "" in
      let lugar :=
        Text.or_str (Text.strip (Text.or_else (form_get (form req) "lugar") ""))
                    "Por definir" in
      match parse_date fecha_str with
      | None =>
          flash msg_invalid_date "warning" ;;
          ret (Redirect "mis_citas")
      | Some fecha =>
          if Date.ltb fecha (today e) then
            flash msg_past_date "warning" ;;
            ret (Redirect "mis_citas")
          else
            total <- read (QCountByFecha (Date.isoformat fecha))
                       (fun t => count_by_fecha (Date.isoformat fecha)
                                                (appointments t)) ;;
            if MAX_PER_DAY <=? total then
              flash msg_no_capacity "warning" ;;
              ret (Redirect "mis_citas")
            else
              let estado := "Agendada" in
              insert_appointment e insert_columns
                [SqlInt (u_id u); SqlText (Date.isoformat fecha);
                 opt_text (Text.or_none hora_str); SqlText tipo;
                 SqlText lugar; SqlText motivo; SqlText estado] ;;
              commit ;;
              flash msg_booked "success" ;;
              notify_booking u tipo (Date.isoformat fecha) hora_str lugar
                             estado motivo ;;
              ret (Redirect "mis_citas")
      end
  | GET =>
      mine <- read (QAppointmentsOfUser (u_id u))
                (fun t => appointments_of_user (u_id u) (appointments t)) ;;
      match Date.add_days (today e) 30 with
      | None => raise OverflowError
      | Some horizon =>
          rows <- read (QCountsBetween (Date.isoformat (today e))
                                       (Date.isoformat horizon))
                    (fun t => counts_between (Date.isoformat (today e))
                                             (Date.isoformat horizon)
                                             (appointments t)) ;;
          ret (RenderMisCitas
                 {| page_user := u;
                    my_appointments := mine;
                    disabled_dates :=
                      map fst (filter (fun r => MAX_PER_DAY <=? snd r) rows);
                    page_today := Date.isoformat (today e);
                    max_date := Date.isoformat horizon;
                    max_per_day := MAX_PER_DAY |})
      end
  end.

(** [admin_appointments_create], behind [admin_required].
    [app.config] has no ["ADMIN_EMAIL"] key, so the copy to the
    administrator is never sent. *)
Definition admin_appointments_create (req : request) : M response :=
  let f := form req in
  let user_id := form_get f "user_id" in
  let fecha := Text.or_none (Text.strip (Text.or_else (form_get f "fecha") "")) in
  let hora := Text.or_none (Text.strip (Text.or_else (form_get f "hora") "")) in
  let tipo := Text.strip (Text.or_else (form_get f "tipo") "") in
  let lugar := Text.strip (Text.or_else (form_get f "lugar") "Por definir") in
  let note := Text.strip (Text.or_else (form_get f "motivo") "") in
  let estado := Text.strip (Text.or_else (form_get f "estado") "Agendada") in
  u <- read (QUserById (opt_text user_id))
         (fun t => user_by_id (opt_text user_id) (users t)) ;;
  match u with
  | None =>
      flash "Usuario inválido para la cita." "danger" ;;
      ret (Redirect "admin")
  | Some u =>
      insert_appointment e
        ["user_id"; "fecha"; "hora"; "tipo"; "lugar"; "note"; "estado"]
        [SqlInt (u_id u); opt_text fecha; opt_text hora; SqlText tipo;
         SqlText lugar; SqlText note; SqlText estado] ;;
      commit ;;
      (if present (u_email u)
       then send_email e (Text.or_else (u_email u) "") "Cita programada — SaludGo"
              [u_username u; Text.or_else fecha "Por asignar";
               Text.or_else hora "Por asignar"; Text.or_str tipo "—";
               Text.or_str lugar "Por definir"; estado]
       else ret tt) ;;
      flash "Cita creada exitosamente." "success" ;;
      ret (Redirect "admin")
  end.

(** [admin_citas], behind [admin_required]. *)
Definition admin_citas (req : request) : M response :=
  users <- read QUsersByName
             (fun t => map (fun u => (u_id u, u_username u, u_email u))
                           (order_by (fun a b => String.leb (u_username a)
                                                            (u_username b))
                                     (Store.users t))) ;;
  match method req with
  | POST =>
      let f := form req in
      let user_id := form_get f "user_id" in
      let fecha :=
        Text.or_none (Text.strip (Text.or_else (form_get f "fecha") "")) in
      let hora :=
        Text.or_none (Text.strip (Text.or_else (form_get f "hora") "")) in
      let tipo :=
        Text.or_str (Text.strip (Text.or_else (form_get f "tipo") ""))
                    "Consulta" in
      let lugar :=
        Text.or_str (Text.strip (Text.or_else (form_get f "lugar") ""))
                    "Por definir" in
      let motivo := Text.strip (Text.or_else (form_get f "motivo") "") in
      let estado :=
        Text.or_str (Text.strip (Text.or_else (form_get f "estado") ""))
                    "Agendada" in
      if negb (present user_id) then
        flash "Debes seleccionar un usuario." "warning" ;;
        ret (Redirect "admin_citas")
      else
        insert_appointment e insert_columns
          [opt_text user_id; opt_text fecha; opt_text hora; SqlText tipo;
           SqlText lugar; SqlText motivo; SqlText estado] ;;
        commit ;;
        user <- read (QUserById (opt_text user_id))
                  (fun t => user_by_id (opt_text user_id) (Store.users t)) ;;
        (match user with
         | Some user =>
             if present (u_email user)
             then send_email e (Text.or_else (u_email user) "")
                    "Cita creada por el equipo de SaludGo"
                    [u_username user; tipo; Text.or_else fecha "por definir";
                     Text.or_else hora "por definir"; lugar; estado;
                     Text.or_str motivo "-"]
             else ret tt
         | None => ret tt
         end) ;;
        flash "Cita creada para el usuario." "success" ;;
        ret (Redirect "admin_citas")
  | GET =>
      read QRecentAppointments (fun _ => tt) ;;
      u <- current_user req ;;
      ret (RenderAdminCitas
             {| admin_page_user := u; admin_page_users := users |})
  end.

End Handlers.

(** The appointments query of [perfil]: the statement [mis_citas] also
    runs for its listing. *)
Definition perfil_my_appointments (u : user) : M (list listed) :=
  read (QAppointmentsOfUser (u_id u))
       (fun t => appointments_of_user (u_id u) (appointments t)).

(** One request against the database file [db]: the response or the
    exception that escapes the view, the file after [close_db] (what was
    not committed is lost) and the log. *)
Definition serve (h : M response) (db : tables)
  : result response * tables * list event :=
  let '(r, w) := h (mkWorld db db []) in (r, committed w, trace w).

Definition response_of (x : result response * tables * list event) := fst (fst x).
Definition db_of (x : result response * tables * list event) := snd (fst x).
Definition trace_of (x : result response * tables * list event) := snd x.

End App.

(** ** Routes and sequences of requests *)

Module Site.

Import Store App.
Local Open Scope handler_scope.

Inductive route : Type :=
| RouteMisCitas                  (* /mis_citas *)
| RouteAdminCitas                (* /admin/citas *)
| RouteAdminAppointmentsCreate.  (* /admin/appointments/create *)

Definition dispatch (cfg : config) (e : env) (r : route) (req : request)
  : M response :=
  match r with
  | RouteMisCitas => login_required (mis_citas cfg e) req
  | RouteAdminCitas => admin_required (admin_citas e) req
  | RouteAdminAppointmentsCreate =>
      admin_required (admin_appointments_create e) req
  end.

(** A request as it reaches the application. *)
Record call : Type := mkCall {
  call_env : env;
  call_route : route;
  call_request : request
}.

(** A request served from its first statement to its last with no other
    request in between. *)
Definition step (cfg : config) (db : tables) (c : call) : tables :=
  db_of (serve (dispatch cfg (call_env c) (call_route c) (call_request c)) db).

(** The requests of [calls] served one at a time, each on the database
    the one before has left.  Requests whose statements alternate are
    the subject of [Overlap] below. *)
Definition run (cfg : config) (calls : list call) (db : tables) : tables :=
  fold_left (step cfg) calls db.

(** The database [init_db] leaves on first use: the default
    administrator and no appointment. *)
Definition initial_db : tables :=
  mkTables [mkUser 1 "admin" (Some "admin@saludgo.local") "admin"] [] 0.

(** No [fecha] holds more rows than the daily maximum. *)
Definition within_capacity (cfg : config) (db : tables) : Prop :=
  forall d : Date.date,
    count_by_fecha (Date.isoformat d) (appointments db)
    <= MAX_APPOINTMENTS_PER_DAY cfg.

(** The submitted date of a booking form. *)
Definition fecha_field (req : request) : string :=
  Text.or_else (form_get (form req) "preferencia_fecha") "".

(** The row [mis_citas] inserts for the date [d]. *)
Definition booked_row (e : env) (u : user) (req : request) (d : Date.date)
           (db : tables) : appointment :=
  mkAppointment
    (appointments_seq db + 1)
    (SqlInt (u_id u))
    (Some (Date.isoformat d))
    (Text.or_none (Text.or_else (form_get (form req) "preferencia_hora") ""))
    (Some (Text.or_str
             (Text.strip (Text.or_else (form_get (form req) "tipo") ""))
             "Consulta"))
    (Some (Text.or_str
             (Text.strip (Text.or_else (form_get (form req) "lugar") ""))
             "Por definir"))
    (Some (Text.strip (Text.or_else (form_get (form req) "motivo") "")))
    (Some "Agendada")
    (Some (CURRENT_TIMESTAMP e)).

Definition add_row (db : tables) (a : appointment) : tables :=
  mkTables (users db) (appointments db ++ [a]) (appointments_seq db + 1).

Definition is_mail (ev : event) : bool :=
  match ev with EvMail _ _ => true | _ => false end.

Definition is_insert (ev : event) : bool :=
  match ev with EvInsert _ => true | _ => false end.

Definition is_store_access (ev : event) : bool :=
  match ev with
  | EvRead (QCountByFecha _) | EvInsert _ | EvCommit => true
  | _ => false
  end.

(** The messages of a log, in order. *)
Fixpoint mails (tr : list event) : list message :=
  match tr with
  | [] => []
  | EvMail _ m :: r => m :: mails r
  | _ :: r => mails r
  end.

(** What [send_email] does with a message. *)
Definition transport (e : env) (m : message) : result delivery :=
  match SMTP_PORT e with
  | None => Raise ValueError
  | Some _ =>
      if negb (present (SMTP_HOST e)) || negb (present (SMTP_USER e))
         || negb (present (SMTP_PASS e))
      then Ok Printed
      else if smtp_accepts e m then Ok Smtp else Raise SMTPException
  end.

Definition sender (e : env) : string :=
  match SMTP_FROM e with
  | Some f => f
  | None => Text.or_else (SMTP_USER e) "no-reply@saludgo.local"
  end.

Definition log (w : world) (tr : list event) : world :=
  mkWorld (committed w) (conn w) (trace w ++ tr).

Lemma send_email_run e to subject fields w :
  send_email e to subject fields w =
  match transport e (mkMessage (sender e) to subject fields) with
  | Ok how =>
      (Ok tt, log w [EvMail how (mkMessage (sender e) to subject fields)])
  | Raise x => (Raise x, w)
  end.
Proof.
  unfold send_email, transport, sender.
  destruct (SMTP_PORT e); [|reflexivity].
  destruct (negb (present (SMTP_HOST e)) || negb (present (SMTP_USER e))
            || negb (present (SMTP_PASS e))); [reflexivity|].
  match goal with |- context [smtp_accepts e ?m] =>
    destruct (smtp_accepts e m) end; reflexivity.
Qed.

Lemma log_nil w : log w [] = w.
Proof. destruct w; unfold log; simpl; now rewrite app_nil_r. Qed.

Lemma log_log w a b : log (log w a) b = log w (a ++ b).
Proof. unfold log; simpl; now rewrite app_assoc. Qed.

Lemma insert_appointment_run e vals w :
  List.length vals = 7%nat ->
  integer_affinity (or_null (bound insert_columns vals "user_id")) <> SqlNull ->
  insert_appointment e insert_columns vals w =
  (Ok tt,
   mkWorld (committed w)
           (add_row (conn w) (new_appointment e (conn w) insert_columns vals))
           (trace w ++ [EvInsert (new_appointment e (conn w) insert_columns vals)])).
Proof.
  intros Hlen Hnn. unfold insert_appointment.
  change (find (fun c => negb (has_column c)) insert_columns) with (@None string).
  rewrite Hlen. cbn [insert_columns List.length Nat.eqb negb].
  remember (new_appointment e (conn w) insert_columns vals) as a eqn:Ha.
  assert (Hu : a_user_id a
               = integer_affinity (or_null (bound insert_columns vals "user_id")))
    by (subst a; reflexivity).
  destruct (a_user_id a) as [[| |]|] eqn:Hau; try reflexivity.
  congruence.
Qed.

(** The addresses a booking is announced to: the owner's when one is on
    file, then the administrator's when one is configured. *)
Definition recipients (cfg : config) (u : user) : list string :=
  ((if present (u_email u) then [Text.or_else (u_email u) ""] else [])
   ++ (if Text.truthy (ADMIN_EMAIL cfg) then [ADMIN_EMAIL cfg] else []))%list.

(** The mail server takes every message. *)
Definition transport_works (e : env) : Prop :=
  forall m, exists how, transport e m = Ok how.

Ltac case_transport how x H :=
  match goal with
  | |- context [match transport ?e ?m with _ => _ end] =>
      destruct (transport e m) as [how|x] eqn:H
  end.

(** *** The four ways a booking POST can go *)

Section BookingRun.
Variable cfg : config.
Variable e : env.
Variable u : user.
Variable req : request.
Variable w : world.
Hypothesis Hpost : method req = POST.

Lemma run_invalid_date :
  parse_date (fecha_field req) = None ->
  mis_citas cfg e u req w
  = (Ok (Redirect "mis_citas"), log w [EvFlash msg_invalid_date "warning"]).
Proof.
  intros Hp. unfold mis_citas. rewrite Hpost. cbv zeta.
  unfold fecha_field in Hp. rewrite Hp. reflexivity.
Qed.

Lemma run_past_date d :
  parse_date (fecha_field req) = Some d ->
  Date.ltb d (today e) = true ->
  mis_citas cfg e u req w
  = (Ok (Redirect "mis_citas"), log w [EvFlash msg_past_date "warning"]).
Proof.
  intros Hp Hlt. unfold mis_citas. rewrite Hpost. cbv zeta.
  unfold fecha_field in Hp. rewrite Hp, Hlt. reflexivity.
Qed.

Lemma run_full d :
  parse_date (fecha_field req) = Some d ->
  Date.ltb d (today e) = false ->
  MAX_APPOINTMENTS_PER_DAY cfg
  <= count_by_fecha (Date.isoformat d) (appointments (conn w)) ->
  mis_citas cfg e u req w
  = (Ok (Redirect "mis_citas"),
     log w [EvRead (QCountByFecha (Date.isoformat d));
            EvFlash msg_no_capacity "warning"]).
Proof.
  intros Hp Hlt Hfull. unfold mis_citas. rewrite Hpost. cbv zeta.
  unfold fecha_field in Hp. rewrite Hp, Hlt.
  unfold bind at 1. unfold read at 1. cbn [conn committed trace app].
  apply Z.leb_le in Hfull. rewrite Hfull.
  unfold bind, flash, emit, ret, log. cbn [conn committed trace app].
  now rewrite <- app_assoc.
Qed.

(** The notifications of a booking append messages to the log and touch
    nothing else; they stop at the first send that raises. *)
Lemma notify_booking_run tipo fecha hora lugar estado motivo w0 :
  exists r tr,
    notify_booking cfg e u tipo fecha hora lugar estado motivo w0
    = (r, log w0 tr)
    /\ forallb is_mail tr = true
    /\ (r = Ok tt -> map msg_to (mails tr) = recipients cfg u)
    /\ (recipients cfg u = [] -> r = Ok tt /\ tr = [])
    /\ (transport_works e -> r = Ok tt)
    /\ (forall x, r = Raise x -> exists m, transport e m = Raise x).
Proof.
  unfold notify_booking, bind, recipients, transport_works.
  destruct (present (u_email u)).
  - rewrite send_email_run.
    case_transport how x Ho.
    + destruct (Text.truthy (ADMIN_EMAIL cfg)).
      * rewrite send_email_run.
        case_transport how' x' Ha.
        -- rewrite log_log. eexists _, _. split; [reflexivity|].
           repeat split; try reflexivity; discriminate.
        -- eexists _, _. split; [reflexivity|].
           repeat split; try reflexivity; try discriminate.
           intros Hw. destruct (Hw (mkMessage (sender e) (ADMIN_EMAIL cfg)
             "Nueva cita programada — SaludGo"
             [u_username u; fecha; Text.or_str hora "por definir"; tipo;
              lugar; Text.or_str motivo "-"; estado])) as [h Hh].
           congruence.
           intros y Hy; injection Hy as <-; eauto.
      * eexists _, _. split; [reflexivity|].
        repeat split; try reflexivity; discriminate.
    + exists (Raise x), []. rewrite log_nil. split; [reflexivity|].
      repeat split; try reflexivity; try discriminate.
      intros Hw. destruct (Hw (mkMessage (sender e)
        (Text.or_else (u_email u) "") "Cita agendada — SaludGo"
        [u_username u; tipo; fecha; Text.or_str hora "por definir";
         lugar; estado; Text.or_str motivo "-"])) as [h Hh].
      congruence.
      intros y Hy; injection Hy as <-; eauto.
  - unfold ret at 1.
    destruct (Text.truthy (ADMIN_EMAIL cfg)).
    + rewrite send_email_run.
      case_transport how' x' Ha.
      * eexists _, _. split; [reflexivity|].
        repeat split; try reflexivity; discriminate.
      * exists (Raise x'), []. rewrite log_nil. split; [reflexivity|].
        repeat split; try reflexivity; try discriminate.
        intros Hw. destruct (Hw (mkMessage (sender e) (ADMIN_EMAIL cfg)
          "Nueva cita programada — SaludGo"
          [u_username u; fecha; Text.or_str hora "por definir"; tipo;
           lugar; Text.or_str motivo "-"; estado])) as [h Hh].
        congruence.
        intros y Hy; injection Hy as <-; eauto.
    + exists (Ok tt), []. rewrite log_nil. split; [reflexivity|].
      repeat split; try reflexivity; discriminate.
Qed.

Lemma text_affinity_opt_text o : text_affinity (opt_text o) = o.
Proof. now destruct o. Qed.

Lemma new_appointment_booked d t :
  new_appointment e t insert_columns
    [SqlInt (u_id u); SqlText (Date.isoformat d);
     opt_text (Text.or_none
                 (Text.or_else (form_get (form req) "preferencia_hora") ""));
     SqlText (Text.or_str
                (Text.strip (Text.or_else (form_get (form req) "tipo") ""))
                "Consulta");
     SqlText (Text.or_str
                (Text.strip (Text.or_else (form_get (form req) "lugar") ""))
                "Por definir");
     SqlText (Text.strip (Text.or_else (form_get (form req) "motivo") ""));
     SqlText "Agendada"]
  = booked_row e u req d t.
Proof.
  unfold new_appointment, booked_row.
  cbn [bound insert_columns String.eqb Ascii.eqb Bool.eqb or_null
       integer_affinity text_affinity].
  now rewrite text_affinity_opt_text.
Qed.

Lemma run_admitted d :
  parse_date (fecha_field req) = Some d ->
  Date.ltb d (today e) = false ->
  count_by_fecha (Date.isoformat d) (appointments (conn w))
  < MAX_APPOINTMENTS_PER_DAY cfg ->
  exists r tr,
    mis_citas cfg e u req w
    = (r, mkWorld (add_row (conn w) (booked_row e u req d (conn w)))
                  (add_row (conn w) (booked_row e u req d (conn w)))
                  (trace w
                   ++ [EvRead (QCountByFecha (Date.isoformat d));
                       EvInsert (booked_row e u req d (conn w));
                       EvCommit;
                       EvFlash msg_booked "success"] ++ tr)%list)
    /\ forallb is_mail tr = true
    /\ (r = Ok (Redirect "mis_citas") \/ exists x, r = Raise x)
    /\ (r = Ok (Redirect "mis_citas") ->
        map msg_to (mails tr) = recipients cfg u)
    /\ (recipients cfg u = [] -> r = Ok (Redirect "mis_citas") /\ tr = [])
    /\ (transport_works e -> r = Ok (Redirect "mis_citas"))
    /\ (forall x, r = Raise x -> exists m, transport e m = Raise x).
Proof.
  intros Hp Hlt Hroom. unfold mis_citas. rewrite Hpost. cbv zeta.
  unfold fecha_field in Hp. rewrite Hp, Hlt.
  unfold bind at 1. unfold read at 1. cbn [conn committed trace app].
  apply Z.leb_gt in Hroom. rewrite Hroom.
  unfold bind at 1. rewrite insert_appointment_run; [|reflexivity|discriminate].
  cbn [conn committed trace app]. rewrite new_appointment_booked.
  unfold bind at 1. unfold commit at 1. cbn [conn committed trace app].
  unfold bind at 1. unfold flash, emit. cbn [conn committed trace app].
  unfold bind at 1.
  match goal with |- context [notify_booking cfg e u ?a ?b ?c ?f ?g ?h ?w] =>
    destruct (notify_booking_run a b c f g h w)
      as (r & tr & Hrun & Hall & Hrec & Hnone & Hworks & Hexn);
    rewrite Hrun
  end.
  unfold log. cbn [conn committed trace app].
  repeat rewrite <- app_assoc. cbn [app].
  destruct r as [[]|x].
  - exists (Ok (Redirect "mis_citas")), tr. unfold ret.
    split; [reflexivity|]. split; [exact Hall|]. split; [now left|].
    split; [intros _; now apply Hrec|].
    split; [intros H; split; [reflexivity|now apply Hnone]|].
    split; [reflexivity|discriminate].
  - exists (Raise x), tr.
    split; [reflexivity|]. split; [exact Hall|].
    split; [right; now exists x|].
    split; [discriminate|].
    split; [intros H; now destruct (Hnone H)|].
    split; [intros H; now specialize (Hworks H)|].
    intros y Hy; injection Hy as <-; now apply Hexn.
Qed.

End BookingRun.

Section Booking.
Variable cfg : config.
Variable e : env.
Variable u : user.
Variable req : request.
Variable db : tables.
Hypothesis Hpost : method req = POST.

Lemma booking_invalid_date :
  parse_date (fecha_field req) = None ->
  serve (mis_citas cfg e u req) db
  = (Ok (Redirect "mis_citas"), db, [EvFlash msg_invalid_date "warning"]).
Proof.
  intros Hp. unfold serve.
  now rewrite (run_invalid_date cfg e u req _ Hpost Hp).
Qed.

Lemma booking_past_date d :
  parse_date (fecha_field req) = Some d ->
  Date.ltb d (today e) = true ->
  serve (mis_citas cfg e u req) db
  = (Ok (Redirect "mis_citas"), db, [EvFlash msg_past_date "warning"]).
Proof.
  intros Hp Hlt. unfold serve.
  now rewrite (run_past_date cfg e u req _ Hpost d Hp Hlt).
Qed.

Lemma booking_full d :
  parse_date (fecha_field req) = Some d ->
  Date.ltb d (today e) = false ->
  MAX_APPOINTMENTS_PER_DAY cfg
  <= count_by_fecha (Date.isoformat d) (appointments db) ->
  serve (mis_citas cfg e u req) db
  = (Ok (Redirect "mis_citas"), db,
     [EvRead (QCountByFecha (Date.isoformat d));
      EvFlash msg_no_capacity "warning"]).
Proof.
  intros Hp Hlt Hfull. unfold serve.
  now rewrite (run_full cfg e u req (mkWorld db db []) Hpost d Hp Hlt Hfull).
Qed.

Lemma booking_admitted d :
  parse_date (fecha_field req) = Some d ->
  Date.ltb d (today e) = false ->
  count_by_fecha (Date.isoformat d) (appointments db)
  < MAX_APPOINTMENTS_PER_DAY cfg ->
  exists r tr,
    serve (mis_citas cfg e u req) db
    = (r, add_row db (booked_row e u req d db),
       [EvRead (QCountByFecha (Date.isoformat d));
        EvInsert (booked_row e u req d db);
        EvCommit;
        EvFlash msg_booked "success"] ++ tr)%list
    /\ forallb is_mail tr = true
    /\ (r = Ok (Redirect "mis_citas") \/ exists x, r = Raise x)
    /\ (r = Ok (Redirect "mis_citas") ->
        map msg_to (mails tr) = recipients cfg u)
    /\ (recipients cfg u = [] -> r = Ok (Redirect "mis_citas") /\ tr = [])
    /\ (transport_works e -> r = Ok (Redirect "mis_citas"))
    /\ (forall x, r = Raise x -> exists m, transport e m = Raise x).
Proof.
  intros Hp Hlt Hroom.
  destruct (run_admitted cfg e u req (mkWorld db db []) Hpost d Hp Hlt Hroom)
    as (r & tr & Hrun & H).
  exists r, tr. split; [|exact H].
  unfold serve. now rewrite Hrun.
Qed.

End Booking.

(** *** Sample data: the scenario of the specification, [dailyMax = 2] *)

Definition scenario_cfg : config := mkConfig 2 "admin@saludgo.local".

(** A development machine: no SMTP settings, mail is printed. *)
Definition console_env : env :=
  mkEnv (Date.mkDate 2025 12 1) "2025-12-01 09:00:00"
        None (Some 587) None None None (fun _ => true).

(** SMTP is configured and the server refuses every message. *)
Definition refusing_env : env :=
  mkEnv (Date.mkDate 2025 12 1) "2025-12-01 09:00:00"
        (Some "smtp.saludgo.local") (Some 587) (Some "mailer") (Some "secret")
        None (fun _ => false).

Definition ana : user := mkUser 2 "ana" (Some "ana@saludgo.local") "user".

Definition booking_request (fecha : string) : request :=
  mkRequest POST (Some 2) [("tipo", "Consulta"); ("preferencia_fecha", fecha)].

Definition row_on (id : Z) (fecha : string) : appointment :=
  mkAppointment id (SqlInt 2) (Some fecha) None (Some "Consulta")
                (Some "Por definir") (Some "") (Some "Agendada")
                (Some "2025-11-30 10:00:00").

Definition full_day_db : tables :=
  mkTables [mkUser 1 "admin" (Some "admin@saludgo.local") "admin"; ana]
           [row_on 1 "2025-12-20"; row_on 2 "2025-12-20"] 2.

(** The administrator and ana, and no appointment yet. *)
Definition clinic_db : tables :=
  mkTables [mkUser 1 "admin" (Some "admin@saludgo.local") "admin"; ana] [] 0.

(** ** The booking decision *)



(** C4. The date of a booking is checked before the store is touched: a
    date string that does not parse ends the request with the
    invalid-date message, a date strictly before today ends it with the
    past-date message whatever the database holds; in both cases the log
    of the request is that one message (no count is read, no row is
    written) and the database is unchanged. *)
Theorem date_validation_precedes_store cfg e u req db :
  method req = POST ->
  let out := serve (mis_citas cfg e u req) db in
  (parse_date (fecha_field req) = None ->
   response_of out = Ok (Redirect "mis_citas")
   /\ trace_of out = [EvFlash msg_invalid_date "warning"]
   /\ existsb is_store_access (trace_of out) = false
   /\ db_of out = db)
  /\ (forall d,
        parse_date (fecha_field req) = Some d ->
        Date.ltb d (today e) = true ->
        response_of out = Ok (Redirect "mis_citas")
        /\ trace_of out = [EvFlash msg_past_date "warning"]
        /\ existsb is_store_access (trace_of out) = false
        /\ db_of out = db).
Proof.
  intros Hpost out. split.
  - intros Hp. subst out. rewrite (booking_invalid_date cfg e u req db Hpost Hp).
    repeat split.
  - intros d Hp Hlt. subst out.
    rewrite (booking_past_date cfg e u req db Hpost d Hp Hlt).
    repeat split.
Qed.

Lemma date_validation_precedes_store_witness :
  (let out := serve (mis_citas scenario_cfg console_env ana
                               (booking_request "20/12/2025")) initial_db in
   response_of out = Ok (Redirect "mis_citas")
   /\ trace_of out = [EvFlash msg_invalid_date "warning"]
   /\ existsb is_store_access (trace_of out) = false
   /\ db_of out = initial_db)
  /\ (let out := serve (mis_citas scenario_cfg console_env ana
                                  (booking_request "2025-11-30")) initial_db in
      response_of out = Ok (Redirect "mis_citas")
      /\ trace_of out = [EvFlash msg_past_date "warning"]
      /\ existsb is_store_access (trace_of out) = false
      /\ db_of out = initial_db).
Proof.
  split.
  - exact (proj1 (date_validation_precedes_store scenario_cfg console_env ana
                    (booking_request "20/12/2025") initial_db eq_refl)
                 eq_refl).
  - exact (proj2 (date_validation_precedes_store scenario_cfg console_env ana
                    (booking_request "2025-11-30") initial_db eq_refl)
                 (Date.mkDate 2025 11 30) eq_refl eq_refl).
Defined.

(** C5. A booking that is rejected, for an invalid date, a past date or
    a full day, leaves the database as it was: no row is inserted and no
    row is changed. *)
Theorem rejected_booking_leaves_store cfg e u req db m :
  method req = POST ->
  In m [msg_invalid_date; msg_past_date; msg_no_capacity] ->
  let out := serve (mis_citas cfg e u req) db in
  In (EvFlash m "warning") (trace_of out) ->
  db_of out = db /\ existsb is_insert (trace_of out) = false.
Proof.
  intros Hpost Hm out Hrej.
  destruct (parse_date (fecha_field req)) as [d|] eqn:Hp.
  - destruct (Date.ltb d (today e)) eqn:Hlt.
    + subst out. rewrite (booking_past_date cfg e u req db Hpost d Hp Hlt).
      now split.
    + destruct (Z_lt_le_dec
                  (count_by_fecha (Date.isoformat d) (appointments db))
                  (MAX_APPOINTMENTS_PER_DAY cfg)) as [Hroom|Hfull].
      * exfalso.
        destruct (booking_admitted cfg e u req db Hpost d Hp Hlt Hroom)
          as (r & tr & Hrun & Hmail & _).
        subst out. rewrite Hrun in Hrej. unfold trace_of in Hrej.
        cbn [snd app] in Hrej.
        repeat (destruct Hrej as [Hrej|Hrej]; [discriminate Hrej|]).
        rewrite forallb_forall in Hmail. apply Hmail in Hrej. discriminate.
      * subst out. rewrite (booking_full cfg e u req db Hpost d Hp Hlt Hfull).
        now split.
  - subst out. rewrite (booking_invalid_date cfg e u req db Hpost Hp).
    now split.
Qed.

Lemma rejected_booking_leaves_store_witness :
  let out := serve (mis_citas scenario_cfg console_env ana
                              (booking_request "2025-12-20")) full_day_db in
  db_of out = full_day_db /\ existsb is_insert (trace_of out) = false.
Proof.
  apply (rejected_booking_leaves_store scenario_cfg console_env ana
           (booking_request "2025-12-20") full_day_db msg_no_capacity eq_refl).
  - right; right; left; reflexivity.
  - right; left; reflexivity.
Defined.

(** ** Notification *)

(** The claim that a failing mail transport never reaches the caller: a
    booking that passes the date and capacity checks always answers with
    the redirect of a successful booking. *)
Definition notification_failure_contained : Prop :=
  forall cfg e u req db d,
    method req = POST ->
    parse_date (fecha_field req) = Some d ->
    Date.ltb d (today e) = false ->
    count_by_fecha (Date.isoformat d) (appointments db)
    < MAX_APPOINTMENTS_PER_DAY cfg ->
    response_of (serve (mis_citas cfg e u req) db)
    = Ok (Redirect "mis_citas").

(** With SMTP configured and a server that refuses the message, the
    booking of 2025-12-20 is committed and the request then fails with
    the exception of [send_email]. *)
Lemma refused_mail_reaches_caller :
  let out := serve (mis_citas scenario_cfg refusing_env ana
                              (booking_request "2025-12-20")) clinic_db in
  response_of out = Raise SMTPException
  /\ map a_fecha (appointments (db_of out)) = [Some "2025-12-20"].
Proof. split; reflexivity. Qed.

Lemma notification_failure_not_contained : ~ notification_failure_contained.
Proof.
  intros H.
  specialize (H scenario_cfg refusing_env ana (booking_request "2025-12-20")
                clinic_db (Date.mkDate 2025 12 20)
                eq_refl eq_refl eq_refl eq_refl).
  discriminate H.
Qed.

(** C6 (amended). For a booking that passes the date and capacity checks,
    the row is written and committed before any message is handed to
    [send_email], and the committed row stays in the database whatever
    the mail transport does.  The sends are made inside the request: when
    the transport takes every message the request answers with the
    redirect, and otherwise the exception of the failing send is the
    outcome of the request. *)
Theorem booking_committed_before_notification cfg e u req db d :
  method req = POST ->
  parse_date (fecha_field req) = Some d ->
  Date.ltb d (today e) = false ->
  count_by_fecha (Date.isoformat d) (appointments db)
  < MAX_APPOINTMENTS_PER_DAY cfg ->
  let out := serve (mis_citas cfg e u req) db in
  db_of out = add_row db (booked_row e u req d db)
  /\ (exists post,
        trace_of out
        = ([EvRead (QCountByFecha (Date.isoformat d));
            EvInsert (booked_row e u req d db);
            EvCommit] ++ EvFlash msg_booked "success" :: post)%list
        /\ forallb is_mail post = true)
  /\ (transport_works e -> response_of out = Ok (Redirect "mis_citas"))
  /\ (response_of out = Ok (Redirect "mis_citas")
      \/ exists x m, response_of out = Raise x /\ transport e m = Raise x).
Proof.
  intros Hpost Hp Hlt Hroom out.
  destruct (booking_admitted cfg e u req db Hpost d Hp Hlt Hroom)
    as (r & tr & Hrun & Hmail & Hr & _ & _ & Hworks & Hexn).
  subst out. rewrite Hrun. unfold db_of, trace_of, response_of. cbn [fst snd].
  split; [reflexivity|].
  split; [exists tr; split; [reflexivity|exact Hmail]|].
  split; [exact Hworks|].
  destruct Hr as [Hr|[x Hx]]; [now left|right].
  destruct (Hexn x Hx) as [m Hm]. now exists x, m.
Qed.

Lemma booking_committed_before_notification_witness :
  let out := serve (mis_citas scenario_cfg refusing_env ana
                              (booking_request "2025-12-20")) clinic_db in
  db_of out
  = add_row clinic_db
      (booked_row refusing_env ana (booking_request "2025-12-20")
                  (Date.mkDate 2025 12 20) clinic_db).
Proof.
  exact (proj1 (booking_committed_before_notification
                  scenario_cfg refusing_env ana (booking_request "2025-12-20")
                  clinic_db (Date.mkDate 2025 12 20)
                  eq_refl eq_refl eq_refl eq_refl)).
Defined.



(** ** The capacity invariant *)

Lemma count_by_fecha_app s l a :
  count_by_fecha s (l ++ [a])
  = count_by_fecha s l + (if option_string_eqb (a_fecha a) s then 1 else 0).
Proof.
  unfold count_by_fecha. rewrite filter_app, length_app. cbn [filter].
  destruct (option_string_eqb (a_fecha a) s); cbn [List.length]; lia.
Qed.

Lemma count_by_fecha_nonneg s l : 0 <= count_by_fecha s l.
Proof. unfold count_by_fecha. lia. Qed.

Lemma within_capacity_add_row cfg db e u req d :
  within_capacity cfg db ->
  count_by_fecha (Date.isoformat d) (appointments db)
  < MAX_APPOINTMENTS_PER_DAY cfg ->
  within_capacity cfg (add_row db (booked_row e u req d db)).
Proof.
  intros Hin Hroom d'. unfold add_row. cbn [appointments].
  rewrite count_by_fecha_app. cbn [booked_row a_fecha option_string_eqb].
  destruct (String.eqb_spec (Date.isoformat d) (Date.isoformat d')) as [Heq|_].
  - rewrite <- Heq. lia.
  - specialize (Hin d'). lia.
Qed.

Lemma run_get cfg e u req w :
  method req = GET ->
  exists r tr, mis_citas cfg e u req w = (r, log w tr).
Proof.
  intros Hget. unfold mis_citas. rewrite Hget. cbv zeta.
  unfold bind at 1. unfold read at 1.
  destruct (Date.add_days (today e) 30) as [horizon|].
  - unfold bind, read, ret. cbn [conn committed trace].
    eexists _, _. unfold log. rewrite <- app_assoc. reflexivity.
  - unfold raise. eexists _, _. reflexivity.
Qed.

(** A request to [mis_citas] either leaves the database file as it was or
    adds the row of a date that still had room. *)
Lemma mis_citas_committed cfg e u req w :
  conn w = committed w ->
  committed (snd (mis_citas cfg e u req w)) = committed w
  \/ exists d,
       count_by_fecha (Date.isoformat d) (appointments (committed w))
       < MAX_APPOINTMENTS_PER_DAY cfg
       /\ committed (snd (mis_citas cfg e u req w))
          = add_row (committed w) (booked_row e u req d (committed w)).
Proof.
  intros Hconn. destruct (method req) eqn:Hm.
  - destruct (run_get cfg e u req w Hm) as (r & tr & ->). now left.
  - destruct (parse_date (fecha_field req)) as [d|] eqn:Hp.
    + destruct (Date.ltb d (today e)) eqn:Hlt.
      * rewrite (run_past_date cfg e u req w Hm d Hp Hlt). now left.
      * destruct (Z_lt_le_dec
                    (count_by_fecha (Date.isoformat d) (appointments (conn w)))
                    (MAX_APPOINTMENTS_PER_DAY cfg)) as [Hroom|Hfull].
        -- destruct (run_admitted cfg e u req w Hm d Hp Hlt Hroom)
             as (r & tr & -> & _).
           right. exists d. rewrite <- Hconn. now split.
        -- rewrite (run_full cfg e u req w Hm d Hp Hlt Hfull). now left.
    + rewrite (run_invalid_date cfg e u req w Hm Hp). now left.
Qed.

Lemma step_mis_citas cfg e req db :
  within_capacity cfg db ->
  within_capacity cfg
    (db_of (serve (dispatch cfg e RouteMisCitas req) db)).
Proof.
  intros Hin. unfold dispatch, serve, login_required, current_user.
  destruct (session_user_id req) as [uid|].
  - unfold bind at 1. unfold read at 1. cbn [conn committed trace app users].
    destruct (user_by_id (SqlInt uid) (users db)) as [u|].
    + match goal with |- context [mis_citas cfg e u req ?w] =>
        pose proof (mis_citas_committed cfg e u req w eq_refl) as H;
        destruct (mis_citas cfg e u req w) as [r w'] eqn:Hrun
      end.
      cbn [snd committed] in H. unfold db_of. cbn [fst snd].
      destruct H as [->|(d & Hroom & ->)]; [exact Hin|].
      now apply within_capacity_add_row.
    + exact Hin.
  - exact Hin.
Qed.

(** C1 (amended). Starting from a database in which no date holds more
    appointments than the daily maximum, after any sequence of requests
    to the self-service route [/mis_citas] that are served one at a time
    (this is [run]: no request starts before the one before it has
    ended) no date holds more than the daily maximum. *)
Theorem self_service_keeps_capacity cfg calls db :
  Forall (fun c => call_route c = RouteMisCitas) calls ->
  within_capacity cfg db ->
  within_capacity cfg (run cfg calls db).
Proof.
  intros Hall. revert db.
  induction Hall as [|c calls Hc _ IH]; intros db Hin.
  - exact Hin.
  - cbn [run fold_left]. apply IH. unfold step. rewrite Hc.
    now apply step_mis_citas.
Qed.

Definition book_call (fecha : string) : call :=
  mkCall console_env RouteMisCitas (booking_request fecha).

Lemma self_service_keeps_capacity_witness :
  within_capacity scenario_cfg
    (run scenario_cfg
         [book_call "2025-12-20"; book_call "2025-12-20";
          book_call "2025-12-20"; book_call "2025-12-21"] clinic_db).
Proof.
  apply self_service_keeps_capacity.
  - repeat constructor.
  - intros d. cbn. discriminate.
Defined.

Example scenario_of_the_specification :
  map a_fecha
      (appointments
         (run scenario_cfg
              [book_call "2025-12-20"; book_call "2025-12-20";
               book_call "2025-12-20"; book_call "2025-12-21"] clinic_db))
  = [Some "2025-12-20"; Some "2025-12-20"; Some "2025-12-21"].
Proof. reflexivity. Qed.

(** *** The administrative routes *)

(** The date of an administrative form. *)
Definition admin_fecha (req : request) : option string :=
  Text.or_none (Text.strip (Text.or_else (form_get (form req) "fecha") "")).

(** The row [admin_citas] inserts. *)
Definition admin_row (e : env) (req : request) (db : tables) : appointment :=
  mkAppointment
    (appointments_seq db + 1)
    (integer_affinity (opt_text (form_get (form req) "user_id")))
    (admin_fecha req)
    (Text.or_none (Text.strip (Text.or_else (form_get (form req) "hora") "")))
    (Some (Text.or_str
             (Text.strip (Text.or_else (form_get (form req) "tipo") ""))
             "Consulta"))
    (Some (Text.or_str
             (Text.strip (Text.or_else (form_get (form req) "lugar") ""))
             "Por definir"))
    (Some (Text.strip (Text.or_else (form_get (form req) "motivo") "")))
    (Some (Text.or_str
             (Text.strip (Text.or_else (form_get (form req) "estado") ""))
             "Agendada"))
    (Some (CURRENT_TIMESTAMP e)).

(** A form value whose reading as a number does not depend on rounding;
    a missing value is NULL. *)
Definition exact_field (x : option string) : bool :=
  match x with
  | Some s => exact_reading s
  | None => true
  end.

Definition is_count_read (ev : event) : bool :=
  match ev with EvRead (QCountByFecha _) => true | _ => false end.

Lemma integer_affinity_text_not_null s :
  integer_affinity (SqlText s) <> Bound SqlNull.
Proof.
  unfold integer_affinity. destruct (read_numeral s); discriminate.
Qed.

Lemma run_admin_citas e req w :
  method req = POST ->
  present (form_get (form req) "user_id") = true ->
  exists r tr,
    admin_citas e req w
    = (r, mkWorld (add_row (conn w) (admin_row e req (conn w)))
                  (add_row (conn w) (admin_row e req (conn w)))
                  (trace w ++ EvRead QUsersByName
                           :: EvInsert (admin_row e req (conn w))
                           :: EvCommit :: tr)%list)
    /\ existsb is_count_read tr = false.
Proof.
  intros Hpost Hu. unfold admin_citas. unfold bind at 1. unfold read at 1.
  rewrite Hpost. cbv zeta. rewrite Hu. cbn [negb conn committed trace].
  destruct (form_get (form req) "user_id") as [uid|] eqn:Huid;
    [|discriminate Hu].
  unfold bind at 1.
  rewrite insert_appointment_run;
    [|reflexivity|apply integer_affinity_text_not_null].
  assert (Hrow : new_appointment e (conn w) insert_columns
            [opt_text (Some uid);
             opt_text (Text.or_none (Text.strip
               (Text.or_else (form_get (form req) "fecha") "")));
             opt_text (Text.or_none (Text.strip
               (Text.or_else (form_get (form req) "hora") "")));
             SqlText (Text.or_str (Text.strip
               (Text.or_else (form_get (form req) "tipo") "")) "Consulta");
             SqlText (Text.or_str (Text.strip
               (Text.or_else (form_get (form req) "lugar") "")) "Por definir");
             SqlText (Text.strip
               (Text.or_else (form_get (form req) "motivo") ""));
             SqlText (Text.or_str (Text.strip
               (Text.or_else (form_get (form req) "estado") "")) "Agendada")]
          = admin_row e req (conn w)).
  { unfold new_appointment, admin_row, admin_fecha. rewrite Huid.
    cbn [bound insert_columns String.eqb Ascii.eqb Bool.eqb or_null
         text_affinity].
    now rewrite !text_affinity_opt_text. }
  cbn [conn committed trace]. rewrite Hrow. clear Hrow.
  unfold bind at 1. unfold commit at 1. cbn [conn committed trace].
  unfold bind at 1. unfold read at 1. cbn [conn committed trace].
  set (row := admin_row e req (conn w)).
  destruct (user_by_id (opt_text (Some uid)) (users (add_row (conn w) row)))
    as [usr|].
  - destruct (present (u_email usr)).
    + unfold bind at 1. rewrite send_email_run.
      case_transport how x Ht.
      * unfold bind, flash, emit, ret, log. cbn [conn committed trace].
        eexists _, _. repeat rewrite <- app_assoc. cbn [app].
        split; reflexivity.
      * eexists _, _. repeat rewrite <- app_assoc. cbn [app].
        split; reflexivity.
    + unfold bind, flash, emit, ret. cbn [conn committed trace].
      eexists _, _. repeat rewrite <- app_assoc. cbn [app].
      split; reflexivity.
  - unfold bind, flash, emit, ret. cbn [conn committed trace].
    eexists _, _. repeat rewrite <- app_assoc. cbn [app].
    split; reflexivity.
Qed.

(** A request for the page of [admin_citas] reads and writes nothing. *)
Lemma run_admin_citas_get e req w :
  method req = GET ->
  exists r tr, admin_citas e req w = (r, log w tr).
Proof.
  intros Hget. unfold admin_citas. unfold bind at 1. unfold read at 1.
  rewrite Hget. unfold bind at 1. unfold read at 1.
  cbn [conn committed trace]. unfold current_user.
  destruct (session_user_id req) as [uid|].
  - unfold bind, read, ret, log. cbn [conn committed trace].
    eexists _, _. repeat rewrite <- app_assoc. cbn [app]. reflexivity.
  - unfold bind, ret, log. cbn [conn committed trace].
    eexists _, _. repeat rewrite <- app_assoc. cbn [app]. reflexivity.
Qed.

Definition admin_request (user_id fecha : string) : request :=
  mkRequest POST (Some 1) [("user_id", user_id); ("fecha", fecha)].

Definition admin_call (user_id fecha : string) : call :=
  mkCall console_env RouteAdminCitas (admin_request user_id fecha).

(** The invariant as a property of every route: whatever requests are
    served, no date ends up with more appointments than the maximum. *)
Definition capacity_kept_on_every_route : Prop :=
  forall cfg calls db,
    within_capacity cfg db ->
    within_capacity cfg (run cfg calls db).

(** With a daily maximum of 2, three POSTs of the administrator to
    [/admin/citas] for 2025-12-20, served one after another, leave three
    appointments on that date. *)
Lemma admin_route_exceeds_capacity : ~ capacity_kept_on_every_route.
Proof.
  intros H.
  specialize (H scenario_cfg
                [admin_call "2" "2025-12-20"; admin_call "2" "2025-12-20";
                 admin_call "2" "2025-12-20"]
                clinic_db).
  assert (Hin : within_capacity scenario_cfg clinic_db)
    by (intros d; cbn; discriminate).
  specialize (H Hin (Date.mkDate 2025 12 20)).
  vm_compute in H. now apply H.
Qed.

(** The claim that the administrative routes refuse a full day as the
    self-service route does. *)
Definition admin_creation_checks_capacity : Prop :=
  forall cfg e req db s,
    method req = POST ->
    admin_fecha req = Some s ->
    MAX_APPOINTMENTS_PER_DAY cfg <= count_by_fecha s (appointments db) ->
    db_of (serve (admin_citas e req) db) = db
    /\ db_of (serve (admin_appointments_create e req) db) = db.

(** C3 (counterexample). 2025-12-20 already holds the two appointments
    the maximum allows and a POST to [admin_citas] adds a third. *)
Lemma admin_citas_ignores_capacity : ~ admin_creation_checks_capacity.
Proof.
  intros H.
  destruct (H scenario_cfg console_env (admin_request "2" "2025-12-20")
              full_day_db "2025-12-20" eq_refl eq_refl) as [H1 _].
  - vm_compute. discriminate.
  - apply (f_equal (fun t => List.length (appointments t))) in H1.
    vm_compute in H1. discriminate H1.
Qed.

(** C3 (amended). [admin_citas] validates no date and consults no count:
    every POST that names a user adds one row to the database, with the
    date of the form as it is (also none, a past one or text that is no
    date), however many appointments that date already holds, and no
    count is read on the way.  The [user_id] of the row is the text of
    the form as a column of INTEGER affinity takes it. *)
Theorem admin_citas_persists_unchecked e req db :
  method req = POST ->
  present (form_get (form req) "user_id") = true ->
  let out := serve (admin_citas e req) db in
  (exists a,
     db_of out = add_row db a
     /\ a_id a = appointments_seq db + 1
     /\ a_fecha a = admin_fecha req
     /\ a_estado a
        = Some (Text.or_str
                  (Text.strip (Text.or_else (form_get (form req) "estado") ""))
                  "Agendada")
     /\ (exact_field (form_get (form req) "user_id") = true ->
         a = admin_row e req db))
  /\ (forall s, admin_fecha req = Some s ->
        count_by_fecha s (appointments (db_of out))
        = count_by_fecha s (appointments db) + 1)
  /\ existsb is_count_read (trace_of out) = false.
Proof.
  intros Hpost Hu out.
  destruct (run_admin_citas e req (mkWorld db db []) Hpost Hu)
    as (r & tr & Hrun & Hnc).
  assert (Hdb : db_of out = add_row db (admin_row e req db)).
  { subst out. unfold serve. now rewrite Hrun. }
  split; [|split].
  - exists (admin_row e req db). repeat split; auto.
  - intros s Hs. rewrite Hdb. unfold add_row. cbn [appointments].
    rewrite count_by_fecha_app. cbn [admin_row a_fecha]. rewrite Hs.
    cbn [option_string_eqb]. now rewrite String.eqb_refl.
  - subst out. unfold serve. rewrite Hrun. unfold trace_of.
    cbn [snd trace app existsb is_count_read orb]. exact Hnc.
Qed.

Lemma admin_citas_persists_unchecked_witness :
  count_by_fecha "2025-12-20"
    (appointments
       (db_of (serve (admin_citas console_env
                                  (admin_request "2" "2025-12-20"))
                     full_day_db)))
  = count_by_fecha "2025-12-20" (appointments full_day_db) + 1.
Proof.
  exact (proj1 (proj2 (admin_citas_persists_unchecked console_env
                         (admin_request "2" "2025-12-20") full_day_db
                         eq_refl eq_refl))
               "2025-12-20" eq_refl).
Defined.

(** The row of the administrator's form, with the [user_id] that SQLite
    reads from its text. *)
Example admin_row_user_id :
  map (fun s => a_user_id (admin_row console_env (admin_request s "") clinic_db))
      ["2"; " 2"; "2.0"; "2e0"; "+2"; "2.5"; "ana"]
  = [Bound (SqlInt 2); Bound (SqlInt 2); Bound (SqlInt 2); Bound (SqlInt 2);
     Bound (SqlInt 2); SqlReal 25 (-1); Bound (SqlText "ana")].
Proof. reflexivity. Qed.

Lemma run_admin_create e req db :
  serve (admin_appointments_create e req) db
  = match user_by_id (opt_text (form_get (form req) "user_id")) (users db) with
    | Some _ =>
        (Raise (OperationalError "table appointments has no column named note"),
         db, [EvRead (QUserById (opt_text (form_get (form req) "user_id")))])
    | None =>
        (Ok (Redirect "admin"), db,
         [EvRead (QUserById (opt_text (form_get (form req) "user_id")));
          EvFlash "Usuario inválido para la cita." "danger"])
    end.
Proof.
  unfold serve, admin_appointments_create.
  cbv zeta. unfold bind at 1. unfold read at 1. cbn [conn committed trace app].
  destruct (user_by_id (opt_text (form_get (form req) "user_id")) (users db))
    as [usr|]; [|reflexivity].
  unfold bind at 1. unfold insert_appointment at 1.
  cbn [find has_column existsb appointments_columns String.eqb Ascii.eqb
       Bool.eqb negb orb].
  reflexivity.
Qed.

(** The statement that every POST to [admin_appointments_create] ends in
    a storage error. *)
Definition admin_create_always_storage_error : Prop :=
  forall e req db,
    method req = POST ->
    (exists msg,
       response_of (serve (admin_appointments_create e req) db)
       = Raise (OperationalError msg))
    /\ db_of (serve (admin_appointments_create e req) db) = db.

(** C10 (counterexample). A form without [user_id] finds no user: the
    request is answered with the redirect to the administration page and
    the INSERT is never reached. *)
Lemma admin_create_unknown_user_redirects :
  ~ admin_create_always_storage_error.
Proof.
  intros H.
  destruct (H console_env (mkRequest POST (Some 1) [("fecha", "2025-12-20")])
              clinic_db eq_refl) as [[msg Hmsg] _].
  discriminate Hmsg.
Qed.

(** C10 (amended). A POST to [admin_appointments_create] never adds a
    row.  When its [user_id] names a user of the database, as SQLite
    reads the text, the INSERT fails with the storage error for the
    column [note], which the schema does not have (it has [motivo]);
    when it names none, the request is answered with the invalid-user
    message before any INSERT. *)
Theorem admin_create_never_persists e req db :
  method req = POST ->
  let out := serve (admin_appointments_create e req) db in
  let user_id := form_get (form req) "user_id" in
  let found := user_by_id (opt_text user_id) (users db) in
  db_of out = db
  /\ existsb is_insert (trace_of out) = false
  /\ has_column "note" = false
  /\ has_column "motivo" = true
  /\ (found <> None ->
      response_of out
      = Raise (OperationalError "table appointments has no column named note"))
  /\ (found = None -> exact_field user_id = true ->
      response_of out = Ok (Redirect "admin")
      /\ In (EvFlash "Usuario inválido para la cita." "danger") (trace_of out)).
Proof.
  intros _ out user_id found. subst out found user_id. rewrite run_admin_create.
  destruct (user_by_id (opt_text (form_get (form req) "user_id")) (users db))
    as [usr|].
  - split; [reflexivity|]. split; [reflexivity|].
    split; [reflexivity|]. split; [reflexivity|].
    split; [intros _; reflexivity|discriminate].
  - split; [reflexivity|]. split; [reflexivity|].
    split; [reflexivity|]. split; [reflexivity|].
    split; [intros H; now elim H|intros _ _].
    split; [reflexivity|]. cbn. right; now left.
Qed.

Lemma admin_create_never_persists_witness :
  response_of (serve (admin_appointments_create console_env
                        (admin_request "2.0" "2025-12-20")) clinic_db)
  = Raise (OperationalError "table appointments has no column named note")
  /\ response_of (serve (admin_appointments_create console_env
                           (admin_request "2.5" "2025-12-20")) clinic_db)
     = Ok (Redirect "admin").
Proof.
  split.
  - refine (proj1 (proj2 (proj2 (proj2 (proj2
      (admin_create_never_persists console_env
         (admin_request "2.0" "2025-12-20") clinic_db eq_refl))))) _).
    vm_compute. discriminate.
  - exact (proj1 (proj2 (proj2 (proj2 (proj2 (proj2
      (admin_create_never_persists console_env
         (admin_request "2.5" "2025-12-20") clinic_db eq_refl)))))
      eq_refl eq_refl)).
Defined.

(** ** Facts about the calendar and the text of dates *)

Module DateFacts.
Import Date.

Lemma is_leap_decomp n400 n100 n4 n1 :
  0 <= n400 -> 0 <= n100 <= 3 -> 0 <= n4 <= 24 -> 0 <= n1 <= 3 ->
  _is_leap (n400 * 400 + 1 + n100 * 100 + n4 * 4 + n1)
  = (n1 =? 3) && (negb (n4 =? 24) || (n100 =? 3)).
Proof.
  intros H400 H100 H4 H1. unfold _is_leap.
  repeat match goal with
         | |- context [?a =? ?b] => destruct (Z.eqb_spec a b)
         end; cbn; try reflexivity; exfalso;
    Z.div_mod_to_equations; lia.
Qed.

Lemma fromordinal_valid n :
  1 <= n <= _MAXORDINAL -> valid (fromordinal n) = true.
Proof.
  intros Hn. unfold fromordinal, _ord2ymd, _MAXORDINAL, _DI400Y, _DI100Y, _DI4Y in *.
  cbv zeta.
  set (a := n - 1).
  set (n400 := a / 146097). set (r400 := a mod 146097).
  set (n100 := r400 / 36524). set (r100 := r400 mod 36524).
  set (n4 := r100 / 1461). set (r4 := r100 mod 1461).
  set (n1 := r4 / 365). set (r1 := r4 mod 365).
  assert (Ha : 0 <= a <= 3652058) by (subst a; lia).
  assert (B400 : 0 <= n400 <= 24 /\ 0 <= r400 < 146097 /\ a = 146097 * n400 + r400)
    by (subst n400 r400; Z.div_mod_to_equations; lia).
  assert (B100 : 0 <= n100 <= 4 /\ 0 <= r100 < 36524 /\ r400 = 36524 * n100 + r100)
    by (subst n100 r100; Z.div_mod_to_equations; lia).
  assert (B4 : 0 <= n4 <= 24 /\ 0 <= r4 < 1461 /\ r100 = 1461 * n4 + r4)
    by (subst n4 r4; Z.div_mod_to_equations; lia).
  assert (B1 : 0 <= n1 <= 4 /\ 0 <= r1 < 365 /\ r4 = 365 * n1 + r1)
    by (subst n1 r1; Z.div_mod_to_equations; lia).
  clearbody n400 r400 n100 r100 n4 r4 n1 r1 a.
  destruct ((n1 =? 4) || (n100 =? 4)) eqn:Hearly.
  - unfold valid, MINYEAR, MAXYEAR, _days_in_month. cbn [year month day].
    cbn [Z.eqb Pos.eqb andb _DAYS_IN_MONTH].
    apply orb_true_iff in Hearly.
    rewrite !andb_true_iff, !Z.leb_le.
    destruct Hearly as [H|H]; apply Z.eqb_eq in H; lia.
  - apply orb_false_iff in Hearly. destruct Hearly as [E1 E100].
    apply Z.eqb_neq in E1, E100.
    rewrite <- (is_leap_decomp n400 n100 n4 n1) by lia.
    set (y := n400 * 400 + 1 + n100 * 100 + n4 * 4 + n1).
    assert (Hy : 1 <= y <= 9999) by (subst y; lia).
    clearbody y.
    rewrite Z.shiftr_div_pow2 by lia. change (2 ^ 5) with 32.
    set (m := (r1 + 50) / 32).
    assert (Hm : 32 * m <= r1 + 50 < 32 * m + 32)
      by (subst m; Z.div_mod_to_equations; lia).
    clearbody m.
    assert (Hcases : m = 1 \/ m = 2 \/ m = 3 \/ m = 4 \/ m = 5 \/ m = 6 \/
                     m = 7 \/ m = 8 \/ m = 9 \/ m = 10 \/ m = 11 \/ m = 12) by lia.
    destruct (_is_leap y) eqn:Hleap;
    repeat (destruct Hcases as [->|Hcases]); try subst m;
      cbn [Z.ltb Z.compare Pos.compare Pos.compare_cont andb
           _DAYS_BEFORE_MONTH Z.add Z.sub Z.opp Z.pos_sub Pos.add Pos.succ
           Pos.pred_double];
      match goal with |- context [?x <? ?y] => destruct (Z.ltb_spec x y) end;
      unfold valid, MINYEAR, MAXYEAR, _days_in_month; cbn [year month day];
      rewrite ?Hleap; cbn; rewrite ?Hleap; cbn;
      rewrite !andb_true_iff, !Z.leb_le; lia.
Qed.

Lemma days_before_year_decomp n400 n100 n4 n1 :
  0 <= n400 -> 0 <= n100 <= 3 -> 0 <= n4 <= 24 -> 0 <= n1 <= 3 ->
  _days_before_year (n400 * 400 + 1 + n100 * 100 + n4 * 4 + n1)
  = 146097 * n400 + 36524 * n100 + 1461 * n4 + 365 * n1.
Proof.
  intros. unfold _days_before_year. cbv zeta.
  Z.div_mod_to_equations. lia.
Qed.

Lemma toordinal_fromordinal n :
  1 <= n <= _MAXORDINAL -> toordinal (fromordinal n) = n.
Proof.
  intros Hn. unfold fromordinal, _ord2ymd, _MAXORDINAL, _DI400Y, _DI100Y, _DI4Y in *.
  cbv zeta.
  set (a := n - 1).
  set (n400 := a / 146097). set (r400 := a mod 146097).
  set (n100 := r400 / 36524). set (r100 := r400 mod 36524).
  set (n4 := r100 / 1461). set (r4 := r100 mod 1461).
  set (n1 := r4 / 365). set (r1 := r4 mod 365).
  assert (Ha : 0 <= a <= 3652058 /\ n = a + 1) by (subst a; lia).
  assert (B400 : 0 <= n400 <= 24 /\ 0 <= r400 < 146097 /\ a = 146097 * n400 + r400)
    by (subst n400 r400; Z.div_mod_to_equations; lia).
  assert (B100 : 0 <= n100 <= 4 /\ 0 <= r100 < 36524 /\ r400 = 36524 * n100 + r100)
    by (subst n100 r100; Z.div_mod_to_equations; lia).
  assert (B4 : 0 <= n4 <= 24 /\ 0 <= r4 < 1461 /\ r100 = 1461 * n4 + r4)
    by (subst n4 r4; Z.div_mod_to_equations; lia).
  assert (B1 : 0 <= n1 <= 4 /\ 0 <= r1 < 365 /\ r4 = 365 * n1 + r1)
    by (subst n1 r1; Z.div_mod_to_equations; lia).
  clearbody n400 r400 n100 r100 n4 r4 n1 r1 a.
  destruct ((n1 =? 4) || (n100 =? 4)) eqn:Hearly.
  - unfold toordinal, _ymd2ord, _days_before_month, _days_before_year, _is_leap.
    cbn [year month day]. cbv zeta.
    cbn [Z.ltb Z.compare Pos.compare Pos.compare_cont andb _DAYS_BEFORE_MONTH].
    apply orb_true_iff in Hearly.
    repeat match goal with
           | |- context [?a =? ?b] => destruct (Z.eqb_spec a b)
           end; cbn [andb orb negb];
    destruct Hearly as [H|H]; apply Z.eqb_eq in H;
      Z.div_mod_to_equations; lia.
  - apply orb_false_iff in Hearly. destruct Hearly as [E1 E100].
    apply Z.eqb_neq in E1, E100.
    rewrite <- (is_leap_decomp n400 n100 n4 n1) by lia.
    pose proof (days_before_year_decomp n400 n100 n4 n1) as Hdby.
    set (y := n400 * 400 + 1 + n100 * 100 + n4 * 4 + n1) in *.
    assert (Hy : _days_before_year y = a - r1) by (rewrite Hdby; lia).
    clear Hdby. clearbody y.
    rewrite Z.shiftr_div_pow2 by lia. change (2 ^ 5) with 32.
    set (m := (r1 + 50) / 32).
    assert (Hm : 32 * m <= r1 + 50 < 32 * m + 32)
      by (subst m; Z.div_mod_to_equations; lia).
    clearbody m.
    assert (Hcases : m = 1 \/ m = 2 \/ m = 3 \/ m = 4 \/ m = 5 \/ m = 6 \/
                     m = 7 \/ m = 8 \/ m = 9 \/ m = 10 \/ m = 11 \/ m = 12) by lia.
    destruct (_is_leap y) eqn:Hleap;
    repeat (destruct Hcases as [->|Hcases]); try subst m;
      cbn [Z.ltb Z.compare Pos.compare Pos.compare_cont andb
           _DAYS_BEFORE_MONTH Z.add Z.sub Z.opp Z.pos_sub Pos.add Pos.succ
           Pos.pred_double];
      match goal with |- context [?x <? ?y] => destruct (Z.ltb_spec x y) end;
      unfold toordinal, _ymd2ord, _days_before_month; cbn [year month day];
      rewrite ?Hleap, Hy; cbn; lia.
Qed.

Lemma digit_char_compare a b :
  0 <= a < 10 -> 0 <= b < 10 ->
  Ascii.compare (Text.digit_char a) (Text.digit_char b) = (a ?= b).
Proof.
  intros Ha Hb. unfold Ascii.compare, Text.digit_char.
  rewrite !N_ascii_embedding by lia.
  rewrite Z2N.inj_compare by lia.
  apply Z.add_compare_mono_l.
Qed.

Lemma zfill_compare w : forall a b s t,
  0 <= a < 10 ^ Z.of_nat w -> 0 <= b < 10 ^ Z.of_nat w ->
  String.compare (Text.zfill w a ++ s) (Text.zfill w b ++ t)
  = match a ?= b with
    | Eq => String.compare s t
    | c => c
    end.
Proof.
  induction w as [|w IH]; intros a b s t Ha Hb.
  - cbn in Ha, Hb. assert (a = 0) by lia. assert (b = 0) by lia. subst.
    reflexivity.
  - rewrite Nat2Z.inj_succ, Z.pow_succ_r in Ha, Hb by lia.
    set (P := 10 ^ Z.of_nat w) in *.
    assert (HP : 0 < P) by (subst P; apply Z.pow_pos_nonneg; lia).
    cbn [Text.zfill String.append String.compare]. fold P.
    assert (Hqa : 0 <= a / P < 10)
      by (split; [apply Z.div_pos; lia|apply Z.div_lt_upper_bound; lia]).
    assert (Hqb : 0 <= b / P < 10)
      by (split; [apply Z.div_pos; lia|apply Z.div_lt_upper_bound; lia]).
    rewrite !(Z.mod_small _ 10) by lia.
    rewrite digit_char_compare by lia.
    pose proof (Z.div_mod a P ltac:(lia)) as Ea.
    pose proof (Z.div_mod b P ltac:(lia)) as Eb.
    pose proof (Z.mod_pos_bound a P HP) as Ra.
    pose proof (Z.mod_pos_bound b P HP) as Rb.
    rewrite IH by assumption.
    destruct (Z.compare_spec (a / P) (b / P)) as [Hq|Hq|Hq].
    + destruct (Z.compare_spec (a mod P) (b mod P)) as [Hr|Hr|Hr].
      * assert (a = b) by congruence. subst b. now rewrite Z.compare_refl.
      * assert (H : a < b) by (rewrite Ea, Eb, Hq; lia).
        apply Z.compare_lt_iff in H. now rewrite H.
      * assert (H : b < a) by (rewrite Ea, Eb, Hq; lia).
        apply Z.compare_gt_iff in H. now rewrite H.
    + assert (H : a < b) by nia.
      apply Z.compare_lt_iff in H. now rewrite H.
    + assert (H : b < a) by nia.
      apply Z.compare_gt_iff in H. now rewrite H.
Qed.

Definition printable (d : date) : Prop :=
  0 <= year d < 10000 /\ 0 <= month d < 100 /\ 0 <= day d < 100.

Lemma valid_printable d : valid d = true -> printable d.
Proof.
  unfold valid, printable, MINYEAR, MAXYEAR, _days_in_month.
  rewrite !andb_true_iff, !Z.leb_le. intros [[[[[H1 H2] H3] H4] H5] H6].
  assert (_DAYS_IN_MONTH (month d) <= 31).
  { assert (Hc : month d = 1 \/ month d = 2 \/ month d = 3 \/ month d = 4 \/
                 month d = 5 \/ month d = 6 \/ month d = 7 \/ month d = 8 \/
                 month d = 9 \/ month d = 10 \/ month d = 11 \/ month d = 12)
      by lia.
    repeat (destruct Hc as [->|Hc]); try rewrite Hc; cbn; lia. }
  destruct ((month d =? 2) && _is_leap (year d)); lia.
Qed.

Lemma append_empty s : s ++ "" = s.
Proof. induction s; cbn; congruence. Qed.

Lemma isoformat_compare a b :
  printable a -> printable b ->
  String.compare (isoformat a) (isoformat b) = Date.compare a b.
Proof.
  intros (Hy & Hm & Hd) (Hy' & Hm' & Hd'). unfold isoformat, Date.compare.
  rewrite (zfill_compare 4) by (cbn; lia).
  destruct (year a ?= year b); try reflexivity.
  cbn [String.append String.compare Ascii.compare].
  change (N_of_ascii "-" ?= N_of_ascii "-")%N with Eq. cbv iota.
  rewrite (zfill_compare 2) by (cbn; lia).
  destruct (month a ?= month b); try reflexivity.
  cbn [String.append String.compare Ascii.compare].
  change (N_of_ascii "-" ?= N_of_ascii "-")%N with Eq. cbv iota.
  rewrite <- (append_empty (Text.zfill 2 (day a))).
  rewrite <- (append_empty (Text.zfill 2 (day b))).
  rewrite (zfill_compare 2) by (cbn; lia).
  now destruct (day a ?= day b).
Qed.

End DateFacts.

(** *** ORDER BY returns its input, sorted *)

Section SortFacts.
Context {A : Type} (le : A -> A -> bool).

Lemma insert_sorted_perm x l : Permutation (insert_sorted le x l) (x :: l).
Proof.
  induction l as [|y r IH]; cbn [insert_sorted]; [reflexivity|].
  destruct (le x y); [reflexivity|].
  rewrite IH. apply perm_swap.
Qed.

Lemma order_by_perm l : Permutation (order_by le l) l.
Proof.
  induction l as [|x r IH]; cbn [order_by fold_right]; [reflexivity|].
  fold (order_by le r). rewrite insert_sorted_perm. now constructor.
Qed.

Hypothesis le_total : forall x y, le x y = true \/ le y x = true.
Hypothesis le_trans : forall x y z, le x y = true -> le y z = true -> le x z = true.

Lemma insert_sorted_sorted x l :
  StronglySorted (fun a b => le a b = true) l ->
  StronglySorted (fun a b => le a b = true) (insert_sorted le x l).
Proof.
  induction 1 as [|y r Hs IH Hall]; cbn [insert_sorted].
  - repeat constructor.
  - destruct (le x y) eqn:Hxy.
    + constructor; [now constructor|].
      constructor; [exact Hxy|].
      eapply Forall_impl; [|exact Hall]. intros z Hz. now apply (le_trans x y z).
    + constructor; [exact IH|].
      assert (Hxr : Forall (fun b => le y b = true) (x :: r)).
      { constructor; [|exact Hall].
        destruct (le_total x y) as [H|H]; congruence. }
      revert Hxr. apply Permutation_Forall. symmetry.
      apply insert_sorted_perm.
Qed.

Lemma order_by_sorted l :
  StronglySorted (fun a b => le a b = true) (order_by le l).
Proof.
  induction l as [|x r IH]; cbn [order_by fold_right]; [constructor|].
  now apply insert_sorted_sorted.
Qed.

End SortFacts.

(** *** Orders given by a three-way comparison *)

Section CompareFacts.
Context {A : Type} (cmp : A -> A -> comparison).
Hypothesis cmp_antisym : forall a b, cmp a b = CompOpp (cmp b a).
Hypothesis cmp_eq : forall a b, cmp a b = Eq -> a = b.
Hypothesis cmp_trans :
  forall a b c, cmp a b = Lt -> cmp b c = Lt -> cmp a c = Lt.

Definition leb_of (a b : A) : bool :=
  match cmp a b with Gt => false | _ => true end.

Lemma leb_of_total a b : leb_of a b = true \/ leb_of b a = true.
Proof.
  unfold leb_of. rewrite (cmp_antisym a b). destruct (cmp b a); cbn; auto.
Qed.

Lemma leb_of_trans a b c :
  leb_of a b = true -> leb_of b c = true -> leb_of a c = true.
Proof.
  unfold leb_of. intros Hab Hbc.
  destruct (cmp a b) eqn:Eab; try discriminate;
    destruct (cmp b c) eqn:Ebc; try discriminate.
  - apply cmp_eq in Eab. subst b. now rewrite Ebc.
  - apply cmp_eq in Eab. subst b. now rewrite Ebc.
  - apply cmp_eq in Ebc. subst c. now rewrite Eab.
  - now rewrite (cmp_trans a b c Eab Ebc).
Qed.

End CompareFacts.

Lemma string_compare_trans a : forall b c,
  String.compare a b = Lt -> String.compare b c = Lt -> String.compare a c = Lt.
Proof.
  induction a as [|x a IH]; intros [|y b] [|z c]; cbn [String.compare];
    try discriminate; try reflexivity.
  unfold Ascii.compare.
  destruct (N.compare_spec (N_of_ascii x) (N_of_ascii y)) as [Hxy|Hxy|Hxy];
    try discriminate;
    destruct (N.compare_spec (N_of_ascii y) (N_of_ascii z)) as [Hyz|Hyz|Hyz];
    try discriminate; intros Hab Hbc.
  - rewrite Hxy, Hyz, N.compare_refl. now apply (IH b c).
  - rewrite Hxy. apply N.compare_lt_iff in Hyz. now rewrite Hyz.
  - rewrite <- Hyz. apply N.compare_lt_iff in Hxy. now rewrite Hxy.
  - assert (H : (N_of_ascii x < N_of_ascii z)%N) by lia.
    apply N.compare_lt_iff in H. now rewrite H.
Qed.

Lemma text_compare_antisym a b : text_compare a b = CompOpp (text_compare b a).
Proof.
  destruct a, b; cbn; try reflexivity. apply String.compare_antisym.
Qed.

Lemma text_compare_eq a b : text_compare a b = Eq -> a = b.
Proof.
  destruct a, b; cbn; try discriminate; try reflexivity.
  intros H. apply String.compare_eq_iff in H. now subst.
Qed.

Lemma text_compare_trans a b c :
  text_compare a b = Lt -> text_compare b c = Lt -> text_compare a c = Lt.
Proof.
  destruct a, b, c; cbn; try discriminate; try reflexivity.
  apply string_compare_trans.
Qed.

Lemma fecha_hora_compare_antisym a b :
  fecha_hora_compare a b = CompOpp (fecha_hora_compare b a).
Proof.
  unfold fecha_hora_compare.
  rewrite (text_compare_antisym (fst a) (fst b)).
  destruct (text_compare (fst b) (fst a)); cbn; try reflexivity.
  apply text_compare_antisym.
Qed.

Lemma fecha_hora_compare_eq a b : fecha_hora_compare a b = Eq -> a = b.
Proof.
  unfold fecha_hora_compare. destruct a as [a1 a2], b as [b1 b2]. cbn [fst snd].
  destruct (text_compare a1 b1) eqn:E1; try discriminate.
  intros E2. apply text_compare_eq in E1, E2. now subst.
Qed.

Lemma fecha_hora_compare_trans a b c :
  fecha_hora_compare a b = Lt -> fecha_hora_compare b c = Lt ->
  fecha_hora_compare a c = Lt.
Proof.
  unfold fecha_hora_compare.
  destruct a as [a1 a2], b as [b1 b2], c as [c1 c2]. cbn [fst snd].
  destruct (text_compare a1 b1) eqn:E1; try discriminate;
    destruct (text_compare b1 c1) eqn:E2; try discriminate; intros H1 H2.
  - apply text_compare_eq in E1. subst b1. rewrite E2.
    now apply (text_compare_trans a2 b2 c2).
  - apply text_compare_eq in E1. subst. now rewrite E2.
  - apply text_compare_eq in E2. subst. now rewrite E1.
  - now rewrite (text_compare_trans a1 b1 c1 E1 E2).
Qed.

Lemma listed_leb_total x y : listed_leb x y = true \/ listed_leb y x = true.
Proof.
  apply (leb_of_total fecha_hora_compare fecha_hora_compare_antisym).
Qed.

Lemma listed_leb_trans x y z :
  listed_leb x y = true -> listed_leb y z = true -> listed_leb x z = true.
Proof.
  apply (leb_of_trans fecha_hora_compare fecha_hora_compare_eq
           fecha_hora_compare_trans).
Qed.

(** *** Grouped counts *)

Lemma In_fechas s l :
  In s (fechas l) <-> exists a, In a l /\ a_fecha a = Some s.
Proof.
  induction l as [|a r IH]; cbn [fechas].
  - split; [intros []|intros (a & [] & _)].
  - destruct (a_fecha a) as [t|] eqn:Ha.
    + cbn [In]. rewrite IH. split.
      * intros [->|(b & Hb & Hs)]; [exists a; auto|exists b; auto].
      * intros (b & [<-|Hb] & Hs); [left; congruence|right; exists b; auto].
    + rewrite IH. split.
      * intros (b & Hb & Hs). exists b; cbn; auto.
      * intros (b & [<-|Hb] & Hs); [congruence|exists b; auto].
Qed.

Lemma count_by_fecha_pos s l :
  0 < count_by_fecha s l <-> In s (fechas l).
Proof.
  rewrite In_fechas. unfold count_by_fecha. split.
  - intros H.
    destruct (filter (fun a => option_string_eqb (a_fecha a) s) l)
      as [|a r] eqn:Hf; [cbn in H; lia|].
    assert (Ha : In a (filter (fun a => option_string_eqb (a_fecha a) s) l))
      by (rewrite Hf; now left).
    apply filter_In in Ha. destruct Ha as [Hin Heq].
    exists a. split; [exact Hin|].
    unfold option_string_eqb in Heq. destruct (a_fecha a); [|discriminate].
    apply String.eqb_eq in Heq. now subst.
  - intros (a & Hin & Hs).
    assert (Ha : In a (filter (fun a => option_string_eqb (a_fecha a) s) l)).
    { apply filter_In. split; [exact Hin|]. rewrite Hs. cbn.
      apply String.eqb_refl. }
    destruct (filter (fun a => option_string_eqb (a_fecha a) s) l);
      [destruct Ha|cbn [List.length]; lia].
Qed.

Lemma count_by_fecha_between lo hi s l :
  count_by_fecha s (filter (fecha_between lo hi) l)
  = if String.leb lo s && String.leb s hi then count_by_fecha s l else 0.
Proof.
  unfold count_by_fecha.
  induction l as [|a r IH]; cbn [filter].
  - now destruct (String.leb lo s && String.leb s hi).
  - unfold fecha_between at 1, option_string_eqb at 2.
    destruct (a_fecha a) as [t|] eqn:Ha.
    + destruct (String.eqb_spec t s) as [->|Hne].
      * destruct (String.leb lo s && String.leb s hi) eqn:Hin.
        -- cbn [filter]. rewrite Ha. cbn [option_string_eqb].
           rewrite String.eqb_refl. cbn [List.length]. lia.
        -- exact IH.
      * destruct (String.leb lo t && String.leb t hi).
        -- cbn [filter]. rewrite Ha. cbn [option_string_eqb].
           apply String.eqb_neq in Hne. rewrite Hne. exact IH.
        -- exact IH.
    + exact IH.
Qed.

Lemma In_counts_between lo hi l s n :
  In (s, n) (counts_between lo hi l)
  <-> String.leb lo s && String.leb s hi = true
      /\ 0 < count_by_fecha s l /\ n = count_by_fecha s l.
Proof.
  unfold counts_between. cbv zeta. rewrite in_map_iff. split.
  - intros (k & Hk & Hin). injection Hk as -> <-.
    apply (Permutation_in _ (order_by_perm String.leb _)) in Hin.
    apply nodup_In in Hin. apply count_by_fecha_pos in Hin.
    rewrite count_by_fecha_between in *.
    destruct (String.leb lo s && String.leb s hi); [auto|lia].
  - intros (Hr & Hpos & ->). exists s.
    rewrite count_by_fecha_between, Hr. split; [reflexivity|].
    apply (Permutation_in _ (Permutation_sym (order_by_perm String.leb _))).
    apply nodup_In. apply count_by_fecha_pos.
    now rewrite count_by_fecha_between, Hr.
Qed.

Lemma In_disabled lo hi l max s :
  In s (map fst (filter (fun r : string * Z => max <=? snd r)
                        (counts_between lo hi l)))
  <-> String.leb lo s && String.leb s hi = true
      /\ 0 < count_by_fecha s l /\ max <= count_by_fecha s l.
Proof.
  rewrite in_map_iff. split.
  - intros ([s' n] & Hs & Hin). cbn in Hs. subst s'.
    apply filter_In in Hin. destruct Hin as [Hin Hmax]. cbn in Hmax.
    apply In_counts_between in Hin. destruct Hin as (Hr & Hpos & ->).
    apply Z.leb_le in Hmax. auto.
  - intros (Hr & Hpos & Hmax). exists (s, count_by_fecha s l).
    split; [reflexivity|]. apply filter_In. split.
    + now apply In_counts_between.
    + cbn. now apply Z.leb_le.
Qed.

(** ** The page of [mis_citas]: availability and listing *)

Lemma run_page cfg e u req db horizon :
  method req = GET ->
  Date.add_days (today e) 30 = Some horizon ->
  serve (mis_citas cfg e u req) db
  = (Ok (RenderMisCitas
           {| page_user := u;
              my_appointments := appointments_of_user (u_id u) (appointments db);
              disabled_dates :=
                map fst
                    (filter (fun r : string * Z =>
                               MAX_APPOINTMENTS_PER_DAY cfg <=? snd r)
                            (counts_between (Date.isoformat (today e))
                                            (Date.isoformat horizon)
                                            (appointments db)));
              page_today := Date.isoformat (today e);
              max_date := Date.isoformat horizon;
              max_per_day := MAX_APPOINTMENTS_PER_DAY cfg |}),
     db,
     [EvRead (QAppointmentsOfUser (u_id u));
      EvRead (QCountsBetween (Date.isoformat (today e))
                             (Date.isoformat horizon))]).
Proof.
  intros Hget Hadd. unfold serve, mis_citas. rewrite Hget. cbv zeta.
  unfold bind at 1. unfold read at 1. cbn [conn committed trace app].
  rewrite Hadd. reflexivity.
Qed.

Lemma add_days_spec d k h :
  Date.add_days d k = Some h ->
  Date.valid h = true /\ Date.toordinal h = Date.toordinal d + k.
Proof.
  unfold Date.add_days. cbv zeta.
  destruct ((0 <? Date.toordinal d + k)
            && (Date.toordinal d + k <=? Date._MAXORDINAL)) eqn:Hr;
    [|discriminate].
  apply andb_true_iff in Hr. destruct Hr as [H0 H1].
  apply Z.ltb_lt in H0. apply Z.leb_le in H1.
  intros [= <-]. split.
  - apply DateFacts.fromordinal_valid. lia.
  - apply DateFacts.toordinal_fromordinal. lia.
Qed.

Lemma isoformat_leb a b :
  Date.valid a = true -> Date.valid b = true ->
  String.leb (Date.isoformat a) (Date.isoformat b) = Date.leb a b.
Proof.
  intros Ha Hb. unfold String.leb, Date.leb.
  now rewrite DateFacts.isoformat_compare
    by now apply DateFacts.valid_printable.
Qed.

(** The number of appointments with a given [fecha], in the words of the
    specification: the occurrences of the text among the [fecha] values
    of the rows, counted without a query. *)
Definition fecha_eq_dec (a b : option string) : {a = b} + {a <> b}.
Proof. decide equality. apply string_dec. Defined.

Definition rows_with_fecha (s : string) (db : tables) : Z :=
  Z.of_nat (count_occ fecha_eq_dec (map a_fecha (appointments db)) (Some s)).

(** The number of appointments on a date. *)
Definition appointments_on (d : Date.date) (db : tables) : Z :=
  rows_with_fecha (Date.isoformat d) db.

Lemma count_by_fecha_occ s db :
  count_by_fecha s (appointments db) = rows_with_fecha s db.
Proof.
  unfold count_by_fecha, rows_with_fecha. f_equal.
  induction (appointments db) as [|a r IH]; [reflexivity|].
  cbn [filter map count_occ].
  destruct (fecha_eq_dec (a_fecha a) (Some s)) as [E|N].
  - rewrite E. cbn [option_string_eqb]. rewrite String.eqb_refl.
    cbn [List.length]. now rewrite IH.
  - destruct (a_fecha a) as [t|]; cbn [option_string_eqb]; [|exact IH].
    destruct (String.eqb_spec t s) as [->|_]; [now elim N|exact IH].
Qed.

Lemma map_fst_filter_graph {A B} (g : A -> B) (P : A * B -> bool) l :
  map fst (filter P (map (fun x => (x, g x)) l))
  = filter (fun x => P (x, g x)) l.
Proof.
  induction l as [|x r IH]; [reflexivity|]. cbn [map filter].
  destruct (P (x, g x)); cbn [map fst]; now rewrite IH.
Qed.

Lemma disabled_NoDup lo hi l max :
  NoDup (map fst (filter (fun r : string * Z => max <=? snd r)
                         (counts_between lo hi l))).
Proof.
  unfold counts_between. cbv zeta. rewrite map_fst_filter_graph.
  apply NoDup_filter.
  apply (Permutation_NoDup
           (Permutation_sym (order_by_perm String.leb _))).
  apply NoDup_nodup.
Qed.

(** C8. The page of [mis_citas] is computed for the window from today to
    [today + timedelta(days=30)].  For a positive daily maximum its
    disabled dates are, each once, the [fecha] values between the ISO
    texts of the two ends that at least the maximum number of
    appointments carry; for dates these are exactly the dates of the
    window, both ends included, on which the number of appointments has
    reached the maximum. *)
Theorem availability_window cfg e u req db horizon :
  method req = GET ->
  Date.valid (today e) = true ->
  0 < MAX_APPOINTMENTS_PER_DAY cfg ->
  Date.add_days (today e) 30 = Some horizon ->
  exists p,
    response_of (serve (mis_citas cfg e u req) db) = Ok (RenderMisCitas p)
    /\ Date.toordinal horizon = Date.toordinal (today e) + 30
    /\ page_today p = Date.isoformat (today e)
    /\ max_date p = Date.isoformat horizon
    /\ max_per_day p = MAX_APPOINTMENTS_PER_DAY cfg
    /\ NoDup (disabled_dates p)
    /\ (forall s,
          In s (disabled_dates p)
          <-> String.leb (Date.isoformat (today e)) s = true
              /\ String.leb s (Date.isoformat horizon) = true
              /\ MAX_APPOINTMENTS_PER_DAY cfg <= rows_with_fecha s db)
    /\ (forall d,
          Date.valid d = true ->
          (In (Date.isoformat d) (disabled_dates p)
           <-> Date.leb (today e) d = true
               /\ Date.leb d horizon = true
               /\ MAX_APPOINTMENTS_PER_DAY cfg <= appointments_on d db)).
Proof.
  intros Hget Htoday Hmax Hadd.
  destruct (add_days_spec _ _ _ Hadd) as [Hvalid Hord].
  rewrite (run_page cfg e u req db horizon Hget Hadd).
  eexists. split; [reflexivity|]. cbn [page_today max_date max_per_day
                                       disabled_dates].
  repeat (split; [first [exact Hord|reflexivity]|]).
  split; [apply disabled_NoDup|].
  assert (Hs : forall s,
            In s (map fst
                      (filter (fun r : string * Z =>
                                 MAX_APPOINTMENTS_PER_DAY cfg <=? snd r)
                              (counts_between (Date.isoformat (today e))
                                              (Date.isoformat horizon)
                                              (appointments db))))
            <-> String.leb (Date.isoformat (today e)) s = true
                /\ String.leb s (Date.isoformat horizon) = true
                /\ MAX_APPOINTMENTS_PER_DAY cfg <= rows_with_fecha s db).
  { intros s. rewrite In_disabled, count_by_fecha_occ, andb_true_iff. split.
    - intros ([H1 H2] & _ & H3). auto.
    - intros (H1 & H2 & H3). split; [auto|]. split; [lia|exact H3]. }
  split; [exact Hs|].
  intros d Hd. rewrite Hs. unfold appointments_on.
  now rewrite (isoformat_leb (today e) d), (isoformat_leb d horizon)
    by assumption.
Qed.

Definition page_request : request := mkRequest GET (Some 2) [].

(** On the first of December, with two appointments on the 20th and a
    maximum of two, the page disables the 20th and leaves the 21st
    open. *)
Lemma availability_window_witness :
  exists p,
    response_of (serve (mis_citas scenario_cfg console_env ana page_request)
                       full_day_db)
    = Ok (RenderMisCitas p)
    /\ max_date p = "2025-12-31"
    /\ In "2025-12-20" (disabled_dates p)
    /\ ~ In "2025-12-21" (disabled_dates p).
Proof.
  destruct (availability_window scenario_cfg console_env ana page_request
              full_day_db (Date.mkDate 2025 12 31)
              eq_refl eq_refl eq_refl eq_refl)
    as (p & Hp & _ & _ & Hmax & _ & _ & _ & Hd).
  exists p. split; [exact Hp|]. split; [exact Hmax|]. split.
  - apply (Hd (Date.mkDate 2025 12 20) eq_refl).
    repeat split; vm_compute; discriminate.
  - intros H. apply (Hd (Date.mkDate 2025 12 21) eq_refl) in H.
    destruct H as (_ & _ & H). vm_compute in H. now apply H.
Defined.

Example disabled_dates_of_full_day :
  match response_of (serve (mis_citas scenario_cfg console_env ana page_request)
                           full_day_db) with
  | Ok (RenderMisCitas p) => disabled_dates p = ["2025-12-20"]
  | _ => False
  end.
Proof. reflexivity. Qed.

Lemma date_compare_eq a b : Date.compare a b = Eq -> a = b.
Proof.
  unfold Date.compare. destruct a as [y m d], b as [y' m' d'].
  cbn [Date.year Date.month Date.day].
  destruct (Z.compare_spec y y'); try discriminate.
  destruct (Z.compare_spec m m'); try discriminate.
  destruct (Z.compare_spec d d'); try discriminate.
  intros _. now subst.
Qed.

Lemma date_compare_refl a : Date.compare a a = Eq.
Proof. unfold Date.compare. now rewrite !Z.compare_refl. Qed.

(** On rows that hold dates, the key of [ORDER BY fecha, hora] orders by
    calendar date and, within a date, by the text of the time. *)
Lemma fecha_hora_leb_dates d1 d2 h1 h2 :
  Date.valid d1 = true -> Date.valid d2 = true ->
  (fecha_hora_leb (Some (Date.isoformat d1), h1) (Some (Date.isoformat d2), h2)
   = true
   <-> Date.ltb d1 d2 = true \/ (d1 = d2 /\ text_compare h1 h2 <> Gt)).
Proof.
  intros H1 H2. unfold fecha_hora_leb, fecha_hora_compare, Date.ltb.
  cbn [fst snd text_compare].
  rewrite DateFacts.isoformat_compare by now apply DateFacts.valid_printable.
  destruct (Date.compare d1 d2) eqn:Hc.
  - apply date_compare_eq in Hc. subst d2. split.
    + intros H. right. split; [reflexivity|].
      destruct (text_compare h1 h2); [discriminate..|discriminate H].
    + intros [H|[_ H]]; [discriminate H|].
      destruct (text_compare h1 h2); [reflexivity..|now elim H].
  - split; [now left|reflexivity].
  - split; [discriminate|].
    intros [H|[-> _]]; [discriminate H|].
    now rewrite date_compare_refl in Hc.
Qed.

(** *** The listing in the words of the specification *)

(** Ascending order on the values of a TEXT column: NULL first, then
    text in byte order. *)
Definition value_le (a b : option string) : Prop :=
  match a, b with
  | None, _ => True
  | Some _, None => False
  | Some x, Some y => String.compare x y <> Gt
  end.

(** By date and, on one date, by time of day. *)
Definition by_date_then_time (x y : listed) : Prop :=
  (l_fecha x <> l_fecha y /\ value_le (l_fecha x) (l_fecha y))
  \/ (l_fecha x = l_fecha y /\ value_le (l_hora x) (l_hora y)).

Lemma text_compare_refl a : text_compare a a = Eq.
Proof.
  pose proof (text_compare_antisym a a) as H.
  destruct (text_compare a a); [reflexivity|discriminate H|discriminate H].
Qed.

Lemma text_compare_le a b : text_compare a b <> Gt <-> value_le a b.
Proof.
  destruct a as [x|], b as [y|]; cbn [text_compare value_le];
    try tauto; split; try discriminate; auto.
Qed.

Lemma listed_leb_spec x y :
  listed_leb x y = true <-> by_date_then_time x y.
Proof.
  unfold listed_leb, fecha_hora_leb, fecha_hora_compare, listed_key,
    by_date_then_time.
  cbn [fst snd]. rewrite <- !text_compare_le.
  destruct (text_compare (l_fecha x) (l_fecha y)) eqn:Hf.
  - apply text_compare_eq in Hf. split.
    + intros H. right. split; [exact Hf|].
      destruct (text_compare (l_hora x) (l_hora y));
        [discriminate..|discriminate H].
    + intros [[Hne _]|[_ H]]; [now elim Hne|].
      destruct (text_compare (l_hora x) (l_hora y));
        [reflexivity..|now elim H].
  - split; [|reflexivity]. intros _. left. split; [|discriminate].
    intros E. rewrite E, text_compare_refl in Hf. discriminate.
  - split; [discriminate|].
    intros [[_ H]|[E _]]; [now elim H|].
    rewrite E, text_compare_refl in Hf. discriminate.
Qed.

Lemma insert_sorted_map {A B} (f : A -> B) (le : B -> B -> bool) x l :
  insert_sorted le (f x) (map f l)
  = map f (insert_sorted (fun a b => le (f a) (f b)) x l).
Proof.
  induction l as [|y r IH]; [reflexivity|]. cbn [map insert_sorted].
  destruct (le (f x) (f y)); [reflexivity|]. cbn [map]. now rewrite IH.
Qed.

Lemma order_by_map {A B} (f : A -> B) (le : B -> B -> bool) l :
  order_by le (map f l) = map f (order_by (fun a b => le (f a) (f b)) l).
Proof.
  induction l as [|x r IH]; [reflexivity|].
  cbn [map order_by fold_right]. fold (order_by le (map f r)).
  fold (order_by (fun a b => le (f a) (f b)) r).
  now rewrite IH, insert_sorted_map.
Qed.

Lemma filter_split {A} (f : A -> bool) l :
  Permutation (filter f l ++ filter (fun x => negb (f x)) l) l.
Proof.
  induction l as [|x r IH]; [reflexivity|]. cbn [filter].
  destruct (f x); cbn [negb app].
  - now constructor.
  - rewrite <- Permutation_middle. now constructor.
Qed.

Lemma owned_by_spec uid a :
  owned_by uid a = true <-> a_user_id a = SqlInt uid.
Proof.
  unfold owned_by. destruct (a_user_id a) as [[|z|s]|m k]; split;
    try discriminate; try (intros H; now injection H).
  - intros H. apply Z.eqb_eq in H. now subst.
  - intros H. injection H as ->. apply Z.eqb_refl.
Qed.

Lemma StronglySorted_impl {A} (R S : A -> A -> Prop) l :
  (forall x y, R x y -> S x y) -> StronglySorted R l -> StronglySorted S l.
Proof.
  intros HRS. induction 1 as [|x r Hs IH Hall]; constructor; [exact IH|].
  eapply Forall_impl; [|exact Hall]. intros y. apply HRS.
Qed.

(** On rows that hold dates, the order of the listing is the order of
    the calendar. *)
Lemma by_date_then_time_dates x y d1 d2 :
  Date.valid d1 = true -> Date.valid d2 = true ->
  l_fecha x = Some (Date.isoformat d1) ->
  l_fecha y = Some (Date.isoformat d2) ->
  (by_date_then_time x y
   <-> Date.ltb d1 d2 = true
       \/ (d1 = d2 /\ value_le (l_hora x) (l_hora y))).
Proof.
  intros H1 H2 Hx Hy. rewrite <- listed_leb_spec.
  unfold listed_leb, listed_key. rewrite Hx, Hy.
  rewrite (fecha_hora_leb_dates d1 d2 (l_hora x) (l_hora y) H1 H2).
  now rewrite text_compare_le.
Qed.

(** C9. The listing of [mis_citas] (and the same statement in [perfil])
    holds the rows of the user, each of them once and no other: the
    appointments split into the rows whose [user_id] is the user's id,
    which the listing shows in its order with their date, time, kind,
    place and state, and the rows of another [user_id].  The listing is
    in ascending order of date and then of time of day; on dates this is
    the order of the calendar. *)
Theorem listing_by_owner cfg e u req db horizon :
  method req = GET ->
  Date.add_days (today e) 30 = Some horizon ->
  exists p mine others,
    response_of (serve (mis_citas cfg e u req) db) = Ok (RenderMisCitas p)
    /\ Permutation (mine ++ others) (appointments db)
    /\ Forall (fun a => a_user_id a = SqlInt (u_id u)) mine
    /\ Forall (fun a => a_user_id a <> SqlInt (u_id u)) others
    /\ my_appointments p
       = map (fun a => mkListed (a_fecha a) (a_hora a) (a_tipo a)
                                (a_lugar a) (a_estado a)) mine
    /\ StronglySorted by_date_then_time (my_appointments p)
    /\ fst (perfil_my_appointments u (mkWorld db db []))
       = Ok (my_appointments p)
    /\ (forall x y d1 d2,
          Date.valid d1 = true -> Date.valid d2 = true ->
          l_fecha x = Some (Date.isoformat d1) ->
          l_fecha y = Some (Date.isoformat d2) ->
          (by_date_then_time x y
           <-> Date.ltb d1 d2 = true
               \/ (d1 = d2 /\ value_le (l_hora x) (l_hora y)))).
Proof.
  intros Hget Hadd.
  rewrite (run_page cfg e u req db horizon Hget Hadd).
  unfold response_of. cbn [fst].
  eexists _,
    (order_by (fun a b => listed_leb (listed_of a) (listed_of b))
              (filter (owned_by (u_id u)) (appointments db))),
    (filter (fun a => negb (owned_by (u_id u) a)) (appointments db)).
  split; [reflexivity|]. cbn [my_appointments].
  split; [rewrite order_by_perm; apply filter_split|].
  split.
  { assert (H : Forall (fun a => a_user_id a = SqlInt (u_id u))
                       (filter (owned_by (u_id u)) (appointments db))).
    { apply Forall_forall. intros a Ha. apply filter_In in Ha.
      now apply owned_by_spec. }
    revert H. apply Permutation_Forall. symmetry. apply order_by_perm. }
  split.
  { apply Forall_forall. intros a Ha. apply filter_In in Ha.
    destruct Ha as [_ Ha]. intros E. apply owned_by_spec in E.
    rewrite E in Ha. discriminate. }
  assert (Hmap : appointments_of_user (u_id u) (appointments db)
                 = map (fun a => mkListed (a_fecha a) (a_hora a) (a_tipo a)
                                          (a_lugar a) (a_estado a))
                       (order_by (fun a b => listed_leb (listed_of a)
                                                        (listed_of b))
                                 (filter (owned_by (u_id u))
                                         (appointments db)))).
  { unfold appointments_of_user. now rewrite order_by_map. }
  split; [exact Hmap|].
  split.
  { apply (StronglySorted_impl (fun x y => listed_leb x y = true)).
    - intros x y. apply listed_leb_spec.
    - apply order_by_sorted; [apply listed_leb_total|apply listed_leb_trans]. }
  split; [reflexivity|].
  intros x y d1 d2. apply by_date_then_time_dates.
Qed.

Definition agenda_db : tables :=
  mkTables [mkUser 1 "admin" (Some "admin@saludgo.local") "admin"; ana]
           [mkAppointment 1 (SqlInt 2) (Some "2025-12-20") (Some "10:00")
                          (Some "Consulta") (Some "Por definir") (Some "")
                          (Some "Agendada") (Some "2025-11-30 10:00:00");
            mkAppointment 2 (SqlInt 1) (Some "2025-12-05") None
                          (Some "Consulta") (Some "Por definir") (Some "")
                          (Some "Agendada") (Some "2025-11-30 10:01:00");
            mkAppointment 3 (SqlInt 2) (Some "2025-12-03") (Some "15:30")
                          (Some "Control") (Some "Por definir") (Some "")
                          (Some "Agendada") (Some "2025-11-30 10:02:00");
            mkAppointment 4 (SqlInt 2) (Some "2025-12-20") (Some "08:00")
                          (Some "Consulta") (Some "Por definir") (Some "")
                          (Some "Agendada") (Some "2025-11-30 10:03:00")]
           4.

(** The page of ana on [agenda_db]: her three appointments, the one of
    the 3rd first and the two of the 20th by their time; the
    appointment of the administrator is not among them. *)
Lemma listing_by_owner_witness :
  exists p,
    response_of (serve (mis_citas scenario_cfg console_env ana page_request)
                       agenda_db)
    = Ok (RenderMisCitas p)
    /\ my_appointments p
       = [mkListed (Some "2025-12-03") (Some "15:30") (Some "Control")
                   (Some "Por definir") (Some "Agendada");
          mkListed (Some "2025-12-20") (Some "08:00") (Some "Consulta")
                   (Some "Por definir") (Some "Agendada");
          mkListed (Some "2025-12-20") (Some "10:00") (Some "Consulta")
                   (Some "Por definir") (Some "Agendada")]
    /\ StronglySorted by_date_then_time (my_appointments p).
Proof.
  destruct (listing_by_owner scenario_cfg console_env ana page_request
              agenda_db (Date.mkDate 2025 12 31) eq_refl eq_refl)
    as (p & mine & others & Hp & _ & _ & _ & _ & Hs & _).
  exists p. split; [exact Hp|]. split; [|exact Hs].
  vm_compute in Hp. now injection Hp as <-.
Defined.

End Site.

(** ** Bookings that overlap

    The server answers every request in a thread of its own, with a
    connection of its own, and [mis_citas] counts the appointments of
    the date and inserts the new one in two statements, with nothing
    that holds the database between them.  A booking is therefore made
    of two steps, each of which sees the database file as it is when the
    step is taken, and the steps of different bookings may alternate. *)

Module Overlap.

Import Store App Site.
Local Open Scope handler_scope.

Section Steps.
Variable cfg : config.
Variable e : env.
Variable u : user.
Variable req : request.

(** The first step of a POST, up to the capacity check: the date is
    parsed and checked and the appointments of the date are counted.
    [inr fecha]: the booking goes on. *)
Definition admission : M (response + Date.date) :=
  let MAX_PER_DAY := MAX_APPOINTMENTS_PER_DAY cfg in
  let fecha_str := Text.or_else (form_get (form req) "preferencia_fecha") "" in
  match parse_date fecha_str with
  | None =>
      flash msg_invalid_date "warning" ;;
      ret (inl (Redirect "mis_citas"))
  | Some fecha =>
      if Date.ltb fecha (today e) then
        flash msg_past_date "warning" ;;
        ret (inl (Redirect "mis_citas"))
      else
        total <- read (QCountByFecha (Date.isoformat fecha))
                   (fun t => count_by_fecha (Date.isoformat fecha)
                                            (appointments t)) ;;
        if MAX_PER_DAY <=? total then
          flash msg_no_capacity "warning" ;;
          ret (inl (Redirect "mis_citas"))
        else ret (inr fecha)
  end.

(** The second step: the row is inserted and committed and the booking
    is announced. *)
Definition registration (fecha : Date.date) : M response :=
  let tipo :=
    Text.or_str (Text.strip (Text.or_else (form_get (form req) "tipo") ""))
                "Consulta" in
  let motivo := Text.strip (Text.or_else (form_get (form req) "motivo") "") in
  let hora_str := Text.or_else (form_get (form req) "preferencia_hora") "" in
  let lugar :=
    Text.or_str (Text.strip (Text.or_else (form_get (form req) "lugar") ""))
                "Por definir" in
  let estado := "Agendada" in
  insert_appointment e insert_columns
    [SqlInt (u_id u); SqlText (Date.isoformat fecha);
     opt_text (Text.or_none hora_str); SqlText tipo;
     SqlText lugar; SqlText motivo; SqlText estado] ;;
  commit ;;
  flash msg_booked "success" ;;
  notify_booking cfg e u tipo (Date.isoformat fecha) hora_str lugar
                 estado motivo ;;
  ret (Redirect "mis_citas").

(** Taken one after the other, the two steps are the POST branch of
    [mis_citas]. *)
Lemma mis_citas_in_two_steps w :
  method req = POST ->
  mis_citas cfg e u req w
  = (x <- admission ;;
     match x with
     | inl r => ret r
     | inr fecha => registration fecha
     end) w.
Proof.
  intros Hpost. unfold mis_citas, admission. rewrite Hpost. cbv zeta.
  destruct (parse_date (Text.or_else (form_get (form req) "preferencia_fecha")
                                     "")) as [d|]; [|reflexivity].
  destruct (Date.ltb d (today e)); [reflexivity|].
  unfold bind, read. cbn [conn committed trace].
  destruct (MAX_APPOINTMENTS_PER_DAY cfg
            <=? count_by_fecha (Date.isoformat d) (appointments (conn w)));
    reflexivity.
Qed.

Lemma admission_run w :
  (exists r tr, admission w = (Ok (inl r), log w tr))
  \/ (exists d,
        parse_date (fecha_field req) = Some d
        /\ Date.ltb d (today e) = false
        /\ count_by_fecha (Date.isoformat d) (appointments (conn w))
           < MAX_APPOINTMENTS_PER_DAY cfg
        /\ admission w
           = (Ok (inr d), log w [EvRead (QCountByFecha (Date.isoformat d))])).
Proof.
  unfold admission, fecha_field. cbv zeta.
  destruct (parse_date (Text.or_else (form_get (form req) "preferencia_fecha")
                                     "")) as [d|].
  - destruct (Date.ltb d (today e)) eqn:Hlt.
    + left. eexists _, _. reflexivity.
    + destruct (Z.leb_spec (MAX_APPOINTMENTS_PER_DAY cfg)
                  (count_by_fecha (Date.isoformat d) (appointments (conn w))))
        as [Hfull|Hroom].
      * left. unfold bind at 1. unfold read at 1. cbn [conn committed trace].
        apply Z.leb_le in Hfull. rewrite Hfull.
        unfold bind, flash, emit, ret, log. cbn [conn committed trace].
        eexists _, _. rewrite <- app_assoc. reflexivity.
      * right. exists d. split; [reflexivity|]. split; [exact Hlt|].
        split; [exact Hroom|].
        unfold bind at 1. unfold read at 1. cbn [conn committed trace].
        apply Z.leb_gt in Hroom. rewrite Hroom. reflexivity.
  - left. eexists _, _. reflexivity.
Qed.

Lemma registration_run d w :
  exists r tr,
    registration d w
    = (r, mkWorld (add_row (conn w) (booked_row e u req d (conn w)))
                  (add_row (conn w) (booked_row e u req d (conn w)))
                  (trace w ++ tr)%list).
Proof.
  unfold registration. cbv zeta.
  unfold bind at 1. rewrite insert_appointment_run; [|reflexivity|discriminate].
  cbn [conn committed trace app]. rewrite new_appointment_booked.
  unfold bind at 1. unfold commit at 1. cbn [conn committed trace app].
  unfold bind at 1. unfold flash, emit. cbn [conn committed trace app].
  unfold bind at 1.
  match goal with |- context [notify_booking cfg e u ?a ?b ?c ?f ?g ?h ?w] =>
    destruct (notify_booking_run cfg e u a b c f g h w)
      as (r & tr & Hrun & _);
    rewrite Hrun
  end.
  unfold log. cbn [conn committed trace app].
  repeat rewrite <- app_assoc.
  destruct r as [[]|x]; eexists _, _; reflexivity.
Qed.

End Steps.

(** How far a booking has got. *)
Inductive stage : Type :=
| Arrived                    (* the view has not started *)
| Counted (d : Date.date)    (* the date had room when it was counted *)
| Answered.

Record booking : Type := mkBooking {
  b_env : env;
  b_user : user;                (* current_user() *)
  b_request : request;
  b_stage : stage
}.

Definition at_stage (b : booking) (s : stage) : booking :=
  mkBooking (b_env b) (b_user b) (b_request b) s.

(** The next step of a booking against the database file [db]: the file
    afterwards and the booking at its new stage.  A request for the page
    is one step. *)
Definition advance (cfg : config) (db : tables) (b : booking)
  : tables * booking :=
  let w := mkWorld db db [] in
  match b_stage b with
  | Arrived =>
      match method (b_request b) with
      | POST =>
          match admission cfg (b_env b) (b_request b) w with
          | (Ok (inr d), w') => (committed w', at_stage b (Counted d))
          | (_, w') => (committed w', at_stage b Answered)
          end
      | GET =>
          (committed (snd (mis_citas cfg (b_env b) (b_user b) (b_request b) w)),
           at_stage b Answered)
      end
  | Counted d =>
      (committed (snd (registration cfg (b_env b) (b_user b) (b_request b)
                                    d w)),
       at_stage b Answered)
  | Answered => (db, b)
  end.

Fixpoint replace_nth {A} (i : nat) (x : A) (l : list A) {struct l}
  : list A :=
  match l with
  | [] => []
  | y :: r =>
      match i with
      | O => x :: r
      | S j => y :: replace_nth j x r
      end
  end.

(** The server lets the booking number [i] take its next step. *)
Definition turn (cfg : config) (st : tables * list booking) (i : nat)
  : tables * list booking :=
  match nth_error (snd st) i with
  | Some b =>
      let (db, b') := advance cfg (fst st) b in
      (db, replace_nth i b' (snd st))
  | None => st
  end.

(** A schedule names the booking that moves at each moment. *)
Definition interleave (cfg : config) (schedule : list nat)
           (st : tables * list booking) : tables * list booking :=
  fold_left (turn cfg) schedule st.

(** Every booking runs to its end before the next one starts. *)
Definition one_at_a_time (order : list nat) : list nat :=
  flat_map (fun i => [i; i]) order.

(** The invariant as a property of bookings that overlap: however the
    steps of the bookings alternate, no date ends up with more
    appointments than the maximum. *)
Definition capacity_kept_when_overlapping : Prop :=
  forall cfg schedule bookings db,
    Forall (fun b => b_stage b = Arrived) bookings ->
    within_capacity cfg db ->
    within_capacity cfg (fst (interleave cfg schedule (db, bookings))).

(** One place is left on 2025-12-20. *)
Definition one_place_left_db : tables :=
  mkTables [mkUser 1 "admin" (Some "admin@saludgo.local") "admin"; ana]
           [row_on 1 "2025-12-20"] 1.

Definition ana_books : booking :=
  mkBooking console_env ana (booking_request "2025-12-20") Arrived.

(** Two bookings for the last place of 2025-12-20: both count one
    appointment before either inserts, and the date ends with three. *)
Lemma overlapping_bookings_exceed_capacity : ~ capacity_kept_when_overlapping.
Proof.
  intros H.
  specialize (H scenario_cfg [0; 1; 0; 1]%nat [ana_books; ana_books]
                one_place_left_db).
  assert (Hin : within_capacity scenario_cfg one_place_left_db).
  { intros d. unfold one_place_left_db. cbn [appointments].
    change [row_on 1 "2025-12-20"] with ([] ++ [row_on 1 "2025-12-20"])%list.
    rewrite count_by_fecha_app. cbn [count_by_fecha filter List.length].
    destruct (option_string_eqb _ _); cbn; discriminate. }
  specialize (H ltac:(repeat constructor) Hin (Date.mkDate 2025 12 20)).
  vm_compute in H. now apply H.
Qed.

Example overlapping_bookings :
  map a_fecha
      (appointments
         (fst (interleave scenario_cfg [0; 1; 0; 1]%nat
                          (one_place_left_db, [ana_books; ana_books]))))
  = [Some "2025-12-20"; Some "2025-12-20"; Some "2025-12-20"]
  /\ map a_fecha
       (appointments
          (fst (interleave scenario_cfg (one_at_a_time [0; 1]%nat)
                           (one_place_left_db, [ana_books; ana_books]))))
     = [Some "2025-12-20"; Some "2025-12-20"].
Proof. split; reflexivity. Qed.

(** C1 (counterexample). The bound on the appointments of a date is
    kept neither by the administrative route, which inserts without
    counting, nor by self-service bookings that overlap, which count
    before either of them has inserted. *)
Lemma capacity_can_be_exceeded :
  ~ capacity_kept_on_every_route /\ ~ capacity_kept_when_overlapping.
Proof.
  split.
  - exact admin_route_exceeds_capacity.
  - exact overlapping_bookings_exceed_capacity.
Qed.

(** *** Bookings taken one at a time *)

Lemma advance_arrived cfg db b :
  b_stage b = Arrived ->
  advance cfg db b
  = match method (b_request b) with
    | POST =>
        match admission cfg (b_env b) (b_request b) (mkWorld db db []) with
        | (Ok (inr d), w') => (committed w', at_stage b (Counted d))
        | (_, w') => (committed w', at_stage b Answered)
        end
    | GET =>
        (committed (snd (mis_citas cfg (b_env b) (b_user b) (b_request b)
                                   (mkWorld db db []))),
         at_stage b Answered)
    end.
Proof. intros Hs. unfold advance. now rewrite Hs. Qed.

Lemma advance_counted cfg db b d :
  b_stage b = Counted d ->
  advance cfg db b
  = (committed (snd (registration cfg (b_env b) (b_user b) (b_request b) d
                                  (mkWorld db db []))),
     at_stage b Answered).
Proof. intros Hs. unfold advance. now rewrite Hs. Qed.

Lemma advance_answered cfg db b :
  b_stage b = Answered -> advance cfg db b = (db, b).
Proof. intros Hs. unfold advance. now rewrite Hs. Qed.

(** The two steps of a booking, taken with nothing in between, do to the
    database what [mis_citas] does. *)
Lemma advance_twice cfg db b :
  b_stage b = Arrived ->
  fst (advance cfg (fst (advance cfg db b)) (snd (advance cfg db b)))
  = db_of (serve (mis_citas cfg (b_env b) (b_user b) (b_request b)) db)
  /\ b_stage (snd (advance cfg (fst (advance cfg db b))
                           (snd (advance cfg db b)))) = Answered.
Proof.
  intros Hs. rewrite (advance_arrived cfg db b Hs).
  unfold serve, db_of.
  destruct (method (b_request b)) eqn:Hm.
  - cbn [fst snd]. rewrite advance_answered by reflexivity.
    destruct (mis_citas cfg (b_env b) (b_user b) (b_request b)
                        (mkWorld db db [])) as [r w'].
    now split.
  - rewrite (mis_citas_in_two_steps cfg (b_env b) (b_user b) (b_request b)
               (mkWorld db db []) Hm).
    unfold bind at 1.
    destruct (admission_run cfg (b_env b) (b_request b) (mkWorld db db []))
      as [(r & tr & Hrun)|(d & _ & _ & _ & Hrun)]; rewrite Hrun.
    + cbn [fst snd]. rewrite advance_answered by reflexivity. now split.
    + cbn [fst snd].
      rewrite (advance_counted _ _ _ d) by reflexivity.
      cbn [at_stage b_stage b_env b_user b_request fst snd].
      repeat match goal with
      | |- context [registration ?c ?e ?u ?r ?d ?w] =>
          let r' := fresh "r" in
          let tr' := fresh "tr" in
          destruct (registration_run c e u r d w) as (r' & tr' & ->)
      end.
      now split.
Qed.

Definition settled (b : booking) : Prop :=
  b_stage b = Arrived \/ b_stage b = Answered.

Lemma nth_error_replace_nth {A} i (x : A) l y :
  nth_error l i = Some y -> nth_error (replace_nth i x l) i = Some x.
Proof.
  revert i. induction l as [|z r IH]; intros [|j] H; try discriminate;
    cbn in *; auto.
Qed.

Lemma replace_nth_twice {A} i (x y : A) l :
  replace_nth i y (replace_nth i x l) = replace_nth i y l.
Proof.
  revert i. induction l as [|z r IH]; intros [|j]; cbn; auto.
  now rewrite IH.
Qed.

Lemma Forall_replace_nth {A} (P : A -> Prop) i x l :
  P x -> Forall P l -> Forall P (replace_nth i x l).
Proof.
  intros Hx. revert i. induction l as [|z r IH]; intros i H; [constructor|].
  inversion H; subst. destruct i; cbn; constructor; auto.
Qed.

Lemma turn_some cfg db bs i b :
  nth_error bs i = Some b ->
  turn cfg (db, bs) i
  = (fst (advance cfg db b), replace_nth i (snd (advance cfg db b)) bs).
Proof.
  intros H. unfold turn. cbn [fst snd]. rewrite H.
  now destruct (advance cfg db b).
Qed.

Lemma turn_none cfg db bs i :
  nth_error bs i = None -> turn cfg (db, bs) i = (db, bs).
Proof. intros H. unfold turn. cbn [fst snd]. now rewrite H. Qed.

(** A booking that runs to its end leaves the database as it was or
    adds a row for a date that still had room. *)
Lemma turn_twice cfg db bs i :
  Forall settled bs ->
  within_capacity cfg db ->
  Forall settled (snd (turn cfg (turn cfg (db, bs) i) i))
  /\ within_capacity cfg (fst (turn cfg (turn cfg (db, bs) i) i)).
Proof.
  intros Hall Hin.
  destruct (nth_error bs i) as [b|] eqn:Hb.
  - assert (Hsb : settled b).
    { rewrite Forall_forall in Hall. apply Hall.
      now apply nth_error_In with i. }
    rewrite (turn_some cfg db bs i b Hb).
    rewrite (turn_some cfg _ _ i _ (nth_error_replace_nth i _ bs b Hb)).
    cbn [fst snd]. rewrite replace_nth_twice.
    destruct Hsb as [Hs|Hs].
    + destruct (advance_twice cfg db b Hs) as [Hdb Hst].
      split.
      * apply Forall_replace_nth; [now right|exact Hall].
      * rewrite Hdb. unfold serve, db_of.
        pose proof (mis_citas_committed cfg (b_env b) (b_user b)
                      (b_request b) (mkWorld db db []) eq_refl) as Hc.
        destruct (mis_citas cfg (b_env b) (b_user b) (b_request b)
                            (mkWorld db db [])) as [r w'].
        cbn [fst snd committed] in *.
        destruct Hc as [->|(d & Hroom & ->)]; [exact Hin|].
        now apply within_capacity_add_row.
    + rewrite (advance_answered cfg db b Hs). cbn [fst snd].
      rewrite (advance_answered cfg db b Hs). cbn [fst snd].
      split; [|exact Hin].
      apply Forall_replace_nth; [now right|exact Hall].
  - rewrite (turn_none cfg db bs i Hb). rewrite (turn_none cfg db bs i Hb).
    now split.
Qed.

(** As long as every booking runs to its end before the next one starts,
    the bound is kept: this is the order in which [run] serves its
    requests. *)
Lemma one_at_a_time_keeps_capacity cfg order : forall bookings db,
  Forall (fun b => b_stage b = Arrived) bookings ->
  within_capacity cfg db ->
  within_capacity cfg
    (fst (interleave cfg (one_at_a_time order) (db, bookings))).
Proof.
  assert (H : forall bs db,
            Forall settled bs -> within_capacity cfg db ->
            within_capacity cfg
              (fst (interleave cfg (one_at_a_time order) (db, bs)))).
  { induction order as [|i order IH]; intros bs db Hall Hin; [exact Hin|].
    unfold one_at_a_time. cbn [flat_map app]. fold (one_at_a_time order).
    unfold interleave. cbn [fold_left].
    fold (interleave cfg (one_at_a_time order)
                     (turn cfg (turn cfg (db, bs) i) i)).
    destruct (turn_twice cfg db bs i Hall Hin) as [Hall' Hin'].
    destruct (turn cfg (turn cfg (db, bs) i) i) as [db' bs'].
    now apply IH. }
  intros bookings db Hall. apply H.
  eapply Forall_impl; [|exact Hall]. intros b Hb. now left.
Qed.

End Overlap.

(** ** Dates as text *)

Module Dates.

Import Date.

Lemma is_digit_digit_char k :
  0 <= k <= 9 -> Text.is_digit (Text.digit_char k) = true.
Proof.
  intros Hk. unfold Text.is_digit, Text.digit_char. cbv zeta.
  rewrite N_ascii_embedding by lia.
  apply andb_true_iff. split; apply N.leb_le; lia.
Qed.

Lemma digit_val_digit_char k :
  0 <= k <= 9 -> Text.digit_val (Text.digit_char k) = k.
Proof.
  intros Hk. unfold Text.digit_val, Text.digit_char.
  rewrite N_ascii_embedding by lia. lia.
Qed.

Lemma re_d_zfill (A : Type) (k : Z -> string -> option A) dd :
  1 <= dd <= 31 ->
  (forall d r, k d r <> None) ->
  re_d k (Text.zfill 2 dd) = k dd "".
Proof.
  intros Hd Hk.
  assert (Hc : dd = 1 \/ dd = 2 \/ dd = 3 \/ dd = 4 \/ dd = 5 \/ dd = 6 \/
               dd = 7 \/ dd = 8 \/ dd = 9 \/ dd = 10 \/ dd = 11 \/ dd = 12 \/
               dd = 13 \/ dd = 14 \/ dd = 15 \/ dd = 16 \/ dd = 17 \/
               dd = 18 \/ dd = 19 \/ dd = 20 \/ dd = 21 \/ dd = 22 \/
               dd = 23 \/ dd = 24 \/ dd = 25 \/ dd = 26 \/ dd = 27 \/
               dd = 28 \/ dd = 29 \/ dd = 30 \/ dd = 31) by lia.
  repeat (destruct Hc as [->|Hc]); try subst dd;
    unfold re_d, re_m, two, one, sp_one, lit, between; cbn; unfold orelse;
    repeat match goal with
           | |- context [k ?d ?r] =>
               let H := fresh in
               pose proof (Hk d r) as H; destruct (k d r); [|now elim H]
           end;
    reflexivity.
Qed.

Lemma re_m_zfill (A : Type) (k : Z -> string -> option A) m rest :
  1 <= m <= 12 ->
  k m rest <> None ->
  re_m (fun m' => lit "-" (k m')) (Text.zfill 2 m ++ String "-" rest)
  = k m rest.
Proof.
  intros Hm Hk.
  assert (Hc : m = 1 \/ m = 2 \/ m = 3 \/ m = 4 \/ m = 5 \/ m = 6 \/
               m = 7 \/ m = 8 \/ m = 9 \/ m = 10 \/ m = 11 \/ m = 12) by lia.
  repeat (destruct Hc as [->|Hc]); try subst m;
    unfold re_m, two, one, lit, between; cbn; unfold orelse;
    (destruct (k _ rest); [reflexivity|now elim Hk]).
Qed.

Lemma valid_fields d :
  valid d = true ->
  1 <= year d <= 9999 /\ 1 <= month d <= 12 /\ 1 <= day d <= 31.
Proof.
  intros Hv. pose proof (Site.DateFacts.valid_printable d Hv) as Hp.
  unfold valid, MINYEAR, MAXYEAR, _days_in_month in Hv.
  rewrite !andb_true_iff, !Z.leb_le in Hv.
  destruct Hv as [[[[[H1 H2] H3] H4] H5] H6].
  assert (_DAYS_IN_MONTH (month d) <= 31).
  { assert (Hc : month d = 1 \/ month d = 2 \/ month d = 3 \/ month d = 4 \/
                 month d = 5 \/ month d = 6 \/ month d = 7 \/ month d = 8 \/
                 month d = 9 \/ month d = 10 \/ month d = 11 \/ month d = 12)
      by lia.
    repeat (destruct Hc as [->|Hc]); try rewrite Hc; cbn; lia. }
  destruct ((month d =? 2) && _is_leap (year d)); lia.
Qed.

Lemma re_Y_zfill (A : Type) (k : Z -> string -> option A) y rest :
  0 <= y <= 9999 ->
  re_Y k (Text.zfill 4 y ++ rest) = k y rest.
Proof.
  intros Hy. unfold re_Y, four.
  cbn [Text.zfill String.append Z.of_nat Pos.of_succ_nat Pos.succ].
  change (10 ^ 3) with 1000. change (10 ^ 2) with 100.
  change (10 ^ 1) with 10. change (10 ^ 0) with 1.
  set (a := y / 1000 mod 10). set (b := y mod 1000 / 100 mod 10).
  set (c := (y mod 1000) mod 100 / 10 mod 10).
  set (e := ((y mod 1000) mod 100) mod 10 / 1 mod 10).
  assert (Ha : 0 <= a <= 9) by (subst a; Z.div_mod_to_equations; lia).
  assert (Hb : 0 <= b <= 9) by (subst b; Z.div_mod_to_equations; lia).
  assert (Hc : 0 <= c <= 9) by (subst c; Z.div_mod_to_equations; lia).
  assert (He : 0 <= e <= 9) by (subst e; Z.div_mod_to_equations; lia).
  assert (Hsum : 1000 * a + 100 * b + 10 * c + e = y)
    by (subst a b c e; Z.div_mod_to_equations; lia).
  rewrite !is_digit_digit_char, !digit_val_digit_char by assumption.
  cbn [andb]. now rewrite Hsum.
Qed.

(** The text a booking stores for its date reads back as that date:
    [parse_date] undoes [isoformat] on every calendar date. *)
Theorem parse_date_isoformat d :
  valid d = true -> App.parse_date (isoformat d) = Some d.
Proof.
  intros Hv. destruct (valid_fields d Hv) as (Hy & Hm & Hd).
  unfold App.parse_date, strptime, regex_match, isoformat.
  rewrite re_Y_zfill by lia.
  cbn [lit String.append Ascii.eqb Bool.eqb].
  rewrite (re_m_zfill _ (fun m' => re_d (fun d' r =>
             Some (year d, m', d', r)))).
  - rewrite re_d_zfill by (try lia; discriminate).
    destruct d as [y m dd]. cbn [year month day] in *. now rewrite Hv.
  - lia.
  - rewrite re_d_zfill by (try lia; discriminate). discriminate.
Qed.

Lemma string_compare_refl s : String.compare s s = Eq.
Proof.
  induction s as [|c s IH]; [reflexivity|].
  cbn [String.compare]. unfold Ascii.compare. now rewrite N.compare_refl.
Qed.

Lemma isoformat_inj a b :
  valid a = true -> valid b = true -> isoformat a = isoformat b -> a = b.
Proof.
  intros Ha Hb Heq. apply Site.date_compare_eq.
  rewrite <- Site.DateFacts.isoformat_compare
    by now apply Site.DateFacts.valid_printable.
  rewrite Heq. apply string_compare_refl.
Qed.

Lemma parse_date_valid s d : App.parse_date s = Some d -> valid d = true.
Proof.
  unfold App.parse_date, strptime.
  destruct (regex_match s) as [[[[y m] dd] [|c r]]|]; try discriminate.
  destruct (valid (mkDate y m dd)) eqn:Hv; [|discriminate].
  now intros [= <-].
Qed.

(** Stored dates compare as text the way the dates compare on the
    calendar, and different dates have different texts: [BETWEEN],
    [ORDER BY fecha] and [fecha=?] on the TEXT column act on dates. *)
Theorem isoformat_order a b :
  valid a = true -> valid b = true ->
  String.compare (isoformat a) (isoformat b) = Date.compare a b
  /\ (isoformat a = isoformat b -> a = b).
Proof.
  intros Ha Hb. split.
  - apply Site.DateFacts.isoformat_compare;
      now apply Site.DateFacts.valid_printable.
  - now apply isoformat_inj.
Qed.

End Dates.

(** ** Bookings one after another *)

Module Bookings.

Import Store App Site.

(** The user a request is made as: [current_user()]. *)
Definition session_user (req : request) (us : list user) : option user :=
  match session_user_id req with
  | Some uid => user_by_id (SqlInt uid) us
  | None => None
  end.

(** What [/mis_citas] does to the database for a logged-in user. *)
Lemma mis_citas_route_db cfg e req db u :
  session_user req (users db) = Some u ->
  exists w,
    conn w = db /\ committed w = db
    /\ db_of (serve (dispatch cfg e RouteMisCitas req) db)
       = committed (snd (mis_citas cfg e u req w))
    /\ response_of (serve (dispatch cfg e RouteMisCitas req) db)
       = fst (mis_citas cfg e u req w).
Proof.
  unfold session_user. intros Hu.
  destruct (session_user_id req) as [uid|] eqn:Hs; [|discriminate].
  exists (mkWorld db db [EvRead (QUserById (SqlInt uid))]).
  split; [reflexivity|]. split; [reflexivity|].
  unfold dispatch, serve, login_required, current_user. rewrite Hs.
  unfold bind at 1. unfold read at 1. cbn [conn committed trace app users].
  unfold bind at 2. unfold read at 1. cbn [conn committed trace app users].
  rewrite Hu.
  destruct (mis_citas cfg e u req _) as [r w']. split; reflexivity.
Qed.




(** Independence across dates.  A request to [/mis_citas] changes the
    number of appointments of no date other than the one it submits. *)
Theorem booking_touches_one_date cfg e req db d :
  Date.valid d = true ->
  parse_date (fecha_field req) <> Some d ->
  count_by_fecha (Date.isoformat d)
    (appointments (db_of (serve (dispatch cfg e RouteMisCitas req) db)))
  = count_by_fecha (Date.isoformat d) (appointments db).
Proof.
  intros Hd Hother.
  destruct (session_user req (users db)) as [u|] eqn:Hsu.
  - destruct (mis_citas_route_db cfg e req db u Hsu)
      as (w & Hconn & Hcomm & -> & _).
    destruct (method req) eqn:Hm.
    + destruct (run_get cfg e u req w Hm) as (r & tr & ->).
      cbn [snd log committed]. now rewrite Hcomm.
    + destruct (parse_date (fecha_field req)) as [d0|] eqn:Hp.
      * destruct (Date.ltb d0 (today e)) eqn:Hlt.
        -- rewrite (run_past_date cfg e u req w Hm d0 Hp Hlt).
           cbn [snd log committed]. now rewrite Hcomm.
        -- destruct (Z_lt_le_dec
                       (count_by_fecha (Date.isoformat d0)
                                       (appointments (conn w)))
                       (MAX_APPOINTMENTS_PER_DAY cfg)) as [Hroom|Hfull].
           ++ destruct (run_admitted cfg e u req w Hm d0 Hp Hlt Hroom)
                as (r & tr & -> & _).
              cbn [snd committed]. unfold add_row. cbn [appointments].
              rewrite count_by_fecha_app, Hconn.
              cbn [booked_row a_fecha option_string_eqb].
              destruct (String.eqb_spec (Date.isoformat d0) (Date.isoformat d))
                as [Heq|_]; [|lia].
              exfalso. apply Hother. f_equal.
              apply Dates.isoformat_inj; auto.
              now apply (Dates.parse_date_valid (fecha_field req)).
           ++ rewrite (run_full cfg e u req w Hm d0 Hp Hlt Hfull).
              cbn [snd log committed]. now rewrite Hcomm.
      * rewrite (run_invalid_date cfg e u req w Hm Hp).
        cbn [snd log committed]. now rewrite Hcomm.
  - unfold session_user in Hsu.
    unfold dispatch, serve, login_required, current_user.
    destruct (session_user_id req) as [uid|]; [|reflexivity].
    unfold bind at 1. unfold read at 1. cbn [conn committed trace app users].
    now rewrite Hsu.
Qed.

(** The page and the decision agree.  For a date of the window shown on
    the page, the date is listed as disabled exactly when a booking
    request for it, made against the same database, is turned away for
    lack of capacity. *)
Theorem disabled_iff_turned_away cfg e u page_req book_req db p d :
  method page_req = GET ->
  method book_req = POST ->
  0 < MAX_APPOINTMENTS_PER_DAY cfg ->
  Date.valid (today e) = true ->
  response_of (serve (mis_citas cfg e u page_req) db) = Ok (RenderMisCitas p) ->
  parse_date (fecha_field book_req) = Some d ->
  Date.leb (today e) d = true ->
  String.leb (Date.isoformat d) (max_date p) = true ->
  (In (Date.isoformat d) (disabled_dates p)
   <-> In (EvFlash msg_no_capacity "warning")
          (trace_of (serve (mis_citas cfg e u book_req) db))).
Proof.
  intros Hget Hpost Hmax Htoday Hpage Hp Hfrom Hto.
  assert (Hd : Date.valid d = true)
    by now apply (Dates.parse_date_valid (fecha_field book_req)).
  assert (Hlt : Date.ltb d (today e) = false).
  { unfold Date.ltb, Date.leb in *.
    rewrite <- Site.DateFacts.isoformat_compare in *
      by now apply Site.DateFacts.valid_printable.
    rewrite String.compare_antisym.
    destruct (String.compare (Date.isoformat (today e)) (Date.isoformat d));
      [reflexivity|reflexivity|discriminate]. }
  destruct (Date.add_days (today e) 30) as [horizon|] eqn:Hadd.
  - rewrite (run_page cfg e u page_req db horizon Hget Hadd) in Hpage.
    unfold response_of in Hpage. cbn [fst] in Hpage.
    injection Hpage as <-. cbn [disabled_dates max_date] in *.
    rewrite In_disabled.
    rewrite (isoformat_leb (today e) d) by assumption.
    rewrite Hfrom, Hto. cbn [andb].
    destruct (Z_lt_le_dec
                (count_by_fecha (Date.isoformat d) (appointments db))
                (MAX_APPOINTMENTS_PER_DAY cfg)) as [Hroom|Hfull].
    + destruct (booking_admitted cfg e u book_req db Hpost d Hp Hlt Hroom)
        as (r & tr & -> & Hmail & _).
      unfold trace_of. cbn [snd app]. split.
      * intros (_ & _ & H). lia.
      * intros H. exfalso.
        repeat (destruct H as [H|H]; [discriminate H|]).
        rewrite forallb_forall in Hmail. apply Hmail in H. discriminate.
    + rewrite (booking_full cfg e u book_req db Hpost d Hp Hlt Hfull).
      unfold trace_of. cbn [snd]. split.
      * intros _. right. now left.
      * intros _. split; [reflexivity|]. split; [lia|exact Hfull].
  - exfalso. unfold serve, mis_citas in Hpage. rewrite Hget in Hpage.
    cbv zeta in Hpage. unfold bind at 1 in Hpage. unfold read at 1 in Hpage.
    cbn [conn committed trace app] in Hpage. rewrite Hadd in Hpage.
    discriminate Hpage.
Qed.

(** A booking shows up in its owner's listing and in nobody else's. *)
Theorem booking_appears_in_listing cfg e u req db d :
  method req = POST ->
  parse_date (fecha_field req) = Some d ->
  Date.ltb d (today e) = false ->
  count_by_fecha (Date.isoformat d) (appointments db)
  < MAX_APPOINTMENTS_PER_DAY cfg ->
  let db' := db_of (serve (mis_citas cfg e u req) db) in
  Permutation (appointments_of_user (u_id u) (appointments db'))
              (listed_of (booked_row e u req d db)
               :: appointments_of_user (u_id u) (appointments db))
  /\ In (mkListed (Some (Date.isoformat d))
                  (Text.or_none
                     (Text.or_else (form_get (form req) "preferencia_hora") ""))
                  (Some (Text.or_str
                           (Text.strip
                              (Text.or_else (form_get (form req) "tipo") ""))
                           "Consulta"))
                  (Some (Text.or_str
                           (Text.strip
                              (Text.or_else (form_get (form req) "lugar") ""))
                           "Por definir"))
                  (Some "Agendada"))
        (appointments_of_user (u_id u) (appointments db'))
  /\ (forall uid, uid <> u_id u ->
        appointments_of_user uid (appointments db')
        = appointments_of_user uid (appointments db)).
Proof.
  intros Hpost Hp Hlt Hroom db'.
  destruct (booking_admitted cfg e u req db Hpost d Hp Hlt Hroom)
    as (r & tr & Hrun & _).
  assert (Hdb : appointments db'
                = (appointments db ++ [booked_row e u req d db])%list)
    by (subst db'; now rewrite Hrun).
  assert (Hperm :
    Permutation (appointments_of_user (u_id u) (appointments db'))
                (listed_of (booked_row e u req d db)
                 :: appointments_of_user (u_id u) (appointments db))).
  { rewrite Hdb. unfold appointments_of_user. rewrite filter_app.
    cbn [filter]. unfold owned_by at 2. cbn [booked_row a_user_id].
    rewrite Z.eqb_refl, map_app. cbn [map].
    rewrite !order_by_perm. rewrite Permutation_app_comm. reflexivity. }
  split; [exact Hperm|]. split.
  - eapply Permutation_in; [symmetry; exact Hperm|]. now left.
  - intros uid Huid. rewrite Hdb. unfold appointments_of_user.
    rewrite filter_app. cbn [filter]. unfold owned_by at 2.
    cbn [booked_row a_user_id].
    destruct (Z.eqb_spec (u_id u) uid) as [Heq|_]; [now elim Huid|].
    now rewrite app_nil_r.
Qed.

(** What the self-service route can create.  A request to [/mis_citas]
    leaves the database as it was or adds exactly one row, and that row
    belongs to the logged-in user, has status [Agendada] and carries a
    calendar date, not before today, that still had room. *)
Theorem self_service_creates_own_row cfg e req db :
  let db' := db_of (serve (dispatch cfg e RouteMisCitas req) db) in
  db' = db
  \/ exists u d a,
       session_user req (users db) = Some u
       /\ method req = POST
       /\ parse_date (fecha_field req) = Some d
       /\ Date.valid d = true
       /\ Date.ltb d (today e) = false
       /\ count_by_fecha (Date.isoformat d) (appointments db)
          < MAX_APPOINTMENTS_PER_DAY cfg
       /\ db' = add_row db a
       /\ a_user_id a = SqlInt (u_id u)
       /\ a_fecha a = Some (Date.isoformat d)
       /\ a_estado a = Some "Agendada"
       /\ a_id a = appointments_seq db + 1.
Proof.
  intros db'. subst db'.
  destruct (session_user req (users db)) as [u|] eqn:Hsu.
  - destruct (mis_citas_route_db cfg e req db u Hsu)
      as (w & Hconn & Hcomm & -> & _).
    destruct (method req) eqn:Hm.
    + destruct (run_get cfg e u req w Hm) as (r & tr & ->).
      left. cbn [snd log committed]. exact Hcomm.
    + destruct (parse_date (fecha_field req)) as [d|] eqn:Hp.
      * destruct (Date.ltb d (today e)) eqn:Hlt.
        -- rewrite (run_past_date cfg e u req w Hm d Hp Hlt). now left.
        -- destruct (Z_lt_le_dec
                       (count_by_fecha (Date.isoformat d)
                                       (appointments (conn w)))
                       (MAX_APPOINTMENTS_PER_DAY cfg)) as [Hroom|Hfull].
           ++ destruct (run_admitted cfg e u req w Hm d Hp Hlt Hroom)
                as (r & tr & -> & _).
              right. exists u, d, (booked_row e u req d db).
              rewrite Hconn in *. cbn [snd committed].
              repeat split; auto.
              now apply (Dates.parse_date_valid (fecha_field req)).
           ++ rewrite (run_full cfg e u req w Hm d Hp Hlt Hfull). now left.
      * rewrite (run_invalid_date cfg e u req w Hm Hp). now left.
  - left. unfold session_user in Hsu.
    unfold dispatch, serve, login_required, current_user.
    destruct (session_user_id req) as [uid|]; [|reflexivity].
    unfold bind at 1. unfold read at 1. cbn [conn committed trace app users].
    now rewrite Hsu.
Qed.
End Bookings.

(** ** Who may do what *)

Module Access.

Import Store App Site Bookings.

Lemma run_admin_citas_no_user e req w :
  method req = POST ->
  present (form_get (form req) "user_id") = false ->
  admin_citas e req w
  = (Ok (Redirect "admin_citas"),
     log w [EvRead QUsersByName;
            EvFlash "Debes seleccionar un usuario." "warning"]).
Proof.
  intros Hpost Hu. unfold admin_citas. unfold bind at 1. unfold read at 1.
  rewrite Hpost. cbv zeta. rewrite Hu. cbn [negb].
  unfold bind, flash, emit, ret, log. cbn [conn committed trace].
  now rewrite <- app_assoc.
Qed.

Lemma run_admin_create_log e req w :
  exists r tr, admin_appointments_create e req w = (r, log w tr).
Proof.
  unfold admin_appointments_create. cbv zeta.
  unfold bind at 1. unfold read at 1. cbn [conn committed trace].
  destruct (user_by_id (opt_text (form_get (form req) "user_id"))
                       (users (conn w))) as [usr|].
  - unfold bind at 1. unfold insert_appointment at 1.
    cbn [find has_column existsb appointments_columns String.eqb Ascii.eqb
         Bool.eqb negb orb].
    eexists _, _. reflexivity.
  - unfold bind, flash, emit, ret, log. cbn [conn committed trace].
    eexists _, _. rewrite <- app_assoc. reflexivity.
Qed.

Definition is_admin (o : option user) : bool :=
  match o with
  | Some u => String.eqb (u_role u) "admin"
  | None => false
  end.

Definition msg_admin_only : string := "Acceso solo para administradores".
Definition msg_login_first : string := "Debes ingresar para ver esta página.".

Lemma admin_required_run view req db :
  serve (admin_required view req) db
  = if is_admin (session_user req (users db))
    then let '(r, w) :=
           view req (mkWorld db db
                       (match session_user_id req with
                        | Some uid => [EvRead (QUserById (SqlInt uid))]
                        | None => []
                        end)) in
         (r, committed w, trace w)
    else (Ok (Redirect "index"), db,
          (match session_user_id req with
           | Some uid => [EvRead (QUserById (SqlInt uid))]
           | None => []
           end ++ [EvFlash msg_admin_only "danger"])%list).
Proof.
  unfold serve, admin_required, current_user, session_user, is_admin.
  destruct (session_user_id req) as [uid|].
  - unfold bind at 1. unfold read at 1. cbn [conn committed trace app users].
    destruct (user_by_id (SqlInt uid) (users db)) as [u|]; [|reflexivity].
    destruct (String.eqb (u_role u) "admin"); reflexivity.
  - reflexivity.
Qed.

Lemma login_required_run view req db :
  serve (login_required view req) db
  = match session_user req (users db) with
    | Some u =>
        let '(r, w) :=
          view u req (mkWorld db db
                        (match session_user_id req with
                         | Some uid => [EvRead (QUserById (SqlInt uid))]
                         | None => []
                         end)) in
        (r, committed w, trace w)
    | None =>
        (Ok (Redirect "index"), db,
         (match session_user_id req with
          | Some uid => [EvRead (QUserById (SqlInt uid))]
          | None => []
          end ++ [EvFlash msg_login_first "warning"])%list)
    end.
Proof.
  unfold serve, login_required, current_user, session_user.
  destruct (session_user_id req) as [uid|].
  - unfold bind at 1. unfold read at 1. cbn [conn committed trace app users].
    destruct (user_by_id (SqlInt uid) (users db)) as [u|]; reflexivity.
  - reflexivity.
Qed.

(** The administrative routes are closed to everybody but administrators:
    a request without a session, with a session of a deleted user or of a
    user whose role is not [admin] is answered with the redirect to the
    start page and the admin-only message; the handler is not run, so
    nothing is written and no mail is sent. *)
Theorem admin_routes_refuse_others cfg e r req db :
  r <> RouteMisCitas ->
  is_admin (session_user req (users db)) = false ->
  let out := serve (dispatch cfg e r req) db in
  response_of out = Ok (Redirect "index")
  /\ db_of out = db
  /\ In (EvFlash msg_admin_only "danger") (trace_of out)
  /\ existsb is_insert (trace_of out) = false
  /\ mails (trace_of out) = [].
Proof.
  intros Hr Hna out. subst out.
  destruct r; [now elim Hr| |]; unfold dispatch;
    rewrite admin_required_run, Hna;
    unfold response_of, db_of, trace_of; cbn [fst snd];
    (destruct (session_user_id req);
     repeat split; cbn; auto).
Qed.

(** The booking page is closed to visitors who are not logged in: the
    request is answered with the redirect to the start page and the
    login message, and nothing is read from or written to the
    appointments. *)
Theorem mis_citas_refuses_visitors cfg e req db :
  session_user req (users db) = None ->
  let out := serve (dispatch cfg e RouteMisCitas req) db in
  response_of out = Ok (Redirect "index")
  /\ db_of out = db
  /\ In (EvFlash msg_login_first "warning") (trace_of out)
  /\ existsb is_store_access (trace_of out) = false
  /\ mails (trace_of out) = [].
Proof.
  intros Hsu out. subst out. unfold dispatch.
  rewrite login_required_run, Hsu.
  unfold response_of, db_of, trace_of; cbn [fst snd].
  destruct (session_user_id req); repeat split; cbn; auto.
Qed.

(** No route takes anything away.  Whatever requests are served, on any
    of the three routes, the users are the same afterwards and the
    appointments of before are still there, unchanged and in place, with
    the new ones after them. *)
Theorem routes_only_append cfg calls : forall db,
  users (run cfg calls db) = users db
  /\ exists added,
       appointments (run cfg calls db) = (appointments db ++ added)%list
       /\ (List.length added <= List.length calls)%nat.
Proof.
  assert (Hstep : forall db c,
            step cfg db c = db \/ exists a, step cfg db c = add_row db a).
  { intros db [e r req]. unfold step. cbn [call_env call_route call_request].
    destruct r.
    - destruct (Bookings.session_user req (users db)) as [u|] eqn:Hsu.
      + destruct (Bookings.mis_citas_route_db cfg e req db u Hsu)
          as (w & Hconn & Hcomm & -> & _).
        destruct (mis_citas_committed cfg e u req w) as [H|(d & _ & H)];
          [congruence|left; congruence|right].
        rewrite H, Hcomm. eexists. reflexivity.
      + left. unfold dispatch. rewrite login_required_run, Hsu. reflexivity.

    - unfold dispatch. rewrite admin_required_run.
      destruct (is_admin _); [|now left].
      destruct (method req) eqn:Hm.
      + match goal with |- context [admin_citas e req ?w] =>
          destruct (run_admin_citas_get e req w Hm) as (r & tr & ->)
        end.
        now left.
      + destruct (present (form_get (form req) "user_id")) eqn:Hu.
        * match goal with |- context [admin_citas e req ?w] =>
            destruct (run_admin_citas e req w Hm Hu) as (r & tr & -> & _)
          end.
          right. eexists. reflexivity.
        * rewrite run_admin_citas_no_user by assumption. now left.
    - unfold dispatch. rewrite admin_required_run.
      destruct (is_admin _); [|now left].
      match goal with |- context [admin_appointments_create e req ?w] =>
        destruct (run_admin_create_log e req w) as (r & tr & ->)
      end.
      now left. }
  induction calls as [|c calls IH]; intros db.
  - split; [reflexivity|]. exists []. split; [now rewrite app_nil_r|].
    cbn; lia.
  - cbn [run fold_left]. fold (run cfg calls (step cfg db c)).
    destruct (IH (step cfg db c)) as (Hu & added & Ha & Hlen).
    destruct (Hstep db c) as [Hs|[a Hs]]; rewrite Hs in *.
    + split; [exact Hu|]. exists added. split; [exact Ha|]. cbn; lia.
    + split; [exact Hu|]. exists (a :: added). unfold add_row in Ha.
      cbn [appointments] in Ha. rewrite <- app_assoc in Ha. cbn [app] in Ha.
      split; [exact Ha|]. cbn; lia.
Qed.

End Access.

(** ** Mail *)

Module Mail.

Import Store App Site.

(** Every message in a log was taken by the transport the way the log
    says. *)
Definition delivered (e : env) (tr : list event) : Prop :=
  forall how m, In (EvMail how m) tr -> transport e m = Ok how.

Lemma notify_booking_delivered cfg e u tipo fecha hora lugar estado motivo w :
  exists r tr,
    notify_booking cfg e u tipo fecha hora lugar estado motivo w
    = (r, log w tr)
    /\ delivered e tr.
Proof.
  unfold notify_booking, bind, delivered.
  destruct (present (u_email u)).
  - rewrite send_email_run. case_transport how x Ho.
    + destruct (Text.truthy (ADMIN_EMAIL cfg)).
      * rewrite send_email_run. case_transport how' x' Ha.
        -- rewrite log_log. eexists _, _. split; [reflexivity|].
           intros h m [H|[H|[]]]; injection H as <- <-; assumption.
        -- eexists _, _. split; [reflexivity|].
           intros h m [H|[]]; injection H as <- <-; assumption.
      * eexists _, _. split; [reflexivity|].
        intros h m [H|[]]; injection H as <- <-; assumption.
    + exists (Raise x), []. rewrite log_nil. split; [reflexivity|].
      intros h m [].
  - unfold ret at 1. destruct (Text.truthy (ADMIN_EMAIL cfg)).
    + rewrite send_email_run. case_transport how' x' Ha.
      * eexists _, _. split; [reflexivity|].
        intros h m [H|[]]; injection H as <- <-; assumption.
      * exists (Raise x'), []. rewrite log_nil. split; [reflexivity|].
        intros h m [].
    + exists (Ok tt), []. rewrite log_nil. split; [reflexivity|].
      intros h m [].
Qed.

Lemma log_inj w a b : log w a = log w b -> a = b.
Proof.
  unfold log. intros H. injection H as H. now apply app_inv_head in H.
Qed.

(** An admitted booking, with what is known of its messages. *)
Lemma booking_admitted_delivered cfg e u req db d :
  method req = POST ->
  parse_date (fecha_field req) = Some d ->
  Date.ltb d (today e) = false ->
  count_by_fecha (Date.isoformat d) (appointments db)
  < MAX_APPOINTMENTS_PER_DAY cfg ->
  exists r tr,
    serve (mis_citas cfg e u req) db
    = (r, add_row db (booked_row e u req d db),
       [EvRead (QCountByFecha (Date.isoformat d));
        EvInsert (booked_row e u req d db);
        EvCommit;
        EvFlash msg_booked "success"] ++ tr)%list
    /\ forallb is_mail tr = true
    /\ delivered e tr
    /\ (r = Ok (Redirect "mis_citas") ->
        map msg_to (mails tr) = recipients cfg u)
    /\ (r = Ok (Redirect "mis_citas") \/ exists x, r = Raise x)
    /\ (transport_works e -> r = Ok (Redirect "mis_citas"))
    /\ (forall x, r = Raise x -> exists m, transport e m = Raise x).
Proof.
  intros Hpost Hp Hlt Hroom. unfold serve, mis_citas. rewrite Hpost. cbv zeta.
  unfold fecha_field in Hp. rewrite Hp, Hlt.
  unfold bind at 1. unfold read at 1. cbn [conn committed trace app].
  apply Z.leb_gt in Hroom. rewrite Hroom.
  unfold bind at 1. rewrite insert_appointment_run; [|reflexivity|discriminate].
  cbn [conn committed trace app]. rewrite new_appointment_booked.
  unfold bind at 1. unfold commit at 1. cbn [conn committed trace app].
  unfold bind at 1. unfold flash, emit. cbn [conn committed trace app].
  unfold bind at 1.
  match goal with |- context [notify_booking cfg e u ?a ?b ?c ?f ?g ?h ?w] =>
    destruct (notify_booking_run cfg e u a b c f g h w)
      as (r & tr & Hrun & Hall & Hrec & _ & Hworks & Hexn);
    destruct (notify_booking_delivered cfg e u a b c f g h w)
      as (r' & tr' & Hrun' & Hdel);
    rewrite Hrun in Hrun';
    assert (Er : r = r') by congruence;
    assert (El : log w tr = log w tr') by congruence;
    apply log_inj in El; subst r' tr'; clear Hrun';
    rewrite Hrun
  end.
  unfold log. cbn [conn committed trace app].
  destruct r as [[]|x].
  - exists (Ok (Redirect "mis_citas")), tr. unfold ret.
    split; [reflexivity|]. split; [exact Hall|]. split; [exact Hdel|].
    split; [intros _; now apply Hrec|]. split; [now left|].
    split; [reflexivity|discriminate].
  - exists (Raise x), tr.
    split; [reflexivity|]. split; [exact Hall|]. split; [exact Hdel|].
    split; [discriminate|]. split; [right; now exists x|].
    split; [intros H; now specialize (Hworks H)|].
    intros y Hy; injection Hy as <-; now apply Hexn.
Qed.

(** SMTP is used only when host, user and password are all set. *)
Definition smtp_configured (e : env) : bool :=
  present (SMTP_HOST e) && present (SMTP_USER e) && present (SMTP_PASS e).

(** Without complete SMTP settings no booking can fail on its mail.  On
    a machine where host, user or password is missing (and the port, if
    set, is a number), every booking that passes the date and capacity
    checks answers with the redirect; its messages, one per address that
    is present, are printed and none is handed to a mail server. *)
Theorem booking_without_smtp cfg e u req db d :
  method req = POST ->
  parse_date (fecha_field req) = Some d ->
  Date.ltb d (today e) = false ->
  count_by_fecha (Date.isoformat d) (appointments db)
  < MAX_APPOINTMENTS_PER_DAY cfg ->
  smtp_configured e = false ->
  SMTP_PORT e <> None ->
  let out := serve (mis_citas cfg e u req) db in
  response_of out = Ok (Redirect "mis_citas")
  /\ map msg_to (mails (trace_of out)) = recipients cfg u
  /\ (forall how m, In (EvMail how m) (trace_of out) -> how = Printed).
Proof.
  intros Hpost Hp Hlt Hroom Hcfg Hport out.
  assert (Ht : forall m, transport e m = Ok Printed).
  { intros m. unfold transport. destruct (SMTP_PORT e); [|now elim Hport].
    unfold smtp_configured in Hcfg.
    destruct (present (SMTP_HOST e)), (present (SMTP_USER e)),
      (present (SMTP_PASS e)); try discriminate; reflexivity. }
  destruct (booking_admitted_delivered cfg e u req db d Hpost Hp Hlt Hroom)
    as (r & tr & Hrun & Hall & Hdel & Hrec & _ & Hworks & _).
  assert (Hr : r = Ok (Redirect "mis_citas"))
    by (apply Hworks; intros m; exists Printed; apply Ht).
  subst out. rewrite Hrun. unfold response_of, trace_of. cbn [fst snd app mails].
  split; [exact Hr|]. split; [now apply Hrec|].
  intros how m Hin.
  repeat (destruct Hin as [Hin|Hin]; [discriminate Hin|]).
  apply Hdel in Hin. rewrite Ht in Hin. now injection Hin as <-.
Qed.

(** A port that is not a number stops every message.  [send_email] reads
    [SMTP_PORT] before it looks at anything else, so with a value that
    [int] rejects a booking with at least one address is committed and
    the request then ends in [ValueError], with no message sent or
    printed. *)
Theorem booking_with_bad_port cfg e u req db d :
  method req = POST ->
  parse_date (fecha_field req) = Some d ->
  Date.ltb d (today e) = false ->
  count_by_fecha (Date.isoformat d) (appointments db)
  < MAX_APPOINTMENTS_PER_DAY cfg ->
  SMTP_PORT e = None ->
  recipients cfg u <> [] ->
  let out := serve (mis_citas cfg e u req) db in
  response_of out = Raise ValueError
  /\ db_of out = add_row db (booked_row e u req d db)
  /\ mails (trace_of out) = [].
Proof.
  intros Hpost Hp Hlt Hroom Hport Hrcp out.
  assert (Ht : forall m, transport e m = Raise ValueError)
    by (intros m; unfold transport; now rewrite Hport).
  destruct (booking_admitted_delivered cfg e u req db d Hpost Hp Hlt Hroom)
    as (r & tr & Hrun & Hall & Hdel & Hrec & Hr & _ & Hexn).
  assert (Htr : tr = []).
  { destruct tr as [|ev tr]; [reflexivity|]. exfalso.
    cbn [forallb] in Hall. apply andb_true_iff in Hall.
    destruct Hall as [Hev _]. destruct ev; try discriminate.
    specialize (Hdel how m (or_introl eq_refl)). rewrite Ht in Hdel.
    discriminate. }
  subst tr. subst out. rewrite Hrun.
  unfold response_of, db_of, trace_of. cbn [fst snd app mails].
  split; [|split; reflexivity].
  destruct Hr as [Hr|[x Hx]].
  - exfalso. apply Hrcp. symmetry. now apply Hrec.
  - destruct (Hexn x Hx) as [m Hm]. rewrite Ht in Hm. congruence.
Qed.

(** [admin_citas] looks the user up after it has written.  A POST whose
    [user_id] names no user of the database is stored all the same, is
    reported as a success and sends no mail; a POST without [user_id]
    is turned away before anything is written. *)
Theorem admin_citas_unknown_user e req db :
  method req = POST ->
  let out := serve (admin_citas e req) db in
  let user_id := form_get (form req) "user_id" in
  (present user_id = false ->
   out = (Ok (Redirect "admin_citas"), db,
          [EvRead QUsersByName;
           EvFlash "Debes seleccionar un usuario." "warning"]))
  /\ (present user_id = true ->
      exact_field user_id = true ->
      user_by_id (opt_text user_id) (users db) = None ->
      out = (Ok (Redirect "admin_citas"), add_row db (admin_row e req db),
             [EvRead QUsersByName;
              EvInsert (admin_row e req db);
              EvCommit;
              EvRead (QUserById (opt_text user_id));
              EvFlash "Cita creada para el usuario." "success"])).
Proof.
  intros Hpost out user_id. subst out user_id. split.
  - intros Hu. unfold serve.
    now rewrite (Access.run_admin_citas_no_user e req _ Hpost Hu).
  - intros Hu _ Hnone.
    unfold serve, admin_citas. unfold bind at 1. unfold read at 1.
    rewrite Hpost. cbv zeta. rewrite Hu. cbn [negb conn committed trace].
    destruct (form_get (form req) "user_id") as [uid|] eqn:Huid;
      [|discriminate Hu].
    unfold bind at 1.
    rewrite insert_appointment_run;
      [|reflexivity|apply integer_affinity_text_not_null].
    cbn [conn committed trace].
    assert (Hrow : forall t, new_appointment e t insert_columns
              [opt_text (Some uid);
               opt_text (Text.or_none (Text.strip
                 (Text.or_else (form_get (form req) "fecha") "")));
               opt_text (Text.or_none (Text.strip
                 (Text.or_else (form_get (form req) "hora") "")));
               SqlText (Text.or_str (Text.strip
                 (Text.or_else (form_get (form req) "tipo") "")) "Consulta");
               SqlText (Text.or_str (Text.strip
                 (Text.or_else (form_get (form req) "lugar") ""))
                 "Por definir");
               SqlText (Text.strip
                 (Text.or_else (form_get (form req) "motivo") ""));
               SqlText (Text.or_str (Text.strip
                 (Text.or_else (form_get (form req) "estado") ""))
                 "Agendada")]
            = admin_row e req t).
    { intros t. unfold new_appointment, admin_row, admin_fecha. rewrite Huid.
      cbn [bound insert_columns String.eqb Ascii.eqb Bool.eqb or_null
           text_affinity].
      now rewrite !text_affinity_opt_text. }
    rewrite Hrow. clear Hrow.
    unfold bind at 1. unfold commit at 1. cbn [conn committed trace].
    unfold bind at 1. unfold read at 1. cbn [conn committed trace].
    unfold add_row at 1. cbn [users]. rewrite Hnone.
    unfold bind, flash, emit, ret. cbn [conn committed trace app].
    reflexivity.
Qed.

End Mail.

(** ** Form fields: [empty_to_none] *)

Module Fields.

(** [empty_to_none(s)] *)
Definition empty_to_none (s : option string) : option string :=
  let s := Text.strip (Text.or_else s "") in
  if Text.truthy s then Some s else None.

Fixpoint all_space (s : string) : bool :=
  match s with
  | EmptyString => true
  | String c r => Text.is_space c && all_space r
  end.

Definition first_char (s : string) : option ascii :=
  match s with
  | EmptyString => None
  | String c _ => Some c
  end.

Fixpoint last_char (s : string) : option ascii :=
  match s with
  | EmptyString => None
  | String c EmptyString => Some c
  | String _ r => last_char r
  end.

Definition not_space (o : option ascii) : Prop :=
  match o with
  | Some c => Text.is_space c = false
  | None => True
  end.

Lemma lstrip_first s : not_space (first_char (Text.lstrip s)).
Proof.
  induction s as [|c r IH]; cbn [Text.lstrip]; [exact I|].
  destruct (Text.is_space c) eqn:Hc; [exact IH|exact Hc].
Qed.

Lemma lstrip_empty s : Text.lstrip s = "" <-> all_space s = true.
Proof.
  induction s as [|c r IH]; cbn [Text.lstrip all_space]; [tauto|].
  destruct (Text.is_space c); cbn [andb]; [exact IH|].
  split; discriminate.
Qed.

Lemma rstrip_empty s : Text.rstrip s = "" <-> all_space s = true.
Proof.
  induction s as [|c r IH]; cbn [Text.rstrip all_space]; [tauto|].
  destruct (Text.is_space c); cbn [andb].
  - destruct (Text.rstrip r) eqn:Hr; cbn [Text.truthy negb].
    + split; [intros _; now apply IH|reflexivity].
    + split; [discriminate|]. intros H. apply IH in H. discriminate.
  - split; discriminate.
Qed.

Lemma rstrip_last s : not_space (last_char (Text.rstrip s)).
Proof.
  induction s as [|c r IH]; cbn [Text.rstrip]; [exact I|].
  destruct (Text.rstrip r) as [|c' r'] eqn:Hr; cbn [Text.truthy negb].
  - rewrite andb_true_r. destruct (Text.is_space c) eqn:Hc; [exact I|exact Hc].
  - rewrite andb_false_r. exact IH.
Qed.

Lemma rstrip_first s :
  not_space (first_char s) -> first_char (Text.rstrip s) = first_char s.
Proof.
  destruct s as [|c r]; cbn [first_char not_space Text.rstrip]; [reflexivity|].
  intros ->. reflexivity.
Qed.

Lemma lstrip_id s : not_space (first_char s) -> Text.lstrip s = s.
Proof.
  destruct s as [|c r]; cbn [first_char not_space Text.lstrip]; [reflexivity|].
  now intros ->.
Qed.

Lemma rstrip_idem s : Text.rstrip (Text.rstrip s) = Text.rstrip s.
Proof.
  induction s as [|c r IH]; cbn [Text.rstrip]; [reflexivity|].
  destruct (Text.is_space c && negb (Text.truthy (Text.rstrip r))) eqn:Hc;
    [reflexivity|].
  cbn [Text.rstrip]. now rewrite IH, Hc.
Qed.

Lemma strip_idem s : Text.strip (Text.strip s) = Text.strip s.
Proof.
  unfold Text.strip.
  rewrite (lstrip_id (Text.rstrip (Text.lstrip s))).
  - apply rstrip_idem.
  - rewrite rstrip_first by apply lstrip_first. apply lstrip_first.
Qed.

Lemma strip_empty s : Text.strip s = "" <-> all_space s = true.
Proof.
  unfold Text.strip. rewrite rstrip_empty. split.
  - intros H. induction s as [|c r IH]; [reflexivity|].
    cbn [Text.lstrip all_space] in *.
    destruct (Text.is_space c) eqn:Hc; cbn [andb]; [now apply IH|].
    cbn [all_space] in H. now rewrite Hc in H.
  - intros H. induction s as [|c r IH]; [reflexivity|].
    cbn [Text.lstrip all_space] in *.
    apply andb_true_iff in H. destruct H as [-> H]. now apply IH.
Qed.

(** [empty_to_none] gives [None] exactly for a field that is missing or
    blank; otherwise it gives a text that is not empty and neither
    starts nor ends with white space, and that it returns as it is when
    applied again. *)
Theorem empty_to_none_normalises s :
  (empty_to_none s = None
   <-> s = None \/ exists t, s = Some t /\ all_space t = true)
  /\ (forall t, empty_to_none s = Some t ->
        t <> ""
        /\ not_space (first_char t) /\ not_space (last_char t)
        /\ empty_to_none (Some t) = Some t).
Proof.
  unfold empty_to_none. cbv zeta. split.
  - destruct s as [t|]; cbn [Text.or_else].
    + assert (Ht : Text.or_str t "" = t) by (unfold Text.or_str; now destruct t).
      rewrite Ht.
      destruct (Text.strip t) eqn:Hs; cbn [Text.truthy].
      * apply strip_empty in Hs. split; [intros _; right; now exists t|reflexivity].
      * split; [discriminate|].
        intros [H|(t' & [= <-] & H)]; [discriminate|].
        apply strip_empty in H. congruence.
    + cbn. split; [now left|reflexivity].
  - intros t.
    set (r := Text.strip (Text.or_else s "")).
    destruct (Text.truthy r) eqn:Hr; [|discriminate]. intros [= <-].
    assert (Hne : r <> "") by (intros E; rewrite E in Hr; discriminate).
    split; [exact Hne|]. split; [|split].
    + unfold r, Text.strip. rewrite rstrip_first by apply lstrip_first.
      apply lstrip_first.
    + unfold r, Text.strip. apply rstrip_last.
    + cbn [Text.or_else]. unfold Text.or_str. rewrite Hr.
      unfold r at 1 2. rewrite strip_idem. fold r. now rewrite Hr.
Qed.

End Fields.

(** ** Accounts: roles, profile data and deletion

    The statements below read and write [users]; the log has no entry
    for them.  Rows of the other tables of [SCHEMA_SQL] are not part of
    the modelled database. *)

Module Accounts.

Import Store App Site.
Local Open Scope handler_scope.

(** A statement that leaves every table but [users] as it is. *)
Definition set_users (us : list user) : M unit :=
  fun w =>
    (Ok tt,
     mkWorld (committed w)
             (mkTables us (appointments (conn w)) (appointments_seq (conn w)))
             (trace w)).

(** A SELECT on [users]. *)
Definition select_users {A} (f : list user -> A) : M A :=
  fun w => (Ok (f (users (conn w))), w).

Definition with_role (role : string) (u : user) : user :=
  mkUser (u_id u) (u_username u) (u_email u) role.

(** [UPDATE users SET role=? WHERE id=?] *)
Definition update_role (role : string) (v : sql_value) : M unit :=
  us <- select_users (fun us => us) ;;
  set_users
    (map (fun u => if id_matches v (u_id u) then with_role role u else u) us).

(** [role in ("admin", "user")] *)
Definition valid_role (role : option string) : bool :=
  match role with
  | Some r => String.eqb r "admin" || String.eqb r "user"
  | None => false
  end.

(** [admin_users_role], behind [admin_required]. *)
Definition admin_users_role (req : request) : M response :=
  let user_id := form_get (form req) "user_id" in
  let role := form_get (form req) "role" in
  (if negb (valid_role role) then flash "Rol inválido" "danger"
   else
     update_role (Text.or_else role "") (opt_text user_id) ;;
     commit ;;
     flash "Rol actualizado" "success") ;;
  ret (Redirect "admin").

(** The UNIQUE constraint of [users.username]. *)
Fixpoint distinct (l : list string) : bool :=
  match l with
  | [] => true
  | x :: r => negb (existsb (String.eqb x) r) && distinct r
  end.

Definition with_account (username : string) (email : option string)
           (u : user) : user :=
  mkUser (u_id u) username email (u_role u).

(** [UPDATE users SET username=?, email=? WHERE id=?]; the statement
    fails when it would leave two rows with one username. *)
Definition update_account (username : string) (email : option string)
           (v : sql_value) : M unit :=
  us <- select_users (fun us => us) ;;
  let us' :=
    map (fun u => if id_matches v (u_id u)
                  then with_account username email u else u) us in
  if distinct (map u_username us') then set_users us'
  else raise (IntegrityError "UNIQUE constraint failed: users.username").

(** [SELECT id FROM users WHERE username=? AND id<>?], [fetchone()] *)
Definition other_user_named (username : string) (v : sql_value)
  : M (option user) :=
  select_users
    (find (fun u => String.eqb (u_username u) username
                    && negb (id_matches v (u_id u)))).

Definition truthy_row (o : option user) : bool :=
  match o with Some _ => true | None => false end.

(** [perfil_update], behind [login_required]: [u] is [current_user()]. *)
Definition perfil_update (u : user) (req : request) : M response :=
  let username :=
    Text.strip (Text.or_else (form_get (form req) "username") "") in
  let email :=
    Text.or_none (Text.strip (Text.or_else (form_get (form req) "email") "")) in
  if negb (Text.truthy username) then
    flash "El usuario no puede quedar vacío." "warning" ;;
    ret (Redirect "perfil")
  else
    found <- other_user_named username (SqlInt (u_id u)) ;;
    if truthy_row found then
      flash "Ya existe un usuario con ese nombre." "warning" ;;
      ret (Redirect "perfil")
    else
      update_account username email (SqlInt (u_id u)) ;;
      commit ;;
      flash "Datos de cuenta actualizados." "success" ;;
      ret (Redirect "perfil").




(** [str(n)] for an [int]. *)
Definition str_int (z : Z) : string := NilZero.string_of_int (Z.to_int z).

(** [str(_id)] for a form value. *)
Definition str_field (x : option string) : string :=
  match x with Some s => s | None => "None" end.

(** [x == s] for a form value. *)
Definition field_is (x : option string) (s : string) : bool :=
  match x with Some t => String.eqb t s | None => false end.

(** [admin_delete], behind [admin_required]: [u] is [current_user()].
    The statements on [services] and [campaigns] touch no modelled
    table.  The connection never turns foreign keys on, so deleting a
    user is not held back by the rows that refer to it. *)
Definition admin_delete (u : user) (req : request) : M response :=
  let what := form_get (form req) "what" in
  let _id := form_get (form req) "id" in
  let finish :=
    commit ;;
    flash "Eliminado" "info" ;;
    ret (Redirect "admin") in
  if field_is what "service" then finish
  else if field_is what "campaign" then finish
  else if field_is what "user" then
    if String.eqb (str_int (u_id u)) (str_field _id) then
      flash "No puedes borrarte a ti mismo." "warning" ;;
      ret (Redirect "admin")
    else
      us <- select_users (fun us => us) ;;
      set_users (filter (fun x => negb (id_matches (opt_text _id) (u_id x)))
                        us) ;;
      finish
  else
    flash "Operación no válida" "danger" ;;
    ret (Redirect "admin").


(** *** Facts about the statements on [users] *)

Lemma id_matches_int z id : id_matches (SqlInt z) id = (z =? id).
Proof. reflexivity. Qed.

Lemma id_matches_single v a b :
  id_matches v a = true -> id_matches v b = true -> a = b.
Proof.
  unfold id_matches. destruct (integer_affinity v) as [[| |]|];
    try discriminate.
  intros Ha Hb. apply Z.eqb_eq in Ha, Hb. congruence.
Qed.

Lemma distinct_NoDup l : distinct l = true <-> NoDup l.
Proof.
  induction l as [|x r IH]; cbn [distinct].
  - split; [constructor|reflexivity].
  - rewrite andb_true_iff, negb_true_iff, IH. split.
    + intros [Hx Hr]. constructor; [|exact Hr].
      intros Hin. assert (existsb (String.eqb x) r = true); [|congruence].
      apply existsb_exists. exists x. split; [exact Hin|apply String.eqb_refl].
    + intros H. inversion H as [|? ? Hx Hr]; subst. split; [|exact Hr].
      destruct (existsb (String.eqb x) r) eqn:E; [|reflexivity].
      apply existsb_exists in E. destruct E as (y & Hy & Hxy).
      apply String.eqb_eq in Hxy. now subst.
Qed.

Definition renamed (name : string) (email : option string) (v : sql_value)
           (us : list user) : list user :=
  map (fun u => if id_matches v (u_id u) then with_account name email u else u)
      us.

Lemma renamed_ids name email v us :
  map u_id (renamed name email v us) = map u_id us.
Proof.
  unfold renamed. rewrite map_map. apply map_ext. intros u.
  now destruct (id_matches v (u_id u)).
Qed.

Lemma renamed_roles name email v us :
  map u_role (renamed name email v us) = map u_role us.
Proof.
  unfold renamed. rewrite map_map. apply map_ext. intros u.
  now destruct (id_matches v (u_id u)).
Qed.

(** Renaming the row of one id to a name nobody else has keeps the names
    apart. *)
Lemma renamed_distinct name email v us :
  NoDup (map u_id us) ->
  NoDup (map u_username us) ->
  (forall u, In u us -> u_username u = name -> id_matches v (u_id u) = true) ->
  NoDup (map u_username (renamed name email v us)).
Proof.
  induction us as [|x r IH]; intros Hids Hnames Hfree; [constructor|].
  cbn [renamed map] in *. fold (renamed name email v r).
  inversion Hids as [|? ? Hxid Hrid]; subst.
  inversion Hnames as [|? ? Hxn Hrn]; subst.
  constructor.
  - intros Hin. apply in_map_iff in Hin. destruct Hin as (y' & Hy' & Hin).
    unfold renamed in Hin. apply in_map_iff in Hin.
    destruct Hin as (y & Hy & Hin). subst y'.
    assert (Hne : u_id y <> u_id x).
    { intros E. apply Hxid. rewrite <- E. now apply in_map. }
    destruct (id_matches v (u_id x)) eqn:Hx;
      destruct (id_matches v (u_id y)) eqn:Hyv;
      cbn [with_account u_username] in Hy'.
    + apply Hne. now apply (id_matches_single v).
    + assert (id_matches v (u_id y) = true); [|congruence].
      apply Hfree; [now right|exact Hy'].
    + assert (id_matches v (u_id x) = true); [|congruence].
      apply Hfree; [now left|now symmetry].
    + apply Hxn. rewrite <- Hy'. now apply in_map.
  - apply IH; auto. intros u Hu. apply Hfree. now right.
Qed.

Lemma find_none_free name v us :
  find (fun u => String.eqb (u_username u) name
                 && negb (id_matches v (u_id u))) us = None ->
  forall u, In u us -> u_username u = name -> id_matches v (u_id u) = true.
Proof.
  intros Hnone u Hu Hname.
  pose proof (find_none _ _ Hnone u Hu) as H. cbn beta in H.
  rewrite Hname, String.eqb_refl in H. cbn [andb] in H.
  now apply negb_false_iff in H.
Qed.

(** After the check for another user of that name, the UPDATE cannot
    fail. *)
Lemma update_account_run name email v w :
  NoDup (map u_id (users (conn w))) ->
  distinct (map u_username (users (conn w))) = true ->
  find (fun u => String.eqb (u_username u) name
                 && negb (id_matches v (u_id u))) (users (conn w)) = None ->
  update_account name email v w
  = (Ok tt,
     mkWorld (committed w)
             (mkTables (renamed name email v (users (conn w)))
                       (appointments (conn w)) (appointments_seq (conn w)))
             (trace w))
    /\ distinct (map u_username (renamed name email v (users (conn w)))) = true.
Proof.
  intros Hids Hnames Hnone.
  assert (Hd : distinct (map u_username (renamed name email v (users (conn w))))
               = true).
  { apply distinct_NoDup. apply renamed_distinct; auto.
    - now apply distinct_NoDup.
    - now apply find_none_free. }
  split; [|exact Hd].
  unfold update_account, bind, select_users. fold (renamed name email v (users (conn w))).
  now rewrite Hd.
Qed.

Definition with_users (db : tables) (us : list user) : tables :=
  mkTables us (appointments db) (appointments_seq db).

Definition other_named (name : string) (v : sql_value) (us : list user)
  : option user :=
  find (fun u => String.eqb (u_username u) name
                 && negb (id_matches v (u_id u))) us.

Lemma perfil_update_run u req db :
  NoDup (map u_id (users db)) ->
  distinct (map u_username (users db)) = true ->
  let name := Text.strip (Text.or_else (form_get (form req) "username") "") in
  let email :=
    Text.or_none (Text.strip (Text.or_else (form_get (form req) "email") "")) in
  serve (perfil_update u req) db
  = if negb (Text.truthy name)
    then (Ok (Redirect "perfil"), db,
          [EvFlash "El usuario no puede quedar vacío." "warning"])
    else match other_named name (SqlInt (u_id u)) (users db) with
         | Some _ =>
             (Ok (Redirect "perfil"), db,
              [EvFlash "Ya existe un usuario con ese nombre." "warning"])
         | None =>
             (Ok (Redirect "perfil"),
              with_users db (renamed name email (SqlInt (u_id u)) (users db)),
              [EvCommit; EvFlash "Datos de cuenta actualizados." "success"])
         end.
Proof.
  intros Hids Hnames name email. unfold serve, perfil_update. cbv zeta.
  fold name. fold email.
  destruct (Text.truthy name) eqn:Hname; cbn [negb]; [|reflexivity].
  unfold bind at 1. unfold other_user_named, select_users.
  cbn [conn committed trace]. fold (other_named name (SqlInt (u_id u)) (users db)).
  destruct (other_named name (SqlInt (u_id u)) (users db)) as [other|] eqn:Hfind;
    cbn [truthy_row]; [reflexivity|].
  unfold bind at 1.
  destruct (update_account_run name email (SqlInt (u_id u))
              (mkWorld db db []) Hids Hnames Hfind) as [Hrun _].
  cbn [conn committed trace] in Hrun. rewrite Hrun. reflexivity.
Qed.

(** [perfil_update] keeps the user names apart.  On a table with distinct
    ids and distinct names, the request always ends in its redirect (the
    UPDATE never fails), the names are distinct afterwards, and nothing
    but the name and address of the rows with the user's own id has
    changed: ids, roles, the rows of the other users and the
    appointments are as before.  An empty name changes nothing. *)
Theorem perfil_update_keeps_names_apart u req db :
  NoDup (map u_id (users db)) ->
  distinct (map u_username (users db)) = true ->
  let out := serve (perfil_update u req) db in
  response_of out = Ok (Redirect "perfil")
  /\ distinct (map u_username (users (db_of out))) = true
  /\ map u_id (users (db_of out)) = map u_id (users db)
  /\ map u_role (users (db_of out)) = map u_role (users db)
  /\ appointments (db_of out) = appointments db
  /\ (forall x, In x (users db) -> u_id x <> u_id u ->
        In x (users (db_of out)))
  /\ (Text.strip (Text.or_else (form_get (form req) "username") "") = "" ->
      db_of out = db).
Proof.
  intros Hids Hnames out. subst out.
  rewrite (perfil_update_run u req db Hids Hnames). cbv zeta.
  set (name := Text.strip (Text.or_else (form_get (form req) "username") "")).
  set (email := Text.or_none
                  (Text.strip (Text.or_else (form_get (form req) "email") ""))).
  destruct (Text.truthy name) eqn:Hname; cbn [negb].
  - destruct (other_named name (SqlInt (u_id u)) (users db)) as [other|]
      eqn:Hfind.
    + unfold response_of, db_of. cbn [fst snd]. repeat split; auto.
    + destruct (update_account_run name email (SqlInt (u_id u))
                  (mkWorld db db []) Hids Hnames Hfind) as [_ Hd].
      cbn [conn] in Hd.
      unfold response_of, db_of, with_users. cbn [fst snd users appointments].
      split; [reflexivity|]. split; [exact Hd|].
      split; [apply renamed_ids|]. split; [apply renamed_roles|].
      split; [reflexivity|]. split.
      * intros x Hx Hne. unfold renamed. apply in_map_iff. exists x.
        split; [|exact Hx]. rewrite id_matches_int.
        destruct (Z.eqb_spec (u_id u) (u_id x)); [congruence|reflexivity].
      * intros E. rewrite E in Hname. discriminate.
  - unfold response_of, db_of. cbn [fst snd]. repeat split; auto.
Qed.



(** *** Roles *)

Definition roles_known (us : list user) : Prop :=
  forall u, In u us -> u_role u = "admin" \/ u_role u = "user".

Definition with_roles (role : string) (v : sql_value) (us : list user)
  : list user :=
  map (fun u => if id_matches v (u_id u) then with_role role u else u) us.

Lemma admin_users_role_run req db :
  let user_id := form_get (form req) "user_id" in
  let role := form_get (form req) "role" in
  serve (admin_users_role req) db
  = if negb (valid_role role)
    then (Ok (Redirect "admin"), db, [EvFlash "Rol inválido" "danger"])
    else (Ok (Redirect "admin"),
          with_users db (with_roles (Text.or_else role "") (opt_text user_id)
                                    (users db)),
          [EvCommit; EvFlash "Rol actualizado" "success"]).
Proof.
  intros user_id role. unfold serve, admin_users_role. cbv zeta.
  fold user_id. fold role.
  destruct (valid_role role); cbn [negb]; reflexivity.
Qed.

(** [admin_users_role] changes roles and nothing else, and only to the
    two roles the program knows: a request with another role (or none)
    leaves the database as it was; otherwise ids, names, addresses and
    appointments are as before, the rows whose id is the one SQLite
    reads from the submitted text have the new role, the other rows are
    untouched, and if every role was [admin] or [user] before, every
    role is afterwards. *)
Theorem admin_users_role_changes_roles_only req db :
  let out := serve (admin_users_role req) db in
  let user_id := form_get (form req) "user_id" in
  let role := form_get (form req) "role" in
  response_of out = Ok (Redirect "admin")
  /\ (valid_role role = false -> db_of out = db)
  /\ map u_id (users (db_of out)) = map u_id (users db)
  /\ map u_username (users (db_of out)) = map u_username (users db)
  /\ map u_email (users (db_of out)) = map u_email (users db)
  /\ appointments (db_of out) = appointments db
  /\ (exact_field user_id = true ->
      forall x, In x (users db) ->
        id_matches (opt_text user_id) (u_id x) = false ->
        In x (users (db_of out)))
  /\ (forall x r, In x (users db) ->
        id_matches (opt_text user_id) (u_id x) = true ->
        role = Some r -> valid_role role = true ->
        In (with_role r x) (users (db_of out)))
  /\ (roles_known (users db) -> roles_known (users (db_of out))).
Proof.
  intros out user_id role. subst out. rewrite admin_users_role_run. cbv zeta.
  fold user_id. fold role.
  destruct (valid_role role) eqn:Hrole; cbn [negb].
  - unfold response_of, db_of, with_users. cbn [fst snd users appointments].
    unfold with_roles.
    split; [reflexivity|]. split; [discriminate|].
    split; [rewrite map_map; apply map_ext; intros u;
            now destruct (id_matches _ _)|].
    split; [rewrite map_map; apply map_ext; intros u;
            now destruct (id_matches _ _)|].
    split; [rewrite map_map; apply map_ext; intros u;
            now destruct (id_matches _ _)|].
    split; [reflexivity|]. split; [|split].
    + intros _ x Hx Hno. apply in_map_iff. exists x. now rewrite Hno.
    + intros x r Hx Hyes Hr _. apply in_map_iff. exists x.
      rewrite Hyes, Hr. cbn [Text.or_else]. unfold Text.or_str.
      rewrite Hr in Hrole. unfold valid_role in Hrole.
      destruct r; [discriminate Hrole|]. now split.
    + intros Hknown y Hy. apply in_map_iff in Hy.
      destruct Hy as (x & Hxy & Hx).
      destruct (id_matches (opt_text user_id) (u_id x)).
      * subst y. cbn [with_role u_role].
        unfold valid_role in Hrole. destruct role as [r|]; [|discriminate].
        cbn [Text.or_else]. unfold Text.or_str.
        apply orb_true_iff in Hrole.
        destruct Hrole as [H|H]; apply String.eqb_eq in H; subst r; cbn; auto.
      * subst y. now apply Hknown.
  - unfold response_of, db_of. cbn [fst snd].
    repeat split; auto. intros x r _ _ _ H. discriminate H.
Qed.

(** The route of [admin_users_role]. *)
Definition route_admin_users_role : request -> M response :=
  admin_required admin_users_role.

Lemma user_by_id_with_roles role v uid us :
  user_by_id (SqlInt uid) (with_roles role v us)
  = option_map (fun u => if id_matches v (u_id u) then with_role role u else u)
               (user_by_id (SqlInt uid) us).
Proof.
  unfold user_by_id, with_roles.
  induction us as [|x r IH]; [reflexivity|]. cbn [map find].
  assert (Hid : u_id (if id_matches v (u_id x) then with_role role x else x)
                = u_id x) by now destruct (id_matches v (u_id x)).
  rewrite Hid. destruct (id_matches (SqlInt uid) (u_id x)); [reflexivity|].
  exact IH.
Qed.

(** A change of role holds from the next request on.  An administrator
    who gives the role [user] to their own account is refused by every
    administrative route afterwards: no guard keeps the last
    administrator. *)
Theorem self_demotion_locks_out cfg e req req' r db a :
  Access.is_admin (Bookings.session_user req (users db)) = true ->
  Bookings.session_user req (users db) = Some a ->
  form_get (form req) "role" = Some "user" ->
  id_matches (opt_text (form_get (form req) "user_id")) (u_id a) = true ->
  session_user_id req' = session_user_id req ->
  r <> RouteMisCitas ->
  let db' := db_of (serve (route_admin_users_role req) db) in
  response_of (serve (dispatch cfg e r req') db') = Ok (Redirect "index")
  /\ db_of (serve (dispatch cfg e r req') db') = db'.
Proof.
  intros Hadmin Ha Hrole Hid Hsess Hr db'.
  assert (Hdb' : users db'
                 = with_roles "user" (opt_text (form_get (form req) "user_id"))
                              (users db)).
  { subst db'. unfold route_admin_users_role.
    rewrite Access.admin_required_run, Hadmin.
    unfold admin_users_role. cbv zeta. rewrite Hrole.
    cbn [valid_role String.eqb Ascii.eqb Bool.eqb orb negb].
    unfold bind, update_role, select_users, set_users, commit, flash, emit, ret.
    cbn [conn committed trace users]. reflexivity. }
  assert (Hna : Access.is_admin (Bookings.session_user req' (users db'))
                = false).
  { unfold Bookings.session_user in *. rewrite Hsess.
    destruct (session_user_id req) as [uid|]; [|reflexivity].
    rewrite Hdb', user_by_id_with_roles, Ha. cbn [option_map].
    rewrite Hid. reflexivity. }
  destruct r; [now elim Hr| |]; unfold dispatch;
    rewrite Access.admin_required_run, Hna; split; reflexivity.
Qed.

(** *** Deleting *)

Lemma admin_delete_run u req db :
  let what := form_get (form req) "what" in
  let _id := form_get (form req) "id" in
  serve (admin_delete u req) db
  = if field_is what "service" || field_is what "campaign"
    then (Ok (Redirect "admin"), db, [EvCommit; EvFlash "Eliminado" "info"])
    else if field_is what "user"
    then if String.eqb (str_int (u_id u)) (str_field _id)
         then (Ok (Redirect "admin"), db,
               [EvFlash "No puedes borrarte a ti mismo." "warning"])
         else (Ok (Redirect "admin"),
               with_users db
                 (filter (fun x => negb (id_matches (opt_text _id) (u_id x)))
                         (users db)),
               [EvCommit; EvFlash "Eliminado" "info"])
    else (Ok (Redirect "admin"), db, [EvFlash "Operación no válida" "danger"]).
Proof.
  intros what _id. unfold serve, admin_delete. cbv zeta. fold what. fold _id.
  destruct (field_is what "service"); cbn [orb]; [reflexivity|].
  destruct (field_is what "campaign"); [reflexivity|].
  destruct (field_is what "user"); [|reflexivity].
  destruct (String.eqb (str_int (u_id u)) (str_field _id)); reflexivity.
Qed.

Lemma field_is_eq x s : field_is x s = true -> x = Some s.
Proof.
  destruct x as [t|]; cbn [field_is]; [|discriminate].
  intros H. apply String.eqb_eq in H. now subst.
Qed.

(** Deleting an account frees no place.  [admin_delete] never changes
    the appointments: those of a deleted user stay and keep counting
    towards the daily maximum.  It adds no user and keeps every user
    whose id is not the one SQLite reads from the submitted text.  It
    refuses the administrator's own id only as [str] writes it: for any
    other text, no user whose id the text names is left, the
    administrator included; and it does nothing for a kind it does not
    know. *)
Theorem admin_delete_keeps_appointments u req db :
  let out := serve (admin_delete u req) db in
  let what := form_get (form req) "what" in
  let _id := form_get (form req) "id" in
  response_of out = Ok (Redirect "admin")
  /\ appointments (db_of out) = appointments db
  /\ (forall s, count_by_fecha s (appointments (db_of out))
                = count_by_fecha s (appointments db))
  /\ (forall x, In x (users (db_of out)) -> In x (users db))
  /\ (exact_field _id = true ->
      forall x, In x (users db) ->
        id_matches (opt_text _id) (u_id x) = false ->
        In x (users (db_of out)))
  /\ (_id = Some (str_int (u_id u)) -> db_of out = db)
  /\ (what = Some "user" -> _id <> Some (str_int (u_id u)) ->
      forall x, In x (users (db_of out)) ->
        id_matches (opt_text _id) (u_id x) = false)
  /\ (field_is what "user" = false -> db_of out = db).
Proof.
  intros out what _id. subst out. rewrite admin_delete_run. cbv zeta.
  fold what. fold _id.
  destruct (field_is what "service" || field_is what "campaign") eqn:Hother.
  - unfold response_of, db_of. cbn [fst snd]. repeat split; auto.
    intros Hw. rewrite Hw in Hother. discriminate Hother.
  - destruct (field_is what "user") eqn:Huser.
    + destruct (String.eqb (str_int (u_id u)) (str_field _id)) eqn:Hself.
      * unfold response_of, db_of. cbn [fst snd]. repeat split; auto.
        intros _ Hne x _. destruct _id as [t|]; [|reflexivity].
        cbn [str_field] in Hself. apply String.eqb_eq in Hself.
        elim Hne. now rewrite Hself.
      * unfold response_of, db_of, with_users.
        cbn [fst snd users appointments].
        split; [reflexivity|]. split; [reflexivity|]. split; [reflexivity|].
        split; [intros x Hx; now apply filter_In in Hx|].
        split; [intros _ x Hx Hno; apply filter_In; now rewrite Hno|].
        split; [|split; [|discriminate]].
        -- intros E. rewrite E in Hself. cbn [str_field] in Hself.
           now rewrite String.eqb_refl in Hself.
        -- intros _ _ x Hx. apply filter_In in Hx. destruct Hx as [_ Hx].
           now apply negb_true_iff in Hx.
    + unfold response_of, db_of. cbn [fst snd]. repeat split; auto.
      intros Hw. rewrite Hw in Huser. discriminate Huser.
Qed.

End Accounts.

(** ** Medications: [admin_medications_create] *)

Module Medications.

Import Store App Site.
Local Open Scope handler_scope.

(** The tables of [SCHEMA_SQL] and their columns. *)
Definition SCHEMA_SQL : list (string * list string) :=
  [("users",
    ["id"; "username"; "email"; "password_hash"; "role"; "created_at"]);
   ("services",
    ["id"; "depto"; "municipio"; "name"; "type"; "lat"; "lon"; "capacity";
     "available"; "created_at"]);
   ("campaigns",
    ["id"; "name"; "type"; "fecha"; "cod_depto"; "cod_mpio"; "depto";
     "municipio"; "expected_patients"; "target"; "resources"; "created_at"]);
   ("community_reports",
    ["id"; "fecha"; "cod_depto"; "cod_mpio"; "depto"; "municipio"; "symptom";
     "details"; "created_at"]);
   ("availability_slots",
    ["id"; "username"; "fecha"; "horario"; "cod_depto"; "cod_mpio"; "depto";
     "municipio"; "created_at"]);
   ("password_resets", ["id"; "user_id"; "token"; "created_at"; "used"]);
   ("appointments", appointments_columns);
   ("meds",
    ["id"; "user_id"; "medicamento"; "dosis"; "frecuencia"; "fecha_entrega";
     "lugar"; "estado"; "created_at"]);
   ("chat_sessions", ["id"; "user_id"; "created_at"]);
   ("chat_messages", ["id"; "session_id"; "sender"; "message"; "created_at"])].

Fixpoint table_columns (schema : list (string * list string)) (t : string)
  : option (list string) :=
  match schema with
  | [] => None
  | (name, cols) :: r =>
      if String.eqb name t then Some cols else table_columns r t
  end.

(** [db.execute("INSERT INTO t(cols) VALUES(...)", ...)] for a table whose
    rows are not modelled: the statement is compiled against the schema
    and, when that succeeds, changes no modelled table. *)
Definition insert_into (t : string) (cols : list string) : M unit :=
  match table_columns SCHEMA_SQL t with
  | None => raise (OperationalError ("no such table: " ++ t))
  | Some known =>
      match find (fun c => negb (existsb (String.eqb c) known)) cols with
      | Some c =>
          raise (OperationalError
                   ("table " ++ t ++ " has no column named " ++ c))
      | None => ret tt
      end
  end.

(** [admin_medications_create], behind [admin_required]. *)
Definition admin_medications_create (e : env) (req : request) : M response :=
  let f := form req in
  let user_id := form_get f "user_id" in
  let med := Text.strip (Text.or_else (form_get f "medicamento") "") in
  let dosis := Text.strip (Text.or_else (form_get f "dosis") "") in
  let freq := Text.strip (Text.or_else (form_get f "frecuencia") "") in
  let fecha :=
    Text.or_none (Text.strip (Text.or_else (form_get f "fecha_entrega") "")) in
  let lugar := Text.strip (Text.or_else (form_get f "lugar") "") in
  let estado := Text.strip (Text.or_else (form_get f "estado") "pendiente") in
  if negb (present user_id && Text.truthy med) then
    flash "Falta usuario o medicamento." "warning" ;;
    ret (Redirect "admin")
  else
    u <- read (QUserById (opt_text user_id))
           (fun t => user_by_id (opt_text user_id) (users t)) ;;
    match u with
    | None =>
        flash "Usuario inválido." "danger" ;;
        ret (Redirect "admin")
    | Some u =>
        insert_into "medications"
          ["user_id"; "medicamento"; "dosis"; "frecuencia"; "fecha_entrega";
           "lugar"; "estado"] ;;
        commit ;;
        (if present (u_email u)
         then send_email e (Text.or_else (u_email u) "")
                "Asignación de medicamento — SaludGo"
                [u_username u; med; Text.or_str dosis "—";
                 Text.or_str freq "—"; Text.or_else fecha "—";
                 Text.or_str lugar "—"; estado]
         else ret tt) ;;
        flash "Medicamento registrado." "success" ;;
        ret (Redirect "admin")
    end.

Lemma admin_medications_create_run e req db :
  let user_id := form_get (form req) "user_id" in
  let med := Text.strip (Text.or_else (form_get (form req) "medicamento") "") in
  serve (admin_medications_create e req) db
  = if negb (present user_id && Text.truthy med)
    then (Ok (Redirect "admin"), db,
          [EvFlash "Falta usuario o medicamento." "warning"])
    else match user_by_id (opt_text user_id) (users db) with
         | None =>
             (Ok (Redirect "admin"), db,
              [EvRead (QUserById (opt_text user_id));
               EvFlash "Usuario inválido." "danger"])
         | Some _ =>
             (Raise (OperationalError "no such table: medications"), db,
              [EvRead (QUserById (opt_text user_id))])
         end.
Proof.
  intros user_id med. unfold serve, admin_medications_create. cbv zeta.
  fold user_id. fold med.
  destruct (present user_id && Text.truthy med); cbn [negb]; [|reflexivity].
  unfold bind at 1. unfold read at 1. cbn [conn committed trace app].
  destruct (user_by_id (opt_text user_id) (users db)); reflexivity.
Qed.

(** [admin_medications_create] can register nothing.  Its INSERT names
    the table [medications], which the schema does not have (the table
    is [meds]): a request that gives user and medicine and names an
    existing user ends in that storage error; every other request is
    turned away before.  No request gets to the commit, to the mail or
    to the success message. *)
Theorem medications_create_never_registers e req db :
  let out := serve (admin_medications_create e req) db in
  let user_id := form_get (form req) "user_id" in
  let med := Text.strip (Text.or_else (form_get (form req) "medicamento") "") in
  db_of out = db
  /\ mails (trace_of out) = []
  /\ ~ In EvCommit (trace_of out)
  /\ ~ In (EvFlash "Medicamento registrado." "success") (trace_of out)
  /\ table_columns SCHEMA_SQL "medications" = None
  /\ table_columns SCHEMA_SQL "meds" <> None
  /\ (present user_id = true -> med <> "" ->
      user_by_id (opt_text user_id) (users db) <> None ->
      response_of out
      = Raise (OperationalError "no such table: medications")).
Proof.
  intros out user_id med. subst out.
  rewrite admin_medications_create_run. cbv zeta. fold user_id. fold med.
  destruct (present user_id) eqn:Hu; cbn [andb negb].
  - destruct (Text.truthy med) eqn:Hm; cbn [negb].
    + destruct (user_by_id (opt_text user_id) (users db)) as [usr|].
      * unfold response_of, db_of, trace_of. cbn [fst snd mails].
        repeat split; try discriminate.
        -- intros [H|[]]; discriminate H.
        -- intros [H|[]]; discriminate H.
      * unfold response_of, db_of, trace_of. cbn [fst snd mails].
        repeat split; try discriminate.
        -- intros [H|[H|[]]]; discriminate H.
        -- intros [H|[H|[]]]; discriminate H.
        -- intros _ _ H. now elim H.
    + unfold response_of, db_of, trace_of. cbn [fst snd mails].
      repeat split; try discriminate.
      * intros [H|[]]; discriminate H.
      * intros [H|[]]; discriminate H.
      * intros _ H. destruct med; [now elim H|discriminate].
  - unfold response_of, db_of, trace_of. cbn [fst snd mails].
    repeat split; try discriminate.
    + intros [H|[]]; discriminate H.
    + intros [H|[]]; discriminate H.
Qed.

End Medications.

(** ** The last days of the calendar *)

Module Horizon.

Import Store App Site.

Lemma toordinal_positive d : Date.valid d = true -> 1 <= Date.toordinal d.
Proof.
  intros Hv. destruct (Dates.valid_fields d Hv) as (Hy & Hm & Hd).
  unfold Date.toordinal, Date._ymd2ord, Date._days_before_year,
    Date._days_before_month.
  cbv zeta.
  assert (0 <= Date._DAYS_BEFORE_MONTH (Date.month d)).
  { assert (Hc : Date.month d = 1 \/ Date.month d = 2 \/ Date.month d = 3 \/
                 Date.month d = 4 \/ Date.month d = 5 \/ Date.month d = 6 \/
                 Date.month d = 7 \/ Date.month d = 8 \/ Date.month d = 9 \/
                 Date.month d = 10 \/ Date.month d = 11 \/ Date.month d = 12)
      by lia.
    repeat (destruct Hc as [->|Hc]); try rewrite Hc; cbn; lia. }
  destruct ((2 <? Date.month d) && Date._is_leap (Date.year d));
    Z.div_mod_to_equations; lia.
Qed.

(** The page needs thirty more days of calendar.  [mis_citas] shows its
    page exactly when the day thirty days after today is not beyond
    9999-12-31; on the last thirty days of the calendar the addition
    overflows and the request ends in [OverflowError]. *)
Theorem page_needs_thirty_days cfg e u req db :
  method req = GET ->
  Date.valid (today e) = true ->
  let out := serve (mis_citas cfg e u req) db in
  ((exists p, response_of out = Ok (RenderMisCitas p))
   <-> Date.toordinal (today e) + 30 <= Date._MAXORDINAL)
  /\ (Date._MAXORDINAL < Date.toordinal (today e) + 30 ->
      out = (Raise OverflowError, db, [EvRead (QAppointmentsOfUser (u_id u))])).
Proof.
  intros Hget Hv out. pose proof (toordinal_positive _ Hv) as Hpos.
  destruct (Date.add_days (today e) 30) as [h|] eqn:Hadd.
  - assert (Hin : Date.toordinal (today e) + 30 <= Date._MAXORDINAL).
    { unfold Date.add_days in Hadd. cbv zeta in Hadd.
      destruct ((0 <? Date.toordinal (today e) + 30)
                && (Date.toordinal (today e) + 30 <=? Date._MAXORDINAL))
        eqn:Hr; [|discriminate].
      apply andb_true_iff in Hr. destruct Hr as [_ Hr].
      now apply Z.leb_le in Hr. }
    subst out. rewrite (run_page cfg e u req db h Hget Hadd). split.
    + split; [intros _; exact Hin|intros _; eexists; reflexivity].
    + intros H. lia.
  - assert (Hout : Date._MAXORDINAL < Date.toordinal (today e) + 30).
    { unfold Date.add_days in Hadd. cbv zeta in Hadd.
      destruct (Z.ltb_spec 0 (Date.toordinal (today e) + 30)); [|lia].
      destruct (Z.leb_spec (Date.toordinal (today e) + 30) Date._MAXORDINAL);
        [discriminate|assumption]. }
    assert (Hrun : out = (Raise OverflowError, db,
                          [EvRead (QAppointmentsOfUser (u_id u))])).
    { subst out. unfold serve, mis_citas. rewrite Hget. cbv zeta.
      unfold bind at 1. unfold read at 1. cbn [conn committed trace app].
      rewrite Hadd. reflexivity. }
    split; [|intros _; exact Hrun].
    rewrite Hrun. split; [intros [p Hp]; discriminate Hp|lia].
Qed.

End Horizon.

(** ** Sample runs *)

Module Scenarios.

Import Store App Site.

Definition dec20 : Date.date := Date.mkDate 2025 12 20.
Definition dec21 : Date.date := Date.mkDate 2025 12 21.

Lemma parse_date_isoformat_witness :
  parse_date (Date.isoformat (Date.mkDate 2024 2 29))
  = Some (Date.mkDate 2024 2 29).
Proof. apply Dates.parse_date_isoformat. reflexivity. Defined.

Lemma isoformat_order_witness :
  String.compare (Date.isoformat dec20) (Date.isoformat (Date.mkDate 2026 1 5))
  = Date.compare dec20 (Date.mkDate 2026 1 5).
Proof.
  exact (proj1 (Dates.isoformat_order dec20 (Date.mkDate 2026 1 5)
                  eq_refl eq_refl)).
Defined.


Lemma booking_touches_one_date_witness :
  count_by_fecha (Date.isoformat dec21)
    (appointments
       (db_of (serve (dispatch scenario_cfg console_env RouteMisCitas
                               (booking_request "2025-12-20")) clinic_db)))
  = count_by_fecha (Date.isoformat dec21) (appointments clinic_db).
Proof.
  apply Bookings.booking_touches_one_date; [reflexivity|].
  vm_compute. discriminate.
Defined.

Definition full_day_page : mis_citas_page :=
  {| page_user := ana;
     my_appointments :=
       [mkListed (Some "2025-12-20") None (Some "Consulta")
                 (Some "Por definir") (Some "Agendada");
        mkListed (Some "2025-12-20") None (Some "Consulta")
                 (Some "Por definir") (Some "Agendada")];
     disabled_dates := ["2025-12-20"];
     page_today := "2025-12-01";
     max_date := "2025-12-31";
     max_per_day := 2 |}.

Lemma disabled_iff_turned_away_witness :
  In (Date.isoformat dec20) (disabled_dates full_day_page)
  <-> In (EvFlash msg_no_capacity "warning")
         (trace_of (serve (mis_citas scenario_cfg console_env ana
                                     (booking_request "2025-12-20"))
                          full_day_db)).
Proof.
  apply (Bookings.disabled_iff_turned_away scenario_cfg console_env ana
           page_request (booking_request "2025-12-20") full_day_db
           full_day_page dec20);
    reflexivity.
Defined.

Lemma booking_appears_in_listing_witness :
  In (mkListed (Some "2025-12-20") None (Some "Consulta") (Some "Por definir")
               (Some "Agendada"))
     (appointments_of_user 2
        (appointments
           (db_of (serve (mis_citas scenario_cfg console_env ana
                                    (booking_request "2025-12-20"))
                         clinic_db)))).
Proof.
  exact (proj1 (proj2 (Bookings.booking_appears_in_listing
                         scenario_cfg console_env ana
                         (booking_request "2025-12-20") clinic_db dec20
                         eq_refl eq_refl eq_refl eq_refl))).
Defined.

(** Ana, who is no administrator, calls an administrative route. *)
Definition ana_as_admin : request :=
  mkRequest POST (Some 2) [("user_id", "2"); ("fecha", "2025-12-20")].

Lemma admin_routes_refuse_others_witness :
  response_of (serve (dispatch scenario_cfg console_env RouteAdminCitas
                               ana_as_admin) clinic_db)
  = Ok (Redirect "index").
Proof.
  refine (proj1 (Access.admin_routes_refuse_others scenario_cfg console_env
                   RouteAdminCitas ana_as_admin clinic_db _ eq_refl)).
  discriminate.
Defined.

Definition visitor_request : request :=
  mkRequest POST None [("preferencia_fecha", "2025-12-20")].

Lemma mis_citas_refuses_visitors_witness :
  db_of (serve (dispatch scenario_cfg console_env RouteMisCitas
                         visitor_request) clinic_db)
  = clinic_db.
Proof.
  exact (proj1 (proj2 (Access.mis_citas_refuses_visitors scenario_cfg
                         console_env visitor_request clinic_db eq_refl))).
Defined.

Lemma booking_without_smtp_witness :
  response_of (serve (mis_citas scenario_cfg console_env ana
                                (booking_request "2025-12-20")) clinic_db)
  = Ok (Redirect "mis_citas").
Proof.
  refine (proj1 (Mail.booking_without_smtp scenario_cfg console_env ana
                   (booking_request "2025-12-20") clinic_db dec20
                   eq_refl eq_refl eq_refl eq_refl eq_refl _)).
  discriminate.
Defined.

(** [SMTP_PORT] is set to text that is no number. *)
Definition bad_port_env : env :=
  mkEnv (Date.mkDate 2025 12 1) "2025-12-01 09:00:00"
        None None None None None (fun _ => true).

Lemma booking_with_bad_port_witness :
  response_of (serve (mis_citas scenario_cfg bad_port_env ana
                                (booking_request "2025-12-20")) clinic_db)
  = Raise ValueError.
Proof.
  refine (proj1 (Mail.booking_with_bad_port scenario_cfg bad_port_env ana
                   (booking_request "2025-12-20") clinic_db dec20
                   eq_refl eq_refl eq_refl eq_refl eq_refl _)).
  discriminate.
Defined.

Lemma admin_citas_unknown_user_witness :
  response_of (serve (admin_citas console_env (admin_request "99" "2025-12-20"))
                     clinic_db)
  = Ok (Redirect "admin_citas").
Proof.
  exact (f_equal response_of
           (proj2 (Mail.admin_citas_unknown_user console_env
                     (admin_request "99" "2025-12-20") clinic_db eq_refl)
                  eq_refl eq_refl eq_refl)).
Defined.

Definition last_days_env : env :=
  mkEnv (Date.mkDate 9999 12 15) "9999-12-15 09:00:00"
        None (Some 587) None None None (fun _ => true).

Lemma page_needs_thirty_days_witness :
  serve (mis_citas scenario_cfg last_days_env ana page_request) clinic_db
  = (Raise OverflowError, clinic_db, [EvRead (QAppointmentsOfUser 2)]).
Proof.
  exact (proj2 (Horizon.page_needs_thirty_days scenario_cfg last_days_env ana
                  page_request clinic_db eq_refl eq_refl)
               eq_refl).
Defined.

Lemma empty_to_none_normalises_witness :
  Fields.empty_to_none (Some "ana") = Some "ana".
Proof.
  exact (proj2 (proj2 (proj2
           (proj2 (Fields.empty_to_none_normalises (Some "  ana  "))
                  "ana" eq_refl)))).
Defined.

Lemma clinic_ids_distinct : NoDup (map u_id (users clinic_db)).
Proof.
  repeat constructor; cbn; intros H;
    repeat (destruct H as [H|H]; [discriminate H|]); exact H.
Defined.

Definition rename_request : request :=
  mkRequest POST (Some 2) [("username", " ana maria "); ("email", "")].

Lemma perfil_update_keeps_names_apart_witness :
  map u_username
      (users (db_of (serve (Accounts.perfil_update ana rename_request)
                           clinic_db)))
  = ["admin"; "ana maria"]
  /\ Accounts.distinct
       (map u_username
            (users (db_of (serve (Accounts.perfil_update ana rename_request)
                                 clinic_db)))) = true.
Proof.
  split; [reflexivity|].
  exact (proj1 (proj2 (Accounts.perfil_update_keeps_names_apart ana
                         rename_request clinic_db clinic_ids_distinct
                         eq_refl))).
Defined.



Definition demote_request : request :=
  mkRequest POST (Some 1) [("user_id", "1"); ("role", "user")].

(** The same request with the id written with a space before it. *)
Definition demote_request_spaced : request :=
  mkRequest POST (Some 1) [("user_id", " 1"); ("role", "user")].

Lemma admin_users_role_changes_roles_only_witness :
  Accounts.roles_known
    (users (db_of (serve (Accounts.admin_users_role demote_request)
                         clinic_db)))
  /\ In (mkUser 1 "admin" (Some "admin@saludgo.local") "user")
        (users (db_of (serve (Accounts.admin_users_role demote_request_spaced)
                             clinic_db))).
Proof.
  split.
  - apply (proj2 (proj2 (proj2 (proj2 (proj2 (proj2 (proj2 (proj2
             (Accounts.admin_users_role_changes_roles_only demote_request
                clinic_db))))))))).
    intros u [<-|[<-|[]]]; [now left|now right].
  - refine (proj1 (proj2 (proj2 (proj2 (proj2 (proj2 (proj2 (proj2
             (Accounts.admin_users_role_changes_roles_only
                demote_request_spaced clinic_db))))))))
             (mkUser 1 "admin" (Some "admin@saludgo.local") "admin") "user"
             _ eq_refl eq_refl eq_refl).
    left; reflexivity.
Defined.

Lemma self_demotion_locks_out_witness :
  response_of
    (serve (dispatch scenario_cfg console_env RouteAdminCitas
                     (admin_request "2" "2025-12-20"))
           (db_of (serve (Accounts.route_admin_users_role demote_request)
                         clinic_db)))
  = Ok (Redirect "index").
Proof.
  refine (proj1 (Accounts.self_demotion_locks_out scenario_cfg console_env
                   demote_request (admin_request "2" "2025-12-20")
                   RouteAdminCitas clinic_db
                   (mkUser 1 "admin" (Some "admin@saludgo.local") "admin")
                   eq_refl eq_refl eq_refl eq_refl eq_refl _)).
  discriminate.
Defined.

Definition delete_self_request : request :=
  mkRequest POST (Some 1) [("what", "user"); ("id", "1")].

(** The administrator's own id, written [1.0]. *)
Definition delete_self_written_request : request :=
  mkRequest POST (Some 1) [("what", "user"); ("id", "1.0")].

Lemma admin_delete_keeps_appointments_witness :
  db_of (serve (Accounts.admin_delete
                  (mkUser 1 "admin" (Some "admin@saludgo.local") "admin")
                  delete_self_request) full_day_db)
  = full_day_db
  /\ ~ In (mkUser 1 "admin" (Some "admin@saludgo.local") "admin")
          (users (db_of (serve (Accounts.admin_delete
                                  (mkUser 1 "admin"
                                          (Some "admin@saludgo.local") "admin")
                                  delete_self_written_request) full_day_db)))
  /\ appointments
       (db_of (serve (Accounts.admin_delete
                        (mkUser 1 "admin" (Some "admin@saludgo.local") "admin")
                        delete_self_written_request) full_day_db))
     = appointments full_day_db.
Proof.
  split; [|split].
  - exact (proj1 (proj2 (proj2 (proj2 (proj2 (proj2
             (Accounts.admin_delete_keeps_appointments
                (mkUser 1 "admin" (Some "admin@saludgo.local") "admin")
                delete_self_request full_day_db))))))
           eq_refl).
  - intros Hin.
    pose proof (proj1 (proj2 (proj2 (proj2 (proj2 (proj2 (proj2
                  (Accounts.admin_delete_keeps_appointments
                     (mkUser 1 "admin" (Some "admin@saludgo.local") "admin")
                     delete_self_written_request full_day_db)))))))
                eq_refl ltac:(discriminate) _ Hin) as H.
    discriminate H.
  - exact (proj1 (proj2 (Accounts.admin_delete_keeps_appointments
                           (mkUser 1 "admin" (Some "admin@saludgo.local")
                                   "admin")
                           delete_self_written_request full_day_db))).
Defined.

Definition medication_request : request :=
  mkRequest POST (Some 1) [("user_id", "2"); ("medicamento", "Ibuprofeno")].

Lemma medications_create_never_registers_witness :
  response_of (serve (Medications.admin_medications_create console_env
                        medication_request) clinic_db)
  = Raise (OperationalError "no such table: medications").
Proof.
  refine (proj2 (proj2 (proj2 (proj2 (proj2 (proj2
           (Medications.medications_create_never_registers console_env
              medication_request clinic_db))))))
          eq_refl _ _); discriminate.
Defined.

End Scenarios.
